(** * Neural Collaborative Filtering quick start on MovieLens

    A shallow embedding of [examples/00_quick_start/ncf_movielens.ipynb].

    The notebook is a linear script over pandas data frames: download,
    chronological split, filter, write CSV, build the NCF dataset, build
    the model, fit, predict, score, record.  The pandas operations the
    cells use are modelled in [Pandas]; the cells themselves are in
    [Notebook], where the calls into TensorFlow and the NCF classes are
    fields of a [Library] record.  The splitter and the ranking metrics
    of the recommenders package, which the sources do not include, are
    in [Splitters] and [Evaluation]. *)

From stdpp Require Import base option list gmap strings sorting.
From Stdlib Require Import ZArith QArith Rbase Rfunctions Rpower Qreals Lra.

Local Open Scope Z_scope.

(* ================================================================== *)
(** * The pandas operations the notebook uses *)
(* ================================================================== *)

Module Pandas.

(** A Series is a column of values, each carrying its row label. *)
Definition Series (A : Type) : Type := list (Z * A).

(** A DataFrame: the column names, and the rows in positional order;
    every row carries its label (the pandas index). *)
Record DataFrame (T : Type) : Type := mkDF {
  columns : list string;
  rows : list (Z * T)
}.
Arguments mkDF {T} _ _.
Arguments columns {T} _.
Arguments rows {T} _.

Definition index {T} (df : DataFrame T) : list Z := (rows df).*1.

(** [df[name]] for a column whose cells are read by [f]. *)
Definition column {T A} (f : T → A) (df : DataFrame T) : Series A :=
  prod_map id f <$> rows df.

Definition values {A} (s : Series A) : list A := s.*2.

(** [Series.unique()]: the distinct values, in order of first
    appearance. *)
Fixpoint distinct {A} `{EqDecision A} (l : list A) : list A :=
  match l with
  | [] => []
  | x :: l' => x :: filter (λ y, y ≠ x) (distinct l')
  end.

Definition unique {A} `{EqDecision A} (s : Series A) : list A :=
  distinct (values s).

(** [Series.isin(vals)]: a boolean Series over the same labels. *)
Definition isin {A} `{EqDecision A} (s : Series A) (vals : list A)
  : Series bool :=
  prod_map id (λ v, bool_decide (v ∈ vals)) <$> s.

(** [Series.isnull()]. *)
Definition isnull {A} (s : Series (option A)) : Series bool :=
  prod_map id (λ v, if v is None then true else false) <$> s.

(** [df[mask]] for a boolean Series: the rows at which the mask is
    true, in positional order, labels and columns kept.  pandas aligns
    the mask on the frame's index; a mask over other labels is an
    IndexingError, here [None]. *)
Definition getitem_mask {T} (df : DataFrame T) (mask : Series bool)
  : option (DataFrame T) :=
  if decide (mask.*1 = index df)
  then Some (mkDF (columns df)
               ((filter (λ p, p.2 = true) (zip (rows df) (values mask))).*1))
  else None.

(** The default index of a new frame: [RangeIndex(n)]. *)
Definition range_index (n : nat) : list Z := Z.of_nat <$> seq 0 n.

Definition with_range_index {T} (l : list T) : list (Z * T) :=
  zip (range_index (length l)) l.

(** A cell of a CSV file. *)
Inductive Cell : Type :=
| CInt (z : Z)
| CFloat (q : Q)
| CEmpty.

(** A CSV file: the header line and the records, field by field. *)
Record CsvFile : Type := mkCsv {
  csv_header : list string;
  csv_records : list (list Cell)
}.

(** How a row of a frame is laid out in cells, column by column. *)
Class Cells (T : Type) : Type := cells : T → list Cell.

(** [df.to_csv(path, index=...)]: the column names form the header
    and every row one record; with [index=True] the row label comes
    first under an empty name, with [index=False] it is left out. *)
Definition to_csv {T} `{Cells T} (df : DataFrame T) (with_index : bool)
  : CsvFile :=
  {| csv_header := (if with_index then [""%string] else []) ++ columns df;
     csv_records :=
       (λ p, (if with_index then [CInt p.1] else []) ++ cells p.2)
         <$> rows df |}.

End Pandas.
Export Pandas.

(* ================================================================== *)
(** * The ratings table *)
(* ================================================================== *)

(** One ratings record.  The four cells are the columns, in order, of
    the frame that [movielens.load_pandas_df] returns; ratings of the
    MovieLens files are never missing. *)
Record Rating : Type := mkRating {
  userID : Z;
  itemID : Z;
  rating : Q;
  timestamp : Z
}.

Definition header : list string :=
  ["userID"; "itemID"; "rating"; "timestamp"]%string.

#[global] Instance Rating_cells : Cells Rating :=
  λ r, [CInt (userID r); CInt (itemID r); CFloat (rating r);
        CInt (timestamp r)].

(** The key a frame is merged on: [on=["userID", "itemID"]]. *)
Definition rating_key (r : Rating) : Z * Z := (userID r, itemID r).

(** A row of the frame cell 21 builds from the lists [users], [items]
    and [preds]. *)
Record Prediction : Type := mkPrediction {
  p_userID : Z;
  p_itemID : Z;
  p_prediction : Q
}.

Definition prediction_key (r : Prediction) : Z * Z := (p_userID r, p_itemID r).

(** A row of [merged]: the key, the other columns of the left frame and
    the other columns of the right frame.  A cell of a side that has no
    row for the key is null. *)
Record Merged : Type := mkMerged {
  m_userID : Z;
  m_itemID : Z;
  m_rating : option Q;
  m_timestamp : option Z;
  m_prediction : option Q
}.

(** A row of [merged] once the rating column is dropped. *)
Record Unseen : Type := mkUnseen {
  u_userID : Z;
  u_itemID : Z;
  u_timestamp : option Z;
  u_prediction : option Q
}.

Definition unseen_key (r : Unseen) : Z * Z := (u_userID r, u_itemID r).

(** [pd.DataFrame(data={"userID": users, "itemID": items,
    "prediction": preds})]: a ValueError, here [None], unless the three
    lists have one length. *)
Definition frame_of_lists (users items : list Z) (preds : list Q)
  : option (DataFrame Prediction) :=
  if decide (length users = length items ∧ length items = length preds)
  then Some (mkDF ["userID"; "itemID"; "prediction"]%string
               (with_range_index
                  (zip_with (λ ui p, mkPrediction ui.1 ui.2 p)
                     (zip users items) preds)))
  else None.

Definition merged_key (r : Merged) : Z * Z := (m_userID r, m_itemID r).

(** Keys in lexicographic order. *)
Definition key_le (a b : Z * Z) : Prop :=
  a.1 < b.1 ∨ (a.1 = b.1 ∧ a.2 ≤ b.2).

#[global] Instance key_le_dec a b : Decision (key_le a b).
Proof. unfold key_le. apply _. Defined.

(** The rows of an outer merge for one key: every pairing of a left row
    with a right row, or the rows of the one side alone, the cells of
    the other side null. *)
Definition merge_group (ls : list Rating) (rs : list Prediction)
  : list Merged :=
  match ls, rs with
  | [], _ =>
      (λ r, mkMerged (p_userID r) (p_itemID r) None None
              (Some (p_prediction r))) <$> rs
  | _, [] =>
      (λ l, mkMerged (userID l) (itemID l) (Some (rating l))
              (Some (timestamp l)) None) <$> ls
  | _, _ =>
      l ← ls; r ← rs;
      [mkMerged (userID l) (itemID l) (Some (rating l))
         (Some (timestamp l)) (Some (p_prediction r))]
  end.

(** The keys of either frame, each once, sorted. *)
Definition merge_keys (left : DataFrame Rating) (right : DataFrame Prediction)
  : list (Z * Z) :=
  merge_sort key_le
    (distinct ((rating_key ∘ snd <$> rows left)
               ++ (prediction_key ∘ snd <$> rows right))).

(** [pd.merge(left, right, on=["userID", "itemID"], how="outer")]: the
    union of the keys of both frames, sorted lexicographically; the
    columns of the left frame followed by the other columns of the right
    one; a new range index. *)
Definition merge_outer (left : DataFrame Rating) (right : DataFrame Prediction)
  : DataFrame Merged :=
  mkDF (columns left
        ++ filter (λ c, c ∉ ["userID"; "itemID"]%string) (columns right))
    (with_range_index
       (merge_keys left right ≫= λ k,
          merge_group
            (filter (λ l, rating_key l = k) (rows left).*2)
            (filter (λ r, prediction_key r = k) (rows right).*2))).

(** [df.drop('rating', axis=1)]. *)
Definition drop_rating (df : DataFrame Merged) : DataFrame Unseen :=
  mkDF (filter (λ c, c ≠ "rating"%string) (columns df))
    (prod_map id
       (λ m, mkUnseen (m_userID m) (m_itemID m) (m_timestamp m)
               (m_prediction m))
     <$> rows df).

(** Cell 12, first assignment:
    [test = test[test["userID"].isin(train["userID"].unique())]] *)
Definition filter_users (train test : DataFrame Rating)
  : option (DataFrame Rating) :=
  getitem_mask test (isin (column userID test) (unique (column userID train))).

(** Cell 12, second assignment:
    [test = test[test["itemID"].isin(train["itemID"].unique())]] *)
Definition filter_items (train test : DataFrame Rating)
  : option (DataFrame Rating) :=
  getitem_mask test (isin (column itemID test) (unique (column itemID train))).

(** Cell 12 as a whole, on the values of [train] and [test]. *)
Definition filter_test (train test : DataFrame Rating)
  : option (DataFrame Rating) :=
  test1 ← filter_users train test;
  filter_items train test1.

(* ================================================================== *)
(** * The chronological splitter *)
(* ================================================================== *)

Module Splitters.

(** Python's [round]: the nearest integer, a tie going to the even
    neighbour. *)
Definition py_round (x : Q) : Z :=
  let d := Z.pos (Qden x) in
  let q := Qnum x / d in
  let r := Qnum x mod d in
  if decide (2 * r < d) then q
  else if decide (d < 2 * r) then q + 1
  else if Z.even q then q else q + 1.

(** Rows compared on the timestamp column. *)
Definition ts_le (a b : Z * Rating) : Prop :=
  timestamp a.2 ≤ timestamp b.2.

#[global] Instance ts_le_dec a b : Decision (ts_le a b).
Proof. unfold ts_le. apply _. Defined.

(** The users of a frame in ascending order, each once. *)
Definition users_of (df : DataFrame Rating) : list Z :=
  merge_sort Z.le (distinct (userID ∘ snd <$> rows df)).

(** One user's rows, oldest first. *)
Definition group (df : DataFrame Rating) (u : Z) : list (Z * Rating) :=
  merge_sort ts_le (filter (λ p, userID p.2 = u) (rows df)).

(** How many rows of a group go to the first split. *)
Definition cut (ratio : Q) (g : list (Z * Rating)) : nat :=
  Z.to_nat (py_round (inject_Z (Z.of_nat (length g)) * ratio)).

(** Modelled from the spec: [python_chrono_split] of
    [recommenders.datasets.python_splitters], which is not among the
    sources.  The spec calls it a chronological split, "partitioning
    interaction records into train/test sets by timestamp order rather
    than randomly", and the notebook calls it with the ratio 0.75.
    The rows are ordered by user and then by timestamp; of a user's
    [n] rows the first [round(n * ratio)] go to the first frame and
    the others to the second.  Row labels and columns are kept.  The
    order among rows of one user with equal timestamps is that of the
    sort and nothing below depends on it. *)
Definition python_chrono_split (df : DataFrame Rating) (ratio : Q)
  : DataFrame Rating * DataFrame Rating :=
  (mkDF (columns df)
     (users_of df ≫= λ u, take (cut ratio (group df u)) (group df u)),
   mkDF (columns df)
     (users_of df ≫= λ u, drop (cut ratio (group df u)) (group df u))).

(** How many rows of a frame belong to user [u]. *)
Definition n_ratings (df : DataFrame Rating) (u : Z) : nat :=
  length (filter (λ p, userID p.2 = u) (rows df)).

End Splitters.
Export Splitters.

(* ================================================================== *)
(** * The ranking metrics *)
(* ================================================================== *)

Module Evaluation.

(** Modelled from the spec: [map_at_k], [ndcg_at_k], [precision_at_k]
    and [recall_at_k] of [recommenders.evaluation.python_evaluation],
    which are not among the sources.  The spec calls them "standard
    ranking-quality metrics evaluated against a held-out test set";
    they are modelled the way the package computes them.  The users
    scored are those of both frames.  A user's recommendations are
    the user's first [k] prediction rows by falling prediction, ranked
    from 1.  The hits are the rows of the merge of the recommendations
    with the test rows on user and item: one row for every pairing of
    a recommended row with a test row, so that a pair repeated in a
    frame counts as often as it is repeated.  The relevant items of a
    user are counted by the test rows of the user.  A metric is the
    sum of the users' scores over the number of the users scored, and
    0 when there is none.  Precision, recall and average precision are
    rationals; the discounted gain takes a logarithm and is a real
    number.  Python's floating-point rounding is not modelled. *)

(** The users to score. *)
Definition common_users (test : DataFrame Rating) (preds : DataFrame Unseen)
  : list Z :=
  filter (λ u, u ∈ (u_userID <$> (rows preds).*2))
    (distinct (userID <$> (rows test).*2)).

(** The test rows of a user: [actual] is their number. *)
Definition actual (test : DataFrame Rating) (u : Z) : list Rating :=
  filter (λ r, userID r = u) (rows test).*2.

(** Rows by falling prediction; a null prediction comes last. *)
Definition score_ge (a b : Unseen) : Prop :=
  match u_prediction a, u_prediction b with
  | Some x, Some y => (y <= x)%Q
  | None, Some _ => False
  | _, None => True
  end.

#[global] Instance score_ge_dec a b : Decision (score_ge a b).
Proof.
  unfold score_ge. destruct (u_prediction a) as [x|], (u_prediction b) as [y|];
    try apply _.
  destruct (Qlt_le_dec x y) as [Hlt|Hle]; [right|left]; [|done].
  by apply Qlt_not_le.
Defined.

(** The items of rows with their ranks, from [rank] on. *)
Fixpoint ranked (rank : nat) (items : list Z) : list (nat * Z) :=
  match items with
  | [] => []
  | i :: items' => (rank, i) :: ranked (S rank) items'
  end.

(** [get_top_k_items]: the first [k] rows of a user by falling
    prediction, ranked from 1. *)
Definition top_k (preds : DataFrame Unseen) (k : nat) (u : Z)
  : list (nat * Z) :=
  ranked 1
    (u_itemID
       <$> take k
             (merge_sort score_ge
                (filter (λ r, u_userID r = u) (rows preds).*2))).

(** How many test rows of a user an item has. *)
Definition matches (test : DataFrame Rating) (u i : Z) : nat :=
  length (filter (λ r, itemID r = i) (actual test u)).

(** The ranks of the hit rows of a user: the rank of a recommended
    row, once for every test row of the user with its item. *)
Definition hit_ranks (test : DataFrame Rating) (preds : DataFrame Unseen)
    (k : nat) (u : Z) : list nat :=
  top_k preds k u ≫= λ p, replicate (matches test u p.2) p.1.

Definition Qsum (xs : list Q) : Q := foldr Qplus 0%Q xs.

Definition Qmean (xs : list Q) : Q :=
  match xs with
  | [] => 0%Q
  | _ => (Qsum xs / inject_Z (Z.of_nat (length xs)))%Q
  end.

Definition Rsum (xs : list R) : R := foldr Rplus 0%R xs.

Definition Rmean (xs : list R) : R :=
  match xs with
  | [] => 0%R
  | _ => (Rsum xs / INR (length xs))%R
  end.

Definition Qnat (n : nat) : Q := inject_Z (Z.of_nat n).

(** Precision at [k]: the hits over [k]. *)
Definition precision_at_k (test : DataFrame Rating) (preds : DataFrame Unseen)
    (k : nat) : Q :=
  Qmean
    ((λ u, (Qnat (length (hit_ranks test preds k u)) / Qnat k)%Q)
     <$> common_users test preds).

(** Recall at [k]: the hits over the test rows. *)
Definition recall_at_k (test : DataFrame Rating) (preds : DataFrame Unseen)
    (k : nat) : Q :=
  Qmean
    ((λ u, (Qnat (length (hit_ranks test preds k u))
            / Qnat (length (actual test u)))%Q)
     <$> common_users test preds).

(** Down the hit rows, [found] of them passed: the sum of the number
    of hit rows so far over the rank of the hit row. *)
Fixpoint reciprocal_ranks (found : nat) (ranks : list nat) : Q :=
  match ranks with
  | [] => 0%Q
  | r :: ranks' =>
      (Qnat (S found) / Qnat r + reciprocal_ranks (S found) ranks')%Q
  end.

(** Mean average precision at [k]. *)
Definition map_at_k (test : DataFrame Rating) (preds : DataFrame Unseen)
    (k : nat) : Q :=
  Qmean
    ((λ u, (reciprocal_ranks 0 (hit_ranks test preds k u)
            / Qnat (length (actual test u)))%Q)
     <$> common_users test preds).

(** The gain of a hit at a rank: [1 / log1p(rank)]. *)
Definition discount (rank : nat) : R := (/ ln (1 + INR rank))%R.

(** The gain of [n] hits at the ranks from [rank] on. *)
Fixpoint ideal_dcg (rank n : nat) : R :=
  match n with
  | O => 0%R
  | S n' => (discount rank + ideal_dcg (S rank) n')%R
  end.

(** Normalized discounted cumulative gain at [k]: the gain of the hit
    rows over the gain of hits at the first [min(actual, k)] ranks. *)
Definition ndcg_at_k (test : DataFrame Rating) (preds : DataFrame Unseen)
    (k : nat) : R :=
  Rmean
    ((λ u, (Rsum (discount <$> hit_ranks test preds k u)
            / ideal_dcg 1 (min (length (actual test u)) k))%R)
     <$> common_users test preds).

End Evaluation.

(* ================================================================== *)
(** * The notebook *)
(* ================================================================== *)

Module Notebook.

(** The keyword arguments of the [NCF] constructor. *)
Record NCFParams : Type := mkNCFParams {
  n_users : Z;
  n_items : Z;
  model_type : string;
  n_factors : Z;
  layer_sizes : list Z;
  n_epochs : Z;
  batch_size : Z;
  learning_rate : Q;
  verbose : Z;
  seed : Z
}.

(** The library calls of the pipeline that can raise. *)
Inductive Stage : Type :=
| LoadData
| BuildDataset
| BuildModel
| Fit
| Predict
| MapAtK
| NdcgAtK
| PrecisionAtK
| RecallAtK.

(** A frame object of the kernel's memory. *)
Inductive FrameObj : Type :=
| FRatings (df : DataFrame Rating)
| FPredictions (df : DataFrame Prediction)
| FMerged (df : DataFrame Merged)
| FUnseen (df : DataFrame Unseen).

Section Kernel.
(** What the libraries raise, and the dataset and model objects
    they hand back. *)
Context {E Dataset Model : Type}.

Inductive PyExc : Type :=
| NameError (name : string)
| TypeError (name : string)
| ValueError (msg : string)
| IndexingError
| LibraryError (e : E).

(** What a variable can hold.  A frame is held by reference; a timer
    holds its interval once it is stopped. *)
Inductive Value : Type :=
| VInt (z : Z)
| VStr (s : string)
| VFloat (q : Q)
| VInts (l : list Z)
| VFloats (l : list Q)
| VFrame (a : nat)
| VDataset (d : Dataset)
| VModel (m : Model)
| VTimer (interval : option Q).

(** What the notebook does that is visible from outside, in order:
    a library call with the exception it raised, if any; a [print]
    with its separator and its formatted arguments (template and
    value); a scrapbook [glue]. *)
Inductive Event : Type :=
| Call (st : Stage) (raised : option E)
| Print (sep : string) (items : list (string * Value))
| Glue (name : string) (v : Value).

(** The libraries behind the notebook.  Their code is not the
    notebook's; a call either raises or returns. *)
Record Library : Type := mkLibrary {
  sys_version : string;
  pd_version : string;
  tf_version : string;
  movielens_download : string → E + list Rating;
  NCFDataset : option CsvFile → option CsvFile → Z → E + Dataset;
  ds_n_users : Dataset → Z;
  ds_n_items : Dataset → Z;
  NCF : gmap string string → NCFParams → E + Model;
  fit : Model → Dataset → E + Model;
  predict : Model → list Z → list Z → E + list Q;
  map_at_k : DataFrame Rating → DataFrame Unseen → Z → E + Q;
  ndcg_at_k : DataFrame Rating → DataFrame Unseen → Z → E + Q;
  precision_at_k : DataFrame Rating → DataFrame Unseen → Z → E + Q;
  recall_at_k : DataFrame Rating → DataFrame Unseen → Z → E + Q;
  is_jupyter : bool;
  elapsed : list Event → Q
}.

(** The state of the kernel and of its process: the global
    variables, the frame objects, [os.environ], the files written,
    and the events so far. *)
Record State : Type := mkState {
  globals : gmap string Value;
  heap : list FrameObj;
  environ : gmap string string;
  files : gmap string CsvFile;
  trace : list Event
}.

(** A computation runs on a state and either raises or returns; the
    state it leaves is kept in both cases. *)
Definition M (A : Type) : Type := State → (PyExc + A) * State.

#[global] Instance M_ret : MRet M := λ A x s, (inr x, s).

#[global] Instance M_bind : MBind M := λ A B f m s,
  match m s with
  | (inl e, s') => (inl e, s')
  | (inr x, s') => f x s'
  end.

Definition raise {A} (e : PyExc) : M A := λ s, (inl e, s).

Definition from_option {A} (e : PyExc) (o : option A) : M A :=
  match o with Some x => mret x | None => raise e end.

(** Reading and assigning a global variable. *)
Definition get (x : string) : M Value := λ s,
  match globals s !! x with
  | Some v => (inr v, s)
  | None => (inl (NameError x), s)
  end.

Definition assign_in (x : string) (v : Value) (s : State) : State :=
  mkState (<[x := v]> (globals s)) (heap s) (environ s) (files s)
    (trace s).

Definition assign (x : string) (v : Value) : M unit := λ s,
  (inr tt, assign_in x v s).

(** A new frame object; its address is returned. *)
Definition alloc (o : FrameObj) : M nat := λ s,
  (inr (length (heap s)),
   mkState (globals s) (heap s ++ [o]) (environ s) (files s) (trace s)).

Definition deref (x : string) (a : nat) : M FrameObj := λ s,
  match heap s !! a with
  | Some o => (inr o, s)
  | None => (inl (TypeError x), s)
  end.

Definition log (ev : Event) : M unit := λ s,
  (inr tt,
   mkState (globals s) (heap s) (environ s) (files s) (trace s ++ [ev])).

(** A library call: it is recorded with its outcome, and what it
    raises is raised. *)
Definition call {A} (st : Stage) (r : E + A) : M A :=
  match r with
  | inl e => log (Call st (Some e));; raise (LibraryError e)
  | inr x => log (Call st None);; mret x
  end.

Definition print (sep : string) (items : list (string * Value))
  : M unit :=
  log (Print sep items).

Definition glue (name : string) (v : Value) : M unit :=
  log (Glue name v).

(** [os.environ[k] = v] *)
Definition setenv (k v : string) : M unit := λ s,
  (inr tt,
   mkState (globals s) (heap s) (<[k := v]> (environ s)) (files s)
     (trace s)).

Definition getenv : M (gmap string string) := λ s, (inr (environ s), s).

Definition write_file (path : string) (f : CsvFile) : M unit := λ s,
  (inr tt,
   mkState (globals s) (heap s) (environ s) (<[path := f]> (files s))
     (trace s)).

Definition read_file (path : string) : M (option CsvFile) := λ s,
  (inr (files s !! path), s).

(** [for x in xs: body] *)
Fixpoint for_each {A} (xs : list A) (body : A → M unit) : M unit :=
  match xs with
  | [] => mret tt
  | x :: xs' => body x;; for_each xs' body
  end.

(** Reading a variable at the type an operation needs. *)
Definition get_int (x : string) : M Z :=
  v ← get x;
  match v with VInt z => mret z | _ => raise (TypeError x) end.

Definition get_str (x : string) : M string :=
  v ← get x;
  match v with VStr t => mret t | _ => raise (TypeError x) end.

Definition get_float (x : string) : M Q :=
  v ← get x;
  match v with VFloat q => mret q | _ => raise (TypeError x) end.

Definition get_ints (x : string) : M (list Z) :=
  v ← get x;
  match v with VInts l => mret l | _ => raise (TypeError x) end.

Definition get_floats (x : string) : M (list Q) :=
  v ← get x;
  match v with VFloats l => mret l | _ => raise (TypeError x) end.

Definition get_dataset (x : string) : M Dataset :=
  v ← get x;
  match v with VDataset d => mret d | _ => raise (TypeError x) end.

Definition get_model (x : string) : M Model :=
  v ← get x;
  match v with VModel m => mret m | _ => raise (TypeError x) end.

Definition get_frame (x : string) : M FrameObj :=
  v ← get x;
  match v with VFrame a => deref x a | _ => raise (TypeError x) end.

Definition get_ratings (x : string) : M (DataFrame Rating) :=
  o ← get_frame x;
  match o with FRatings df => mret df | _ => raise (TypeError x) end.

Definition get_predictions (x : string) : M (DataFrame Prediction) :=
  o ← get_frame x;
  match o with FPredictions df => mret df | _ => raise (TypeError x) end.

Definition get_merged (x : string) : M (DataFrame Merged) :=
  o ← get_frame x;
  match o with FMerged df => mret df | _ => raise (TypeError x) end.

Definition get_unseen (x : string) : M (DataFrame Unseen) :=
  o ← get_frame x;
  match o with FUnseen df => mret df | _ => raise (TypeError x) end.

(** [x.interval] of a timer: a ValueError while it runs. *)
Definition get_interval (x : string) : M Q :=
  v ← get x;
  match v with
  | VTimer (Some q) => mret q
  | VTimer None => raise (ValueError "Timer has not been stopped")
  | _ => raise (TypeError x)
  end.

(** [x = <a new frame>] *)
Definition assign_frame (x : string) (o : FrameObj) : M unit :=
  a ← alloc o; assign x (VFrame a).

Variable lib : Library.

(** Modelled from the spec: the class [Timer] of
    [recommenders.utils.timer], which is not among the sources.
    [with Timer() as x: body] binds [x] to a running timer, runs the
    block and stops the timer, whose interval is the time the
    events of the block took.  The spec has no error handling
    anywhere: when the block raises, the timer is stopped all the
    same and the exception goes on as it is. *)
Definition with_timer (x : string) (body : M unit) : M unit := λ s,
  let s0 := assign_in x (VTimer None) s in
  let '(r, s1) := body s0 in
  (r, assign_in x
        (VTimer (Some (elapsed lib (drop (length (trace s0)) (trace s1)))))
        s1).

(** Modelled from the spec: [movielens.load_pandas_df] of
    [recommenders.datasets.movielens], which is not among the
    sources.  It downloads the ratings of the data set of the given
    size and returns them as a frame "with columns userID, itemID,
    rating, timestamp": the names given as [header], over a new
    range index. *)
Definition load_pandas_df (size : string) (header : list string)
  : M (DataFrame Rating) :=
  rs ← call LoadData (movielens_download lib size);
  mret (mkDF header (with_range_index rs)).

(** Cell 3: the imports, and the three version lines. *)
Definition cell_3 : M unit :=
  print " " [("System version: {}", VStr (sys_version lib))];;
  print " " [("Pandas version: {}", VStr (pd_version lib))];;
  print " " [("Tensorflow version: {}", VStr (tf_version lib))].

(** Cell 4: [os.environ["CUDA_VISIBLE_DEVICES"] = "0"] *)
Definition cell_4 : M unit :=
  setenv "CUDA_VISIBLE_DEVICES" "0".

(** Cell 6: the parameters. *)
Definition cell_6 : M unit :=
  assign "TOP_K" (VInt 10);;
  assign "MOVIELENS_DATA_SIZE" (VStr "1m");;
  assign "EPOCHS" (VInt 50);;
  assign "BATCH_SIZE" (VInt 16384);;
  assign "SEED" (VInt 42).

(** Cell 8:
    [df = movielens.load_pandas_df(size=MOVIELENS_DATA_SIZE,
            header=["userID", "itemID", "rating", "timestamp"])] *)
Definition cell_8 : M unit :=
  size ← get_str "MOVIELENS_DATA_SIZE";
  df ← load_pandas_df size ["userID"; "itemID"; "rating"; "timestamp"];
  assign_frame "df" (FRatings df).

(** Cell 10: [train, test = python_chrono_split(df, 0.75)] *)
Definition cell_10 : M unit :=
  df ← get_ratings "df";
  a1 ← alloc (FRatings (python_chrono_split df (3 # 4)).1);
  a2 ← alloc (FRatings (python_chrono_split df (3 # 4)).2);
  assign "train" (VFrame a1);;
  assign "test" (VFrame a2).

(** Cell 12:
    [test = test[test["userID"].isin(train["userID"].unique())]]
    [test = test[test["itemID"].isin(train["itemID"].unique())]] *)
Definition cell_12 : M unit :=
  test ← get_ratings "test";
  train ← get_ratings "train";
  test1 ← from_option IndexingError (filter_users train test);
  assign_frame "test" (FRatings test1);;
  test ← get_ratings "test";
  train ← get_ratings "train";
  test2 ← from_option IndexingError (filter_items train test);
  assign_frame "test" (FRatings test2).

(** Cell 14:
    [train_file = "./train.csv"]
    [test_file = "./test.csv"]
    [train.to_csv(train_file, index=False)]
    [test.to_csv(test_file, index=False)] *)
Definition cell_14 : M unit :=
  assign "train_file" (VStr "./train.csv");;
  assign "test_file" (VStr "./test.csv");;
  train ← get_ratings "train";
  path ← get_str "train_file";
  write_file path (to_csv train false);;
  test ← get_ratings "test";
  path ← get_str "test_file";
  write_file path (to_csv test false).

(** Cell 16:
    [data = NCFDataset(train_file=train_file, test_file=test_file,
                       seed=SEED)] *)
Definition cell_16 : M unit :=
  train_file ← get_str "train_file";
  test_file ← get_str "test_file";
  seed ← get_int "SEED";
  f1 ← read_file train_file;
  f2 ← read_file test_file;
  data ← call BuildDataset (NCFDataset lib f1 f2 seed);
  assign "data" (VDataset data).

(** Cell 18: [model = NCF(n_users=data.n_users, ..., seed=SEED)] *)
Definition cell_18 : M unit :=
  data ← get_dataset "data";
  epochs ← get_int "EPOCHS";
  batch ← get_int "BATCH_SIZE";
  seed ← get_int "SEED";
  env ← getenv;
  model ← call BuildModel
    (NCF lib env
       {| n_users := ds_n_users lib data;
          n_items := ds_n_items lib data;
          model_type := "NeuMF";
          n_factors := 4;
          layer_sizes := [16; 8; 4];
          n_epochs := epochs;
          batch_size := batch;
          learning_rate := 1 # 1000;
          verbose := 1;
          seed := seed |});
  assign "model" (VModel model).

(** Cell 19:
    [with Timer() as train_time:]
    [    model.fit(data)]
    [print("Took {} seconds for training.".format(train_time))]
    [fit] updates the model in place. *)
Definition cell_19 : M unit :=
  with_timer "train_time"
    (model ← get_model "model";
     data ← get_dataset "data";
     fitted ← call Fit (fit lib model data);
     assign "model" (VModel fitted));;
  t ← get "train_time";
  print " " [("Took {} seconds for training.", t)].

(** The body of the loop of cell 21:
    [user = [user] * len(item)]
    [users.extend(user)]
    [items.extend(item)]
    [preds.extend(list(model.predict(user, item, is_list=True)))] *)
Definition predict_user (u : Z) : M unit :=
  assign "user" (VInt u);;
  u0 ← get_int "user";
  item ← get_ints "item";
  assign "user" (VInts (replicate (length item) u0));;
  users ← get_ints "users";
  user ← get_ints "user";
  assign "users" (VInts (users ++ user));;
  items ← get_ints "items";
  item ← get_ints "item";
  assign "items" (VInts (items ++ item));;
  preds ← get_floats "preds";
  model ← get_model "model";
  user ← get_ints "user";
  item ← get_ints "item";
  ps ← call Predict (predict lib model user item);
  assign "preds" (VFloats (preds ++ ps)).

(** Cell 21:
    [with Timer() as test_time:]
    [    users, items, preds = [], [], []]
    [    item = list(train.itemID.unique())]
    [    for user in train.userID.unique(): ...]
    [    all_predictions = pd.DataFrame(data={"userID": users,
             "itemID": items, "prediction": preds})]
    [    merged = pd.merge(train, all_predictions,
             on=["userID", "itemID"], how="outer")]
    [    all_predictions =
             merged[merged.rating.isnull()].drop('rating', axis=1)]
    [print("Took {} seconds for prediction.".format(test_time))] *)
Definition cell_21 : M unit :=
  with_timer "test_time"
    (assign "users" (VInts []);;
     assign "items" (VInts []);;
     assign "preds" (VFloats []);;
     train ← get_ratings "train";
     assign "item" (VInts (unique (column itemID train)));;
     train ← get_ratings "train";
     for_each (unique (column userID train)) predict_user;;
     users ← get_ints "users";
     items ← get_ints "items";
     preds ← get_floats "preds";
     df ← from_option (ValueError "All arrays must be of the same length")
            (frame_of_lists users items preds);
     assign_frame "all_predictions" (FPredictions df);;
     train ← get_ratings "train";
     all_predictions ← get_predictions "all_predictions";
     assign_frame "merged" (FMerged (merge_outer train all_predictions));;
     merged ← get_merged "merged";
     masked ← from_option IndexingError
                (getitem_mask merged (isnull (column m_rating merged)));
     _ ← alloc (FMerged masked);
     assign_frame "all_predictions" (FUnseen (drop_rating masked)));;
  t ← get "test_time";
  print " " [("Took {} seconds for prediction.", t)].

(** One evaluation of cell 24:
    [x = metric(test, all_predictions, col_prediction='prediction',
                k=TOP_K)] *)
Definition evaluate (st : Stage)
    (metric : DataFrame Rating → DataFrame Unseen → Z → E + Q)
    (x : string) : M unit :=
  test ← get_ratings "test";
  all_predictions ← get_unseen "all_predictions";
  k ← get_int "TOP_K";
  v ← call st (metric test all_predictions k);
  assign x (VFloat v).

(** Cell 24: the four evaluations, and
    [print("MAP:\t%f" % eval_map, "NDCG:\t%f" % eval_ndcg,
           "Precision@K:\t%f" % eval_precision,
           "Recall@K:\t%f" % eval_recall, sep='\n')] *)
Definition cell_24 : M unit :=
  evaluate MapAtK (map_at_k lib) "eval_map";;
  evaluate NdcgAtK (ndcg_at_k lib) "eval_ndcg";;
  evaluate PrecisionAtK (precision_at_k lib) "eval_precision";;
  evaluate RecallAtK (recall_at_k lib) "eval_recall";;
  m ← get_float "eval_map";
  n ← get_float "eval_ndcg";
  p ← get_float "eval_precision";
  r ← get_float "eval_recall";
  print "\n"
    [("MAP:\t%f", VFloat m); ("NDCG:\t%f", VFloat n);
     ("Precision@K:\t%f", VFloat p); ("Recall@K:\t%f", VFloat r)].

(** Cell 25:
    [if is_jupyter():]
    [    sb.glue("map", eval_map)]
    [    sb.glue("ndcg", eval_ndcg)]
    [    sb.glue("precision", eval_precision)]
    [    sb.glue("recall", eval_recall)]
    [    sb.glue("train_time", train_time.interval)]
    [    sb.glue("test_time", test_time.interval)] *)
Definition cell_25 : M unit :=
  if is_jupyter lib then
    v ← get "eval_map"; glue "map" v;;
    v ← get "eval_ndcg"; glue "ndcg" v;;
    v ← get "eval_precision"; glue "precision" v;;
    v ← get "eval_recall"; glue "recall" v;;
    t ← get_interval "train_time"; glue "train_time" (VFloat t);;
    t ← get_interval "test_time"; glue "test_time" (VFloat t)
  else mret tt.

(** The cells from the download to the CSV files. *)
Definition load_split_write : M unit :=
  cell_3;; cell_4;; cell_6;; cell_8;; cell_10;; cell_12;; cell_14.

(** The cells up to the construction of the model. *)
Definition prepare : M unit :=
  load_split_write;; cell_16;; cell_18.

(** The cells from the training to the evaluation. *)
Definition train_and_score : M unit :=
  cell_19;; cell_21;; cell_24.

(** The notebook, run from top to bottom: a cell that raises ends
    the run. *)
Definition notebook : M unit :=
  prepare;; train_and_score;; cell_25.

(** The exception a run ended with, if any. *)
Definition raised {A} (r : PyExc + A) : option PyExc :=
  match r with inl e => Some e | inr _ => None end.

(** A relation between the state before a run, the exception the
    run ended with and the state after it, that holds of every run
    of a computation. *)
Definition steps (Rel : State → option PyExc → State → Prop)
    {A} (m : M A) : Prop :=
  ∀ s, Rel s (raised (m s).1) (m s).2.

(** A relation between the states before and after, whatever the
    outcome. *)
Definition always (Rel : relation State)
  : State → option PyExc → State → Prop :=
  λ s _ s', Rel s s'.

(** A relation that the empty run satisfies, that sequential
    composition preserves, and that holds when an exception of the
    kernel's own is raised on the spot. *)
Class Compositional (Rel : State → option PyExc → State → Prop) : Prop := {
  comp_ret : ∀ s, Rel s None s;
  comp_seq : ∀ s s1 s2 r, Rel s None s1 → Rel s1 r s2 → Rel s r s2;
  comp_raise : ∀ s e, (∀ x, e ≠ LibraryError x) → Rel s (Some e) s
}.

(** From [s] to [s'] no variable but [x] is assigned and no frame
    object, environment variable, file or event of [s] is touched:
    the memory only grows. *)
Definition only_assigns (x : string) (s s' : State) : Prop :=
  (∀ y, y ≠ x → globals s' !! y = globals s !! y)
  ∧ heap s `prefix_of` heap s'
  ∧ environ s' = environ s
  ∧ files s' = files s
  ∧ trace s' = trace s.

(** From [s] to [s'] the process environment is not written. *)
Definition same_environ (s s' : State) : Prop :=
  environ s' = environ s.

(** An event other than a library call that raised. *)
Definition quiet (ev : Event) : Prop :=
  match ev with Call _ (Some _) => False | _ => True end.

(** A run in which a library call that raises ends the run with the
    exception it raised: no event follows it, and no call before it
    raised. *)
Definition propagates (s : State) (r : option PyExc) (s' : State)
  : Prop :=
  ∃ new, trace s' = trace s ++ new ∧
    match r with
    | Some (LibraryError x) =>
        ∃ pre st, new = pre ++ [Call st (Some x)] ∧ Forall quiet pre
    | _ => Forall quiet new
    end.

(** A scrapbook record. *)
Definition is_glue (ev : Event) : Prop :=
  match ev with Glue _ _ => True | _ => False end.

(** From [s] to [s'] nothing is recorded in the scrapbook. *)
Definition no_glue (s s' : State) : Prop :=
  ∃ new, trace s' = trace s ++ new ∧ Forall (λ ev, ¬ is_glue ev) new.

(** Variable [x] refers to the frame object [o]. *)
Definition refers_to (x : string) (o : FrameObj) (s : State) : Prop :=
  ∃ a, globals s !! x = Some (VFrame a) ∧ heap s !! a = Some o.

(** A fresh kernel in a process with environment [env]. *)
Definition fresh (env : gmap string string) : State :=
  mkState ∅ [] env ∅ [].

(** From [s] to [s'] none of the variables [xs] is assigned and no
    frame object of [s] is touched. *)
Definition keeps (xs : list string) (s s' : State) : Prop :=
  (∀ x, x ∈ xs → globals s' !! x = globals s !! x)
  ∧ heap s `prefix_of` heap s'.

(** From [s] to [s'] no file but those at [paths] is written. *)
Definition writes_only (paths : list string) (s s' : State) : Prop :=
  ∀ p, p ∉ paths → files s' !! p = files s !! p.

(** From [s] to [s'] turns of the loop of cell 21 have appended [U]
    to [users], [I] to [items] and [P] to [preds] and left the events
    [evs]; beside these three lists and [user] nothing is written. *)
Definition appended (U I : list Z) (P : list Q) (evs : list Event)
    (s s' : State) : Prop :=
  (∀ l, globals s !! "users" = Some (VInts l) →
        globals s' !! "users" = Some (VInts (l ++ U)))
  ∧ (∀ l, globals s !! "items" = Some (VInts l) →
          globals s' !! "items" = Some (VInts (l ++ I)))
  ∧ (∀ l, globals s !! "preds" = Some (VFloats l) →
          globals s' !! "preds" = Some (VFloats (l ++ P)))
  ∧ (∀ y, y ∉ ["user"; "users"; "items"; "preds"]%string →
          globals s' !! y = globals s !! y)
  ∧ heap s' = heap s
  ∧ environ s' = environ s
  ∧ files s' = files s
  ∧ trace s' = trace s ++ evs.


(** The ways a run from top to bottom can end: it returns, a library
    call raised, or [pd.DataFrame] was given lists of different
    lengths. *)
Definition foreseen {A} (r : PyExc + A) : Prop :=
  match r with
  | inr _ => True
  | inl (LibraryError _) => True
  | inl (ValueError msg) => msg = "All arrays must be of the same length"%string
  | inl _ => False
  end.

End Kernel.

Arguments PyExc : clear implicits.
Arguments Value : clear implicits.
Arguments Event : clear implicits.
Arguments Library : clear implicits.
Arguments State : clear implicits.
Arguments M : clear implicits.

End Notebook.
Export Notebook.

(* ================================================================== *)
(** * A small instance *)
(* ================================================================== *)

(** A library over nine ratings of three users, with constant
    predictions and scores, to run the cells on. *)
Module Demo.

Definition r (u i t : Z) : Rating := mkRating u i (4 # 1) t.

Definition ratings : list Rating :=
  [r 2 10 50; r 1 10 30; r 2 11 20; r 1 12 10; r 2 12 40; r 2 13 5;
   r 3 10 1; r 1 13 7; r 3 99 2].

Definition df : DataFrame Rating := mkDF header (with_range_index ratings).

Definition lib (jupyter : bool) : Library string unit unit :=
  {| sys_version := "3.9.17";
     pd_version := "1.5.3";
     tf_version := "2.7.4";
     movielens_download := λ _, inr ratings;
     NCFDataset := λ _ _ _, inr tt;
     ds_n_users := λ _, 3;
     ds_n_items := λ _, 5;
     NCF := λ _ _, inr tt;
     fit := λ m _, inr m;
     predict := λ _ users _, inr ((λ _, 1 # 2) <$> users);
     map_at_k := λ _ _ _, inr (1 # 20);
     ndcg_at_k := λ _ _ _, inr (1 # 5);
     precision_at_k := λ _ _ _, inr (1 # 6);
     recall_at_k := λ _ _ _, inr (1 # 10);
     is_jupyter := jupyter;
     elapsed := λ evs, inject_Z (Z.of_nat (length evs)) |}.

(** The same library with a training that is interrupted. *)
Definition interrupted : Library string unit unit :=
  {| sys_version := "3.9.17";
     pd_version := "1.5.3";
     tf_version := "2.7.4";
     movielens_download := λ _, inr ratings;
     NCFDataset := λ _ _ _, inr tt;
     ds_n_users := λ _, 3;
     ds_n_items := λ _, 5;
     NCF := λ _ _, inr tt;
     fit := λ _ _, inl "KeyboardInterrupt"%string;
     predict := λ _ users _, inr ((λ _, 1 # 2) <$> users);
     map_at_k := λ _ _ _, inr (1 # 20);
     ndcg_at_k := λ _ _ _, inr (1 # 5);
     precision_at_k := λ _ _ _, inr (1 # 6);
     recall_at_k := λ _ _ _, inr (1 # 10);
     is_jupyter := true;
     elapsed := λ evs, inject_Z (Z.of_nat (length evs)) |}.

(** The same library with a model that returns one score a call,
    however many items it is asked about. *)
Definition one_score : Library string unit unit :=
  {| sys_version := "3.9.17";
     pd_version := "1.5.3";
     tf_version := "2.7.4";
     movielens_download := λ _, inr ratings;
     NCFDataset := λ _ _ _, inr tt;
     ds_n_users := λ _, 3;
     ds_n_items := λ _, 5;
     NCF := λ _ _, inr tt;
     fit := λ m _, inr m;
     predict := λ _ _ _, inr [1 # 2];
     map_at_k := λ _ _ _, inr (1 # 20);
     ndcg_at_k := λ _ _ _, inr (1 # 5);
     precision_at_k := λ _ _ _, inr (1 # 6);
     recall_at_k := λ _ _ _, inr (1 # 10);
     is_jupyter := true;
     elapsed := λ evs, inject_Z (Z.of_nat (length evs)) |}.

(** The same library with a model that fails on user 2. *)
Definition exhausted : Library string unit unit :=
  {| sys_version := "3.9.17";
     pd_version := "1.5.3";
     tf_version := "2.7.4";
     movielens_download := λ _, inr ratings;
     NCFDataset := λ _ _ _, inr tt;
     ds_n_users := λ _, 3;
     ds_n_items := λ _, 5;
     NCF := λ _ _, inr tt;
     fit := λ m _, inr m;
     predict := λ _ users _,
       match users with
       | 2 :: _ => inl "ResourceExhaustedError"%string
       | _ => inr ((λ _, 1 # 2) <$> users)
       end;
     map_at_k := λ _ _ _, inr (1 # 20);
     ndcg_at_k := λ _ _ _, inr (1 # 5);
     precision_at_k := λ _ _ _, inr (1 # 6);
     recall_at_k := λ _ _ _, inr (1 # 10);
     is_jupyter := true;
     elapsed := λ evs, inject_Z (Z.of_nat (length evs)) |}.

Definition train : DataFrame Rating := (python_chrono_split df (3 # 4)).1.
Definition test : DataFrame Rating := (python_chrono_split df (3 # 4)).2.

(** The kernel after the split, and after the training. *)
Definition after_split : State string unit unit :=
  ((cell_3 (lib true);; cell_4;; cell_6;; cell_8 (lib true);; cell_10)
     (fresh ∅)).2.

Definition after_training : State string unit unit :=
  ((prepare (lib true);; cell_19 (lib true)) (fresh ∅)).2.

(** A frame of predictions for the users of [test]. *)
Definition scored_row (u i : Z) (s : Q) : Unseen := mkUnseen u i None (Some s).

Definition scored : DataFrame Unseen :=
  mkDF ["userID"; "itemID"; "timestamp"; "prediction"]%string
    (with_range_index
       [scored_row 1 11 (1 # 2); scored_row 1 10 (9 # 10);
        scored_row 1 14 (3 # 10); scored_row 2 10 (1 # 5);
        scored_row 2 14 (4 # 5); scored_row 2 15 (3 # 5);
        scored_row 3 11 (1 # 10)]).







End Demo.

(* ================================================================== *)
(** * Properties *)
(* ================================================================== *)

Section PandasFacts.
Context {A : Type} `{EqDecision A}.

Lemma elem_of_distinct (l : list A) (x : A) : x ∈ distinct l ↔ x ∈ l.
Proof.
  induction l as [|y l IH]; simpl; [done|].
  rewrite !elem_of_cons, list_elem_of_filter, IH.
  destruct (decide (x = y)); tauto.
Qed.

Lemma NoDup_distinct (l : list A) : NoDup (distinct l).
Proof.
  induction l as [|y l IH]; simpl; [constructor|].
  constructor; [|by apply NoDup_filter].
  rewrite list_elem_of_filter. tauto.
Qed.

Lemma elem_of_unique (s : Series A) (x : A) :
  x ∈ unique s ↔ ∃ i, (i, x) ∈ s.
Proof.
  unfold unique, values. rewrite elem_of_distinct, list_elem_of_fmap.
  split.
  - intros [[i y] [-> H]]. by exists i.
  - intros [i H]. by exists (i, x).
Qed.

Lemma isin_labels (s : Series A) (vals : list A) : (isin s vals).*1 = s.*1.
Proof.
  unfold isin. rewrite <- list_fmap_compose.
  apply list_fmap_ext. by intros _ [i v] _.
Qed.
End PandasFacts.

Lemma column_labels {T A} (f : T → A) (df : DataFrame T) :
  (column f df).*1 = index df.
Proof.
  unfold column, index. rewrite <- list_fmap_compose.
  apply list_fmap_ext. by intros _ [i v] _.
Qed.

(** Indexing a frame with a mask computed cell-wise from one of its own
    columns is a positional filter. *)
Lemma getitem_mask_isin {T A} `{EqDecision A}
    (f : T → A) (df : DataFrame T) (vals : list A) :
  getitem_mask df (isin (column f df) vals)
  = Some (mkDF (columns df) (filter (λ p, f p.2 ∈ vals) (rows df))).
Proof.
  unfold getitem_mask.
  rewrite isin_labels, column_labels, decide_True by done.
  do 2 f_equal. unfold values, isin, column.
  induction (rows df) as [|[i r] l IH]; [done|].
  cbn [fmap list_fmap zip zip_with prod_map fst snd id].
  rewrite !filter_cons. cbn [fst snd].
  destruct (decide (f r ∈ vals)) as [Hin|Hout].
  - rewrite bool_decide_eq_true_2 by done.
    rewrite decide_True by done. cbn. by f_equal.
  - rewrite bool_decide_eq_false_2 by done.
    rewrite decide_False by done. done.
Qed.

Lemma elem_of_unique_column {T A} `{EqDecision A}
    (f : T → A) (df : DataFrame T) (x : A) :
  x ∈ unique (column f df) ↔ x ∈ (f ∘ snd <$> rows df).
Proof.
  unfold unique, values, column.
  rewrite elem_of_distinct, <- list_fmap_compose.
  done.
Qed.

(** The two masks of cell 12 select, and what they keep is the rows of
    [test] whose userID and whose itemID occur in [train]. *)
Lemma filter_test_rows (train test : DataFrame Rating) :
  ∃ test1 test2,
    filter_users train test = Some test1
    ∧ filter_items train test1 = Some test2
    ∧ filter_test train test = Some test2
    ∧ columns test2 = columns test
    ∧ rows test2
      = filter (λ p, userID p.2 ∈ (userID ∘ snd <$> rows train)
                     ∧ itemID p.2 ∈ (itemID ∘ snd <$> rows train))
          (rows test).
Proof.
  eexists _, _. split_and!.
  { unfold filter_users. apply getitem_mask_isin. }
  { unfold filter_items. apply getitem_mask_isin. }
  { unfold filter_test, filter_users, filter_items.
    rewrite getitem_mask_isin. cbn [mbind option_bind].
    apply getitem_mask_isin. }
  { reflexivity. }
  cbn [columns rows].
  induction (rows test) as [|p l IH]; [done|].
  rewrite !filter_cons.
  destruct (decide (userID p.2 ∈ unique (column userID train))) as [Hu|Hu];
    [rewrite filter_cons;
     destruct (decide (itemID p.2 ∈ unique (column itemID train))) as [Hi|Hi]|];
    rewrite ?elem_of_unique_column in *.
  - rewrite decide_True by done. by f_equal.
  - rewrite decide_False by tauto. done.
  - rewrite decide_False by tauto. done.
Qed.

(* ------------------------------------------------------------------ *)
(** ** The chronological split *)

Lemma py_round_three_quarters (n : nat) :
  let t := py_round (inject_Z (Z.of_nat n) * (3 # 4)) in
  (3 * Z.of_nat n - 2 ≤ 4 * t ≤ 3 * Z.of_nat n + 2) ∧ (0 ≤ t ≤ Z.of_nat n).
Proof.
  unfold py_round. cbn [Qnum Qden Qmult inject_Z].
  change (1 * 4)%positive with 4%positive.
  set (z := Z.of_nat n).
  assert (0 ≤ z) by (unfold z; lia).
  pose proof (Z.div_mod (z * 3) 4 ltac:(lia)) as Hdm.
  pose proof (Z.mod_pos_bound (z * 3) 4 ltac:(lia)) as Hb.
  cbv zeta. repeat case_decide; [lia|lia|].
  destruct (Z.even (z * 3 / 4)); lia.
Qed.

Lemma cut_three_quarters (g : list (Z * Rating)) :
  (cut (3 # 4) g ≤ length g)%nat
  ∧ (3 * Z.of_nat (length g) - 2
     ≤ 4 * Z.of_nat (cut (3 # 4) g)
     ≤ 3 * Z.of_nat (length g) + 2).
Proof.
  unfold cut. pose proof (py_round_three_quarters (length g)) as H.
  cbv zeta in H. lia.
Qed.

Section GroupBy.
Context {A K : Type} `{EqDecision K} (key : A → K).

(** Grouping a list on a key, over keys listed once each, only
    rearranges the rows whose key is listed. *)
Lemma bind_filter_key (ks : list K) (l : list A) :
  NoDup ks →
  (ks ≫= λ k, filter (λ x, key x = k) l) ≡ₚ filter (λ x, key x ∈ ks) l.
Proof.
  induction 1 as [|k ks Hk Hnd IH]; cbn.
  - induction l as [|x l IHl]; [done|].
    rewrite filter_cons, decide_False; [done|]. apply not_elem_of_nil.
  - rewrite IH. clear IH.
    induction l as [|x l IHl]; [done|].
    rewrite !filter_cons.
    destruct (decide (key x = k)) as [->|Hne].
    + rewrite decide_False by done.
      rewrite decide_True by apply list_elem_of_here.
      cbn. by rewrite IHl.
    + destruct (decide (key x ∈ ks)) as [Hin|Hout].
      * rewrite decide_True by (by apply list_elem_of_further).
        rewrite <- Permutation_middle. by rewrite IHl.
      * rewrite decide_False; [done|].
        rewrite elem_of_cons. tauto.
Qed.

Lemma filter_key_all (ks : list K) (l : list A) :
  (∀ x, x ∈ l → key x ∈ ks) → filter (λ x, key x ∈ ks) l = l.
Proof.
  induction l as [|x l IH]; intros Hall; [done|].
  rewrite filter_cons, decide_True by (apply Hall; left).
  f_equal. apply IH. intros y Hy. apply Hall. by right.
Qed.
End GroupBy.

Lemma bind_app_pointwise {A B} (f g : A → list B) (l : list A) :
  (l ≫= f) ++ (l ≫= g) ≡ₚ l ≫= (λ x, f x ++ g x).
Proof.
  induction l as [|x l IH]; [done|]. cbn.
  rewrite <- IH, <- !(assoc_L (++)).
  f_equiv. rewrite !(assoc_L (++)). f_equiv. apply Permutation_app_comm.
Qed.

#[local] Instance ts_le_trans : Transitive ts_le.
Proof. unfold ts_le. intros a b c. lia. Qed.

#[local] Instance ts_le_total : Total ts_le.
Proof. unfold ts_le. intros a b. lia. Qed.

Section ChronoSplit.
Variable df : DataFrame Rating.

Lemma NoDup_users_of : NoDup (users_of df).
Proof.
  unfold users_of. rewrite merge_sort_Permutation. apply NoDup_distinct.
Qed.

Lemma elem_of_users_of (u : Z) :
  u ∈ users_of df ↔ ∃ p, p ∈ rows df ∧ userID p.2 = u.
Proof.
  unfold users_of.
  rewrite merge_sort_Permutation, elem_of_distinct, list_elem_of_fmap.
  split; intros [p [H1 H2]]; exists p; by split.
Qed.

Lemma group_Permutation (u : Z) :
  group df u ≡ₚ filter (λ p, userID p.2 = u) (rows df).
Proof. apply merge_sort_Permutation. Qed.

Lemma group_sorted (u : Z) : StronglySorted ts_le (group df u).
Proof. apply StronglySorted_merge_sort; apply _. Qed.

Lemma elem_of_group (u : Z) (p : Z * Rating) :
  p ∈ group df u ↔ userID p.2 = u ∧ p ∈ rows df.
Proof. by rewrite group_Permutation, list_elem_of_filter. Qed.

Lemma length_group (u : Z) : length (group df u) = n_ratings df u.
Proof. unfold n_ratings. by rewrite group_Permutation. Qed.

Lemma groups_Permutation : (users_of df ≫= group df) ≡ₚ rows df.
Proof.
  transitivity (users_of df ≫= λ u, filter (λ p, userID p.2 = u) (rows df)).
  { induction (users_of df) as [|u us IH]; [done|]. cbn.
    by rewrite IH, group_Permutation. }
  rewrite (bind_filter_key (λ p : Z * Rating, userID p.2))
    by apply NoDup_users_of.
  rewrite filter_key_all; [done|].
  intros p Hp. apply elem_of_users_of. by exists p.
Qed.

(** The two frames together hold the rows of the input. *)
Lemma chrono_split_Permutation (ratio : Q) :
  rows (python_chrono_split df ratio).1
    ++ rows (python_chrono_split df ratio).2 ≡ₚ rows df.
Proof.
  cbn. rewrite bind_app_pointwise.
  etransitivity; [|apply groups_Permutation].
  induction (users_of df) as [|u us IH]; [done|]. cbn.
  by rewrite IH, take_drop.
Qed.

Lemma elem_of_chrono_train (ratio : Q) (p : Z * Rating) :
  p ∈ rows (python_chrono_split df ratio).1 ↔
  p ∈ take (cut ratio (group df (userID p.2))) (group df (userID p.2)).
Proof.
  cbn. rewrite list_elem_of_bind. split.
  - intros [u [Hp Hu]].
    assert (userID p.2 = u) as ->; [|done].
    apply (elem_of_group u). eapply subseteq_take, Hp.
  - intros Hp. exists (userID p.2). split; [done|].
    apply elem_of_users_of. exists p. split; [|done].
    eapply elem_of_group, subseteq_take, Hp.
Qed.

Lemma elem_of_chrono_test (ratio : Q) (p : Z * Rating) :
  p ∈ rows (python_chrono_split df ratio).2 ↔
  p ∈ drop (cut ratio (group df (userID p.2))) (group df (userID p.2)).
Proof.
  cbn. rewrite list_elem_of_bind. split.
  - intros [u [Hp Hu]].
    assert (userID p.2 = u) as ->; [|done].
    apply (elem_of_group u). eapply subseteq_drop, Hp.
  - intros Hp. exists (userID p.2). split; [done|].
    apply elem_of_users_of. exists p. split; [|done].
    eapply elem_of_group, subseteq_drop, Hp.
Qed.

(** Within a user, nothing in the first frame is newer than anything
    in the second. *)
Lemma chrono_split_ordered (ratio : Q) (a b : Z * Rating) :
  a ∈ rows (python_chrono_split df ratio).1 →
  b ∈ rows (python_chrono_split df ratio).2 →
  userID a.2 = userID b.2 →
  timestamp a.2 ≤ timestamp b.2.
Proof.
  rewrite elem_of_chrono_train, elem_of_chrono_test.
  intros Ha Hb Hu. rewrite Hu in Ha.
  pose proof (group_sorted (userID b.2)) as Hs.
  rewrite <- (take_drop (cut ratio (group df (userID b.2)))) in Hs.
  exact (StronglySorted_app_1_elem_of _ _ _ _ _ Hs Ha Hb).
Qed.
End ChronoSplit.

Section FilterFacts.
Context {A : Type} (P : A → Prop) `{!∀ x, Decision (P x)}.

Lemma filter_all (l : list A) : (∀ x, x ∈ l → P x) → filter P l = l.
Proof.
  induction l as [|x l IH]; intros Hall; [done|].
  rewrite filter_cons_True by (apply Hall; left).
  f_equal. apply IH. intros y Hy. apply Hall. by right.
Qed.

Lemma filter_none (l : list A) : (∀ x, x ∈ l → ¬ P x) → filter P l = [].
Proof.
  induction l as [|x l IH]; intros Hall; [done|].
  rewrite filter_cons_False by (apply Hall; left).
  apply IH. intros y Hy. apply Hall. by right.
Qed.
End FilterFacts.

(** Selecting one key from a concatenation of groups, each of one key,
    gives that key's group. *)
Lemma filter_bind_key {A K} `{EqDecision K}
    (key : A → K) (f : K → list A) (ks : list K) (k : K) :
  NoDup ks →
  (∀ k' x, x ∈ f k' → key x = k') →
  filter (λ x, key x = k) (ks ≫= f) = if decide (k ∈ ks) then f k else [].
Proof.
  intros Hnd Hkey.
  induction Hnd as [|k' ks Hk' Hnd IH]; [done|].
  cbn. rewrite filter_app, IH.
  destruct (decide (k' = k)) as [->|Hne].
  - rewrite decide_False by done.
    rewrite decide_True by apply list_elem_of_here.
    rewrite (right_id_L [] (++)). apply filter_all.
    intros x Hx. by apply Hkey.
  - rewrite filter_none.
    2:{ intros x Hx E. apply Hne. rewrite <- E. symmetry. by apply Hkey. }
    cbn. destruct (decide (k ∈ ks)) as [Hin|Hout].
    + by rewrite decide_True by (by apply list_elem_of_further).
    + rewrite decide_False; [done|]. rewrite elem_of_cons. intros [?|?]; auto.
Qed.

Section ChronoCounts.
Variable df : DataFrame Rating.

Lemma group_nil (u : Z) : u ∉ users_of df → group df u = [].
Proof.
  intros Hu. destruct (group df u) as [|p g] eqn:E; [done|].
  exfalso. apply Hu, elem_of_users_of. exists p.
  assert (p ∈ group df u) as Hp by (rewrite E; left).
  apply elem_of_group in Hp. tauto.
Qed.

Lemma filter_chrono_train (ratio : Q) (u : Z) :
  filter (λ p, userID p.2 = u) (rows (python_chrono_split df ratio).1)
  = take (cut ratio (group df u)) (group df u).
Proof.
  cbn. rewrite (filter_bind_key (λ p : Z * Rating, userID p.2)).
  - case_decide as Hu; [done|]. by rewrite group_nil.
  - apply NoDup_users_of.
  - intros u' p Hp. eapply elem_of_group, subseteq_take, Hp.
Qed.

Lemma filter_chrono_test (ratio : Q) (u : Z) :
  filter (λ p, userID p.2 = u) (rows (python_chrono_split df ratio).2)
  = drop (cut ratio (group df u)) (group df u).
Proof.
  cbn. rewrite (filter_bind_key (λ p : Z * Rating, userID p.2)).
  - case_decide as Hu; [done|]. by rewrite group_nil.
  - apply NoDup_users_of.
  - intros u' p Hp. eapply elem_of_group, subseteq_drop, Hp.
Qed.

(** Of a user's [n] rows, the nearest integer to [0.75 * n] go to
    train and the others to test. *)
Lemma chrono_split_counts (u : Z) :
  let n := n_ratings df u in
  let k := n_ratings (python_chrono_split df (3 # 4)).1 u in
  (k + n_ratings (python_chrono_split df (3 # 4)).2 u = n)%nat
  ∧ (3 * Z.of_nat n - 2 ≤ 4 * Z.of_nat k ≤ 3 * Z.of_nat n + 2).
Proof.
  cbv zeta. rewrite <- (length_group df).
  unfold n_ratings.
  rewrite filter_chrono_train, filter_chrono_test.
  rewrite length_take, length_drop.
  pose proof (cut_three_quarters (group df u)). lia.
Qed.
End ChronoCounts.

(** C2: [python_chrono_split(df, 0.75)] puts every record in exactly one
    of train and test; within a user no training record is newer than a
    test record; and of a user's [n] records the number that go to train
    is within one half of [0.75 * n]. *)
Theorem python_chrono_split_chronological (df : DataFrame Rating) :
  let train := (python_chrono_split df (3 # 4)).1 in
  let test := (python_chrono_split df (3 # 4)).2 in
  rows train ++ rows test ≡ₚ rows df
  ∧ (NoDup (index df) →
     ∀ p, p ∈ rows df →
       (p ∈ rows train ∧ (p ∉ rows test))
        ∨ ((p ∉ rows train) ∧ p ∈ rows test))
  ∧ (∀ a b, a ∈ rows train → b ∈ rows test →
       userID a.2 = userID b.2 → timestamp a.2 ≤ timestamp b.2)
  ∧ (∀ u,
       (n_ratings train u + n_ratings test u = n_ratings df u)%nat
       ∧ (3 * Z.of_nat (n_ratings df u) - 2
          ≤ 4 * Z.of_nat (n_ratings train u)
          ≤ 3 * Z.of_nat (n_ratings df u) + 2)).
Proof.
  cbv zeta. split_and!.
  - apply chrono_split_Permutation.
  - intros Hnd p Hp.
    pose proof (chrono_split_Permutation df (3 # 4)) as Hperm.
    assert (NoDup (rows df)) as Hrows by (eapply NoDup_fmap_1, Hnd).
    rewrite <- Hperm in Hrows, Hp.
    apply NoDup_app in Hrows as (_ & Hdisj & _).
    apply elem_of_app in Hp as [Hp|Hp].
    + left. split; [done|]. by apply Hdisj.
    + right. split; [|done]. intros Hp'. by apply (Hdisj p).
  - apply chrono_split_ordered.
  - apply chrono_split_counts.
Qed.

(* ------------------------------------------------------------------ *)
(** ** Running cells *)

Section Running.
Context {E Dataset Model : Type}.
Abbreviation St := (State E Dataset Model).
Abbreviation Comp := (M E Dataset Model).

Lemma run_bind {A B} (m : Comp A) (f : A → Comp B) (s : St) :
  (m ≫= f) s
  = match m s with
    | (inl e, s') => (inl e, s')
    | (inr x, s') => f x s'
    end.
Proof. reflexivity. Qed.

Lemma run_bind_inr {A B} (m : Comp A) (f : A → Comp B) (s s1 : St) x :
  m s = (inr x, s1) → (m ≫= f) s = f x s1.
Proof. intros H. by rewrite run_bind, H. Qed.

Lemma run_bind_inl {A B} (m : Comp A) (f : A → Comp B) (s s1 : St) e :
  m s = (inl e, s1) → (m ≫= f) s = (inl e, s1).
Proof. intros H. by rewrite run_bind, H. Qed.

Lemma run_bind_assoc {A B C}
    (m : Comp A) (f : A → Comp B) (g : B → Comp C) (s : St) :
  ((m ≫= f) ≫= g) s = (m ≫= λ x, f x ≫= g) s.
Proof. rewrite !run_bind. by destruct (m s) as [[e|x] s1]. Qed.

(** What a successful sequence tells about its parts. *)
Lemma bind_inr_inv {A B} (m : Comp A) (f : A → Comp B) (s s' : St) y :
  (m ≫= f) s = (inr y, s') →
  ∃ x s1, m s = (inr x, s1) ∧ f x s1 = (inr y, s').
Proof.
  rewrite run_bind. destruct (m s) as [[e|x] s1]; [done|]. eauto.
Qed.

#[export] Instance always_compositional (Rel : relation St) :
  Reflexive Rel → Transitive Rel → Compositional (always Rel).
Proof.
  intros Hrefl Htrans. split; unfold always.
  - intros s. reflexivity.
  - intros s s1 s2 _ H1 H2. by etransitivity.
  - intros s _ _. reflexivity.
Qed.

Section Steps.
Variable Rel : St → option (PyExc E) → St → Prop.
Context `{!Compositional Rel}.
Lemma steps_bind {A B} (m : Comp A) (f : A → Comp B) :
  steps Rel m → (∀ x, steps Rel (f x)) → steps Rel (m ≫= f).
Proof.
  intros Hm Hf s. rewrite run_bind. specialize (Hm s).
  destruct (m s) as [[e|x] s1]; [done|].
  eapply comp_seq; [exact Hm|apply Hf].
Qed.

Lemma steps_ret {A} (x : A) : steps Rel (mret x : Comp A).
Proof. intros s. apply comp_ret. Qed.

Lemma steps_raise {A} e :
  (∀ x, e ≠ LibraryError x) → steps Rel (raise e : Comp A).
Proof. intros He s. by apply comp_raise. Qed.

Lemma steps_from_option {A} e (o : option A) :
  (∀ x, e ≠ LibraryError x) → steps Rel (from_option e o).
Proof. intros He. destruct o; [apply steps_ret|by apply steps_raise]. Qed.

Lemma steps_get x : steps Rel (get x).
Proof.
  intros s. unfold get. destruct (globals s !! x); cbn.
  - apply comp_ret.
  - by apply comp_raise.
Qed.

Lemma steps_deref x a : steps Rel (deref x a).
Proof.
  intros s. unfold deref. destruct (heap s !! a); cbn.
  - apply comp_ret.
  - by apply comp_raise.
Qed.

Lemma steps_getenv : steps Rel getenv.
Proof. intros s. apply comp_ret. Qed.

Lemma steps_read_file path : steps Rel (read_file path).
Proof. intros s. apply comp_ret. Qed.

Lemma steps_for_each {A} (xs : list A) (body : A → Comp unit) :
  (∀ x, steps Rel (body x)) → steps Rel (for_each xs body).
Proof.
  intros Hbody. induction xs as [|x xs IH]; cbn.
  - apply steps_ret.
  - apply steps_bind; [apply Hbody|by intros _].
Qed.

(** The timer assigns its variable before and after the block and
    passes on what the block raised. *)
Lemma steps_with_timer (lib : Library E Dataset Model) x body :
  (∀ s r s1 v, Rel (assign_in x (VTimer None) s) r s1 →
               Rel s r (assign_in x v s1)) →
  steps Rel body → steps Rel (with_timer lib x body).
Proof.
  intros Hassign Hbody s. unfold with_timer.
  pose proof (Hbody (assign_in x (VTimer None) s)) as H1.
  destruct (body (assign_in x (VTimer None) s)) as [r s1]. cbn in *.
  by apply Hassign.
Qed.

Lemma steps_get_int x : steps Rel (get_int x).
Proof.
  apply steps_bind; [apply steps_get|].
  intros []; first [apply steps_ret|by apply steps_raise].
Qed.

Lemma steps_get_str x : steps Rel (get_str x).
Proof.
  apply steps_bind; [apply steps_get|].
  intros []; first [apply steps_ret|by apply steps_raise].
Qed.

Lemma steps_get_float x : steps Rel (get_float x).
Proof.
  apply steps_bind; [apply steps_get|].
  intros []; first [apply steps_ret|by apply steps_raise].
Qed.

Lemma steps_get_ints x : steps Rel (get_ints x).
Proof.
  apply steps_bind; [apply steps_get|].
  intros []; first [apply steps_ret|by apply steps_raise].
Qed.

Lemma steps_get_floats x : steps Rel (get_floats x).
Proof.
  apply steps_bind; [apply steps_get|].
  intros []; first [apply steps_ret|by apply steps_raise].
Qed.

Lemma steps_get_dataset x : steps Rel (get_dataset x).
Proof.
  apply steps_bind; [apply steps_get|].
  intros []; first [apply steps_ret|by apply steps_raise].
Qed.

Lemma steps_get_model x : steps Rel (get_model x).
Proof.
  apply steps_bind; [apply steps_get|].
  intros []; first [apply steps_ret|by apply steps_raise].
Qed.

Lemma steps_get_interval x : steps Rel (get_interval x).
Proof.
  apply steps_bind; [apply steps_get|].
  intros [| | | | | | | |[q|]];
    first [apply steps_ret|by apply steps_raise].
Qed.

Lemma steps_get_frame x : steps Rel (get_frame x).
Proof.
  apply steps_bind; [apply steps_get|].
  intros []; first [apply steps_deref|by apply steps_raise].
Qed.

Lemma steps_get_ratings x : steps Rel (get_ratings x).
Proof.
  apply steps_bind; [apply steps_get_frame|].
  intros []; first [apply steps_ret|by apply steps_raise].
Qed.

Lemma steps_get_predictions x : steps Rel (get_predictions x).
Proof.
  apply steps_bind; [apply steps_get_frame|].
  intros []; first [apply steps_ret|by apply steps_raise].
Qed.

Lemma steps_get_merged x : steps Rel (get_merged x).
Proof.
  apply steps_bind; [apply steps_get_frame|].
  intros []; first [apply steps_ret|by apply steps_raise].
Qed.

Lemma steps_get_unseen x : steps Rel (get_unseen x).
Proof.
  apply steps_bind; [apply steps_get_frame|].
  intros []; first [apply steps_ret|by apply steps_raise].
Qed.
End Steps.
End Running.

Create HintDb steps.

#[local] Hint Resolve steps_ret steps_get steps_deref steps_getenv
  steps_read_file steps_get_int steps_get_str steps_get_float steps_get_ints
  steps_get_floats steps_get_dataset steps_get_model steps_get_interval
  steps_get_frame steps_get_ratings steps_get_predictions steps_get_merged
  steps_get_unseen : steps.

(** Splits the proof that a sequence of operations steps along a
    relation into one goal for each operation that writes or calls;
    [leaf] is tried on these. *)
Ltac steps_with leaf :=
  repeat first
    [ solve [eauto 3 with steps typeclass_instances]
    | apply steps_bind; [apply _| |intros ?]
    | apply steps_from_option; [apply _|done]
    | apply steps_raise; [apply _|done]
    | apply steps_for_each; [apply _|intros ?]
    | apply steps_with_timer
    | match goal with
      | |- steps _ (if ?b then _ else _) => destruct b
      end
    | solve [leaf] ].

(* ------------------------------------------------------------------ *)
(** ** The filter step writes [test] only *)

Section Frame.
Context {E Dataset Model : Type}.

#[export] Instance only_assigns_refl x :
  Reflexive (only_assigns (E:=E) (Dataset:=Dataset) (Model:=Model) x).
Proof. intros s. by repeat split. Qed.

#[export] Instance only_assigns_trans x :
  Transitive (only_assigns (E:=E) (Dataset:=Dataset) (Model:=Model) x).
Proof.
  intros s1 s2 s3 (G1 & H1 & E1 & F1 & T1) (G2 & H2 & E2 & F2 & T2).
  repeat split.
  - intros y Hy. by rewrite G2, G1.
  - by etransitivity.
  - congruence.
  - congruence.
  - congruence.
Qed.

Lemma only_assigns_alloc x o :
  steps (always (only_assigns x)) (alloc o : M E Dataset Model nat).
Proof.
  intros s. unfold always, only_assigns. cbn. split_and!; try done.
  by apply prefix_app_r.
Qed.

Lemma only_assigns_assign x v :
  steps (always (only_assigns x)) (assign x v : M E Dataset Model unit).
Proof.
  intros s. unfold always, only_assigns. cbn. split_and!; try done.
  intros y Hy. by rewrite lookup_insert_ne.
Qed.

Lemma cell_12_only_assigns :
  steps (always (only_assigns "test")) (cell_12 : M E Dataset Model unit).
Proof.
  unfold cell_12, assign_frame.
  steps_with
    ltac:(first [apply only_assigns_alloc|apply only_assigns_assign]).
Qed.

(** C9: whatever the state in which the filter step runs and however
    it ends, it assigns no variable but [test] and touches no object
    that exists: the variables [train] and [df] refer to the frames
    they referred to, and these frames are as they were. *)
Theorem cell_12_frame (s : State E Dataset Model) :
  let s' := (cell_12 s).2 in
  only_assigns "test" s s'
  ∧ ∀ x, x ∈ ["train"; "df"]%string →
      ∀ a o, globals s !! x = Some (VFrame a) → heap s !! a = Some o →
        globals s' !! x = Some (VFrame a) ∧ heap s' !! a = Some o.
Proof.
  cbv zeta. pose proof (cell_12_only_assigns s) as Hfr.
  split; [exact Hfr|].
  destruct Hfr as (Hg & Hh & _).
  intros x Hx a o Hvar Hobj. split.
  - rewrite Hg; [done|].
    intros ->. by repeat apply elem_of_cons in Hx as [?|Hx];
      [..|apply not_elem_of_nil in Hx].
  - by eapply prefix_lookup_Some.
Qed.
End Frame.

(* ------------------------------------------------------------------ *)
(** ** Running the operations of a cell one by one *)

Section Forward.
Context {E Dataset Model : Type}.
Abbreviation St2 := (State E Dataset Model).
Abbreviation Comp2 := (M E Dataset Model).

(** A variable that refers to a frame object. *)
Lemma run_get (s : St2) x v :
  globals s !! x = Some v → get x s = (inr v, s).
Proof. intros H. unfold get. by rewrite H. Qed.

Lemma run_get_int (s : St2) x z :
  globals s !! x = Some (VInt z) → get_int x s = (inr z, s).
Proof. intros H. unfold get_int. by rewrite (run_bind_inr _ _ _ _ _ (run_get _ _ _ H)). Qed.

Lemma run_get_str (s : St2) x t :
  globals s !! x = Some (VStr t) → get_str x s = (inr t, s).
Proof. intros H. unfold get_str. by rewrite (run_bind_inr _ _ _ _ _ (run_get _ _ _ H)). Qed.

Lemma run_get_float (s : St2) x q :
  globals s !! x = Some (VFloat q) → get_float x s = (inr q, s).
Proof. intros H. unfold get_float. by rewrite (run_bind_inr _ _ _ _ _ (run_get _ _ _ H)). Qed.

Lemma run_get_ints (s : St2) x l :
  globals s !! x = Some (VInts l) → get_ints x s = (inr l, s).
Proof. intros H. unfold get_ints. by rewrite (run_bind_inr _ _ _ _ _ (run_get _ _ _ H)). Qed.

Lemma run_get_floats (s : St2) x l :
  globals s !! x = Some (VFloats l) → get_floats x s = (inr l, s).
Proof. intros H. unfold get_floats. by rewrite (run_bind_inr _ _ _ _ _ (run_get _ _ _ H)). Qed.

Lemma run_get_dataset (s : St2) x d :
  globals s !! x = Some (VDataset d) → get_dataset x s = (inr d, s).
Proof. intros H. unfold get_dataset. by rewrite (run_bind_inr _ _ _ _ _ (run_get _ _ _ H)). Qed.

Lemma run_get_model (s : St2) x m :
  globals s !! x = Some (VModel m) → get_model x s = (inr m, s).
Proof. intros H. unfold get_model. by rewrite (run_bind_inr _ _ _ _ _ (run_get _ _ _ H)). Qed.

Lemma run_get_interval (s : St2) x q :
  globals s !! x = Some (VTimer (Some q)) → get_interval x s = (inr q, s).
Proof. intros H. unfold get_interval. by rewrite (run_bind_inr _ _ _ _ _ (run_get _ _ _ H)). Qed.

Lemma run_get_frame (s : St2) x a o :
  globals s !! x = Some (VFrame a) → heap s !! a = Some o →
  get_frame x s = (inr o, s).
Proof.
  intros H Ho. unfold get_frame.
  rewrite (run_bind_inr _ _ _ _ _ (run_get _ _ _ H)).
  unfold deref. by rewrite Ho.
Qed.

Lemma run_get_ratings (s : St2) x a df :
  globals s !! x = Some (VFrame a) → heap s !! a = Some (FRatings df) →
  get_ratings x s = (inr df, s).
Proof.
  intros H Ho. unfold get_ratings.
  by rewrite (run_bind_inr _ _ _ _ _ (run_get_frame _ _ _ _ H Ho)).
Qed.

Lemma run_get_predictions (s : St2) x a df :
  globals s !! x = Some (VFrame a) → heap s !! a = Some (FPredictions df) →
  get_predictions x s = (inr df, s).
Proof.
  intros H Ho. unfold get_predictions.
  by rewrite (run_bind_inr _ _ _ _ _ (run_get_frame _ _ _ _ H Ho)).
Qed.

Lemma run_get_merged (s : St2) x a df :
  globals s !! x = Some (VFrame a) → heap s !! a = Some (FMerged df) →
  get_merged x s = (inr df, s).
Proof.
  intros H Ho. unfold get_merged.
  by rewrite (run_bind_inr _ _ _ _ _ (run_get_frame _ _ _ _ H Ho)).
Qed.

Lemma run_get_unseen (s : St2) x a df :
  globals s !! x = Some (VFrame a) → heap s !! a = Some (FUnseen df) →
  get_unseen x s = (inr df, s).
Proof.
  intros H Ho. unfold get_unseen.
  by rewrite (run_bind_inr _ _ _ _ _ (run_get_frame _ _ _ _ H Ho)).
Qed.

Lemma run_assign_frame (s : St2) x o :
  assign_frame x o s
  = (inr tt,
     mkState (<[x := VFrame (length (heap s))]> (globals s))
       (heap s ++ [o]) (environ s) (files s) (trace s)).
Proof. reflexivity. Qed.

Lemma run_call_inr {A} (s : St2) st (x : A) :
  call st (inr x) s
  = (inr x,
     mkState (globals s) (heap s) (environ s) (files s)
       (trace s ++ [Call st None])).
Proof. reflexivity. Qed.

Lemma run_call_inl {A} (s : St2) st (e : E) :
  call (A:=A) st (inl e) s
  = (inl (LibraryError e),
     mkState (globals s) (heap s) (environ s) (files s)
       (trace s ++ [Call st (Some e)])).
Proof. reflexivity. Qed.

Lemma lookup_alloc (h : list FrameObj) (o : FrameObj) :
  (h ++ [o]) !! length h = Some o.
Proof. by rewrite lookup_app_r, Nat.sub_diag. Qed.

Lemma lookup_alloc_old (h : list FrameObj) (o o' : FrameObj) a :
  h !! a = Some o → (h ++ [o']) !! a = Some o.
Proof. intros H. by apply lookup_app_l_Some. Qed.
End Forward.

(** The value of a variable and the object at an address in a state
    given by its assignments and allocations. *)
Ltac lookup_var :=
  unfold assign_in; cbn [globals heap environ files trace];
  repeat (rewrite lookup_insert_ne by done);
  first [apply lookup_insert_eq | eassumption].

Ltac lookup_obj :=
  unfold assign_in; cbn [globals heap environ files trace];
  repeat first [apply lookup_alloc | apply lookup_alloc_old | eassumption].

(** Runs the first operation of a sequence. *)
Ltac run_step :=
  first
    [ rewrite run_bind_assoc
    | progress (unfold assign_in; cbn [globals heap environ files trace])
    | erewrite run_bind_inr;
      [|first
          [ reflexivity
          | apply run_get_int; lookup_var
          | apply run_get_str; lookup_var
          | apply run_get_float; lookup_var
          | apply run_get_ints; lookup_var
          | apply run_get_floats; lookup_var
          | apply run_get_dataset; lookup_var
          | apply run_get_model; lookup_var
          | apply run_get_interval; lookup_var
          | eapply run_get_ratings; [lookup_var|lookup_obj]
          | eapply run_get_predictions; [lookup_var|lookup_obj]
          | eapply run_get_merged; [lookup_var|lookup_obj]
          | eapply run_get_unseen; [lookup_var|lookup_obj]
          | apply run_get; lookup_var ]] ].

(* ------------------------------------------------------------------ *)
(** ** The filter step *)

Section FilterStep.
Context {E Dataset Model : Type}.

(** C1: in a state in which [train] and [test] are ratings frames, the
    two filtering assignments run through and leave in [test] exactly
    the rows of the test frame whose userID occurs in train and whose
    itemID occurs in train: every row left has both, every row that
    has both is left, and the rows left are in the order they had. *)
Theorem filter_step_exact (s : State E Dataset Model)
    (train test : DataFrame Rating) :
  refers_to "train" (FRatings train) s →
  refers_to "test" (FRatings test) s →
  ∃ s' test',
    cell_12 s = (inr tt, s')
    ∧ refers_to "test" (FRatings test') s'
    ∧ columns test' = columns test
    ∧ rows test'
      = filter (λ p, userID p.2 ∈ (userID ∘ snd <$> rows train)
                     ∧ itemID p.2 ∈ (itemID ∘ snd <$> rows train))
          (rows test)
    ∧ (∀ p, p ∈ rows test' →
         (∃ q, q ∈ rows train ∧ userID q.2 = userID p.2)
         ∧ (∃ q, q ∈ rows train ∧ itemID q.2 = itemID p.2))
    ∧ (∀ p q1 q2, p ∈ rows test → q1 ∈ rows train → q2 ∈ rows train →
         userID q1.2 = userID p.2 → itemID q2.2 = itemID p.2 →
         p ∈ rows test')
    ∧ rows test' `sublist_of` rows test.
Proof.
  intros (a1 & Hv1 & Ho1) (a2 & Hv2 & Ho2).
  destruct (filter_test_rows train test)
    as (test1 & test' & Hu & Hi & _ & Hcols & Hrows).
  unfold cell_12.
  repeat run_step. rewrite Hu. repeat run_step. rewrite Hi. repeat run_step.
  eexists _, test'. split; [reflexivity|]. split_and!.
  - eexists. split; [lookup_var|lookup_obj].
  - exact Hcols.
  - exact Hrows.
  - rewrite Hrows. intros p [[Hpu Hpi] _]%list_elem_of_filter.
    apply list_elem_of_fmap in Hpu as [q1 [E1 H1]].
    apply list_elem_of_fmap in Hpi as [q2 [E2 H2]].
    split; [exists q1|exists q2]; by split.
  - rewrite Hrows. intros p q1 q2 Hp H1 H2 E1 E2. apply list_elem_of_filter.
    split; [|done]. split; apply list_elem_of_fmap;
      [exists q1|exists q2]; by split.
  - rewrite Hrows. apply sublist_filter.
Qed.
End FilterStep.

(* ------------------------------------------------------------------ *)
(** ** The CSV files *)

Lemma to_csv_no_index {T} `{Cells T} (df : DataFrame T) :
  csv_header (to_csv df false) = columns df
  ∧ csv_records (to_csv df false) = (cells ∘ snd) <$> rows df.
Proof. done. Qed.

Lemma chrono_split_columns (df : DataFrame Rating) (ratio : Q) :
  columns (python_chrono_split df ratio).1 = columns df
  ∧ columns (python_chrono_split df ratio).2 = columns df.
Proof. done. Qed.

Section CsvFiles.
Context {E Dataset Model : Type}.
Variable lib : Library E Dataset Model.

(** C6: when the download returns, the frame [df] is built with the
    header userID, itemID, rating, timestamp, the cells up to cell 14
    run through, and [./train.csv] and [./test.csv] hold the frames
    [train] and [test]: the header line is these four names, and
    every record is the four cells of a row, without its label. *)
Theorem csv_files_four_columns (s : State E Dataset Model) rs :
  movielens_download lib "1m" = inr rs →
  ∃ s' df train test,
    load_split_write lib s = (inr tt, s')
    ∧ refers_to "df" (FRatings df) s'
    ∧ columns df = ["userID"; "itemID"; "rating"; "timestamp"]%string
    ∧ refers_to "train" (FRatings train) s'
    ∧ refers_to "test" (FRatings test) s'
    ∧ files s' !! "./train.csv"%string = Some (to_csv train false)
    ∧ files s' !! "./test.csv"%string = Some (to_csv test false)
    ∧ (∀ d, d ∈ [train; test] →
         csv_header (to_csv d false)
         = ["userID"; "itemID"; "rating"; "timestamp"]%string
         ∧ csv_records (to_csv d false)
           = (λ p, [CInt (userID p.2); CInt (itemID p.2);
                    CFloat (rating p.2); CInt (timestamp p.2)])
             <$> rows d).
Proof.
  intros Hd.
  set (df := mkDF ["userID"; "itemID"; "rating"; "timestamp"]%string
               (with_range_index rs)).
  destruct (filter_test_rows (python_chrono_split df (3 # 4)).1
              (python_chrono_split df (3 # 4)).2)
    as (test1 & test & Hu & Htest & _ & Hcols & _).
  unfold load_split_write, cell_3, cell_4, cell_6, cell_8, cell_10,
    cell_12, cell_14, load_pandas_df, print.
  repeat run_step. rewrite Hd. repeat run_step. fold df.
  rewrite Hu. repeat run_step. rewrite Htest. repeat run_step.
  eexists _, df, (python_chrono_split df (3 # 4)).1, test.
  split; [reflexivity|].
  split_and!.
  - eexists. split; [lookup_var|lookup_obj].
  - done.
  - eexists. split; [lookup_var|lookup_obj].
  - eexists. split; [lookup_var|lookup_obj].
  - cbn [files]. rewrite lookup_insert_ne by done. apply lookup_insert_eq.
  - cbn [files]. apply lookup_insert_eq.
  - intros d Hd'. split.
    + apply elem_of_cons in Hd' as [->|Hd'];
        [|apply elem_of_cons in Hd' as [->|Hd']]; try done.
      * by apply not_elem_of_nil in Hd'.
    + done.
Qed.
End CsvFiles.

(* ------------------------------------------------------------------ *)
(** ** What a run that returns tells *)

Section Inversion.
Context {E Dataset Model : Type}.
Abbreviation St3 := (State E Dataset Model).

Lemma get_inr (s s' : St3) x v :
  get x s = (inr v, s') → s' = s ∧ globals s !! x = Some v.
Proof. unfold get. destruct (globals s !! x); by intros [= -> ->]. Qed.

Lemma get_int_inr (s s' : St3) x z :
  get_int x s = (inr z, s') → s' = s ∧ globals s !! x = Some (VInt z).
Proof.
  intros (v & s1 & [-> Hv]%get_inr & H)%bind_inr_inv.
  destruct v; unfold mret, M_ret, raise in H; by simplify_eq.
Qed.

Lemma get_str_inr (s s' : St3) x t :
  get_str x s = (inr t, s') → s' = s ∧ globals s !! x = Some (VStr t).
Proof.
  intros (v & s1 & [-> Hv]%get_inr & H)%bind_inr_inv.
  destruct v; unfold mret, M_ret, raise in H; by simplify_eq.
Qed.

Lemma get_float_inr (s s' : St3) x q :
  get_float x s = (inr q, s') → s' = s ∧ globals s !! x = Some (VFloat q).
Proof.
  intros (v & s1 & [-> Hv]%get_inr & H)%bind_inr_inv.
  destruct v; unfold mret, M_ret, raise in H; by simplify_eq.
Qed.

Lemma get_ints_inr (s s' : St3) x l :
  get_ints x s = (inr l, s') → s' = s ∧ globals s !! x = Some (VInts l).
Proof.
  intros (v & s1 & [-> Hv]%get_inr & H)%bind_inr_inv.
  destruct v; unfold mret, M_ret, raise in H; by simplify_eq.
Qed.

Lemma get_floats_inr (s s' : St3) x l :
  get_floats x s = (inr l, s') → s' = s ∧ globals s !! x = Some (VFloats l).
Proof.
  intros (v & s1 & [-> Hv]%get_inr & H)%bind_inr_inv.
  destruct v; unfold mret, M_ret, raise in H; by simplify_eq.
Qed.

Lemma get_dataset_inr (s s' : St3) x d :
  get_dataset x s = (inr d, s') →
  s' = s ∧ globals s !! x = Some (VDataset d).
Proof.
  intros (v & s1 & [-> Hv]%get_inr & H)%bind_inr_inv.
  destruct v; unfold mret, M_ret, raise in H; by simplify_eq.
Qed.

Lemma get_model_inr (s s' : St3) x m :
  get_model x s = (inr m, s') → s' = s ∧ globals s !! x = Some (VModel m).
Proof.
  intros (v & s1 & [-> Hv]%get_inr & H)%bind_inr_inv.
  destruct v; unfold mret, M_ret, raise in H; by simplify_eq.
Qed.

Lemma get_interval_inr (s s' : St3) x q :
  get_interval x s = (inr q, s') →
  s' = s ∧ globals s !! x = Some (VTimer (Some q)).
Proof.
  intros (v & s1 & [-> Hv]%get_inr & H)%bind_inr_inv.
  destruct v as [| | | | | | | |[q'|]];
    unfold mret, M_ret, raise in H; by simplify_eq.
Qed.

Lemma get_frame_inr (s s' : St3) x o :
  get_frame x s = (inr o, s') → s' = s ∧ refers_to x o s.
Proof.
  intros (v & s1 & [-> Hv]%get_inr & H)%bind_inr_inv.
  destruct v; try done. unfold deref in H.
  destruct (heap s !! a) eqn:Ha; [|done].
  injection H as -> ->. split; [done|]. by exists a.
Qed.

Lemma get_ratings_inr (s s' : St3) x df :
  get_ratings x s = (inr df, s') → s' = s ∧ refers_to x (FRatings df) s.
Proof.
  intros (o & s1 & [-> Ho]%get_frame_inr & H)%bind_inr_inv.
  destruct o; unfold mret, M_ret, raise in H; by simplify_eq.
Qed.

Lemma get_predictions_inr (s s' : St3) x df :
  get_predictions x s = (inr df, s') →
  s' = s ∧ refers_to x (FPredictions df) s.
Proof.
  intros (o & s1 & [-> Ho]%get_frame_inr & H)%bind_inr_inv.
  destruct o; unfold mret, M_ret, raise in H; by simplify_eq.
Qed.

Lemma get_merged_inr (s s' : St3) x df :
  get_merged x s = (inr df, s') → s' = s ∧ refers_to x (FMerged df) s.
Proof.
  intros (o & s1 & [-> Ho]%get_frame_inr & H)%bind_inr_inv.
  destruct o; unfold mret, M_ret, raise in H; by simplify_eq.
Qed.

Lemma get_unseen_inr (s s' : St3) x df :
  get_unseen x s = (inr df, s') → s' = s ∧ refers_to x (FUnseen df) s.
Proof.
  intros (o & s1 & [-> Ho]%get_frame_inr & H)%bind_inr_inv.
  destruct o; unfold mret, M_ret, raise in H; by simplify_eq.
Qed.

Lemma call_inr {A} (s s' : St3) st (r : E + A) x :
  call st r s = (inr x, s') →
  r = inr x
  ∧ s' = mkState (globals s) (heap s) (environ s) (files s)
           (trace s ++ [Call st None]).
Proof. destruct r; cbn; by intros [= -> ->]. Qed.

Lemma from_option_inr {A} (s s' : St3) e (o : option A) x :
  from_option e o s = (inr x, s') → o = Some x ∧ s' = s.
Proof. destruct o; cbn; by intros [= -> ->]. Qed.

Lemma with_timer_inr (lib : Library E Dataset Model) (s s' : St3) x body :
  with_timer lib x body s = (inr tt, s') →
  ∃ s1, body (assign_in x (VTimer None) s) = (inr tt, s1)
        ∧ s' = assign_in x
                 (VTimer (Some (elapsed lib (drop (length (trace s))
                                               (trace s1))))) s1.
Proof.
  unfold with_timer.
  destruct (body (assign_in x (VTimer None) s)) as [[e|[]] s1]; [done|].
  intros [= <-]. by exists s1.
Qed.
End Inversion.

(* ------------------------------------------------------------------ *)
(** ** The process environment *)

Ltac unfold_cells :=
  unfold cell_3, cell_4, cell_6, cell_8, cell_10, cell_12, cell_14, cell_16,
    cell_18, cell_19, cell_21, cell_24, cell_25, evaluate, predict_user,
    load_pandas_df, assign_frame, print, glue.

Section Environ.
Context {E Dataset Model : Type}.
Variable lib : Library E Dataset Model.

#[export] Instance same_environ_refl :
  Reflexive (same_environ (E:=E) (Dataset:=Dataset) (Model:=Model)).
Proof. by intros s. Qed.

#[export] Instance same_environ_trans :
  Transitive (same_environ (E:=E) (Dataset:=Dataset) (Model:=Model)).
Proof. unfold same_environ. intros s1 s2 s3 H1 H2. congruence. Qed.

(** An operation that does not write [os.environ]. *)
Ltac env_leaf :=
  first
    [ intros ? ? ? ? H; exact H
    | intros ?; unfold always, same_environ;
      try match goal with |- context [call _ ?r] => destruct r end;
      reflexivity ].

Lemma cell_3_same_environ : steps (always same_environ) (cell_3 lib).
Proof. unfold_cells. steps_with env_leaf. Qed.

Lemma cell_6_same_environ :
  steps (always same_environ) (cell_6 : M E Dataset Model unit).
Proof. unfold_cells. steps_with env_leaf. Qed.

Lemma cell_8_same_environ : steps (always same_environ) (cell_8 lib).
Proof. unfold_cells. steps_with env_leaf. Qed.

Lemma cell_10_same_environ :
  steps (always same_environ) (cell_10 : M E Dataset Model unit).
Proof. unfold_cells. steps_with env_leaf. Qed.

Lemma cell_12_same_environ :
  steps (always same_environ) (cell_12 : M E Dataset Model unit).
Proof. unfold_cells. steps_with env_leaf. Qed.

Lemma cell_14_same_environ :
  steps (always same_environ) (cell_14 : M E Dataset Model unit).
Proof. unfold_cells. steps_with env_leaf. Qed.

Lemma cell_16_same_environ : steps (always same_environ) (cell_16 lib).
Proof. unfold_cells. steps_with env_leaf. Qed.

Lemma cell_18_same_environ : steps (always same_environ) (cell_18 lib).
Proof. unfold_cells. steps_with env_leaf. Qed.

Lemma cell_19_same_environ : steps (always same_environ) (cell_19 lib).
Proof. unfold_cells. steps_with env_leaf. Qed.

Lemma cell_21_same_environ : steps (always same_environ) (cell_21 lib).
Proof. unfold_cells. steps_with env_leaf. Qed.

Lemma cell_24_same_environ : steps (always same_environ) (cell_24 lib).
Proof. unfold_cells. steps_with env_leaf. Qed.

Lemma cell_25_same_environ : steps (always same_environ) (cell_25 lib).
Proof. unfold_cells. steps_with env_leaf. Qed.

Lemma load_split_write_environ (s : State E Dataset Model) :
  environ (load_split_write lib s).2
  = <["CUDA_VISIBLE_DEVICES" := "0"]> (environ s).
Proof.
  unfold load_split_write, cell_3, cell_4, print, setenv, log.
  repeat run_step.
  match goal with
  | |- environ (?m ?s0).2 = _ =>
      assert (steps (always same_environ) m) as Hrest
  end.
  { apply steps_bind; [apply _|apply cell_8_same_environ|intros _].
    apply steps_bind; [apply _|apply cell_10_same_environ|intros _].
    apply steps_bind; [apply _|apply cell_12_same_environ|intros _].
    apply cell_14_same_environ. }
  apply Hrest.
Qed.
End Environ.

(** Takes apart a run that returned, operation by operation. *)
Ltac inv_op H :=
  first
    [ apply get_int_inr in H as [-> H]
    | apply get_str_inr in H as [-> H]
    | apply get_float_inr in H as [-> H]
    | apply get_ints_inr in H as [-> H]
    | apply get_floats_inr in H as [-> H]
    | apply get_dataset_inr in H as [-> H]
    | apply get_model_inr in H as [-> H]
    | apply get_interval_inr in H as [-> H]
    | apply get_ratings_inr in H as [-> H]
    | apply get_predictions_inr in H as [-> H]
    | apply get_merged_inr in H as [-> H]
    | apply get_unseen_inr in H as [-> H]
    | apply get_inr in H as [-> H]
    | apply call_inr in H as [H ->]
    | apply from_option_inr in H as [H ->]
    | unfold assign, alloc, log, setenv, getenv, write_file, read_file,
        print, glue, mret, M_ret in H;
      first [injection H as <- <-|injection H as <-] ].

Ltac inv_run H :=
  repeat
    (rewrite ?run_bind_assoc in H;
     let x := fresh "x" in
     let s1 := fresh "s" in
     let H1 := fresh "H" in
     apply bind_inr_inv in H as (x & s1 & H1 & H);
     inv_op H1);
  try inv_op H.

(** Brings the facts about the states of a run to facts about the state
    it started in. *)
Ltac inv_facts :=
  unfold refers_to, assign_in in *;
  cbn [globals heap environ files trace] in *;
  simplify_map_eq;
  repeat match goal with
         | H : ∃ _, _ |- _ => destruct H as (? & ? & ?)
         end;
  simplify_eq.

Section Cuda.
Context {E Dataset Model : Type}.
Variable lib : Library E Dataset Model.

Lemma environ_after_load_split_write {A}
    (k : unit → M E Dataset Model A) (s : State E Dataset Model) :
  (∀ x, steps (always same_environ) (k x)) →
  environ ((load_split_write lib ≫= k) s).2
  = <["CUDA_VISIBLE_DEVICES" := "0"]> (environ s).
Proof.
  intros Hk. rewrite run_bind.
  pose proof (load_split_write_environ lib s) as Henv.
  destruct (load_split_write lib s) as [[e|x] s1]; [done|].
  cbn [snd] in Henv. rewrite <- Henv. apply Hk.
Qed.

(** C7: however the run ends, the process environment it leaves is
    the one it started in with CUDA_VISIBLE_DEVICES set to "0" and
    nothing else written; and the model, when it is constructed, is
    constructed in that environment. *)
Theorem cuda_visible_devices_only (s : State E Dataset Model) :
  environ (notebook lib s).2
  = <["CUDA_VISIBLE_DEVICES" := "0"]> (environ s)
  ∧ ∀ s1, prepare lib s = (inr tt, s1) →
      ∃ params model,
        NCF lib (<["CUDA_VISIBLE_DEVICES" := "0"]> (environ s)) params
        = inr model
        ∧ globals s1 !! "model" = Some (VModel model).
Proof.
  split.
  - unfold notebook, prepare, train_and_score.
    rewrite !run_bind_assoc.
    apply environ_after_load_split_write. intros _.
    repeat
      first [ apply cell_16_same_environ | apply cell_18_same_environ
            | apply cell_19_same_environ | apply cell_21_same_environ
            | apply cell_24_same_environ | apply cell_25_same_environ
            | apply steps_bind; [apply _| |intros _] ].
  - intros s1 Hrun. unfold prepare in Hrun.
    apply bind_inr_inv in Hrun as ([] & sa & Ha & Hrun).
    apply bind_inr_inv in Hrun as ([] & sb & Hb & Hrun).
    assert (environ sb = <["CUDA_VISIBLE_DEVICES" := "0"]> (environ s))
      as Henv.
    { pose proof (cell_16_same_environ lib sa) as H16.
      rewrite Hb in H16. unfold always, same_environ in H16.
      cbn [snd] in H16. rewrite H16.
      pose proof (load_split_write_environ lib s) as Hl.
      by rewrite Ha in Hl. }
    unfold cell_18 in Hrun. inv_run Hrun.
    cbn [environ] in *. rewrite Henv in *.
    eexists _, _. split; [eassumption|]. lookup_var.
Qed.
End Cuda.

(* ------------------------------------------------------------------ *)
(** ** Exceptions *)

Section Exceptions.
Context {E Dataset Model : Type}.
Variable lib : Library E Dataset Model.
Abbreviation St4 := (State E Dataset Model).

#[export] Instance propagates_compositional :
  Compositional (propagates (E:=E) (Dataset:=Dataset) (Model:=Model)).
Proof.
  split.
  - intros s. exists []. by rewrite (right_id_L [] (++)).
  - intros s s1 s2 r (new1 & T1 & Q1) (new2 & T2 & Q2).
    exists (new1 ++ new2). split.
    { by rewrite T2, T1, (assoc_L (++)). }
    destruct r as [[| | | |x]|]; try by apply Forall_app.
    destruct Q2 as (pre & st & -> & Qpre).
    exists (new1 ++ pre), st. split.
    + by rewrite (assoc_L (++)).
    + by apply Forall_app.
  - intros s e He. exists []. split.
    { by rewrite (right_id_L [] (++)). }
    destruct e; try done. by destruct (He e).
Qed.

Lemma propagates_silent (s s' : St4) :
  trace s' = trace s → propagates s None s'.
Proof. intros H. exists []. by rewrite (right_id_L [] (++)). Qed.

Lemma propagates_log (ev : Event E Dataset Model) :
  quiet ev → steps propagates (log ev).
Proof. intros Hq s. exists [ev]. split; [done|]. by constructor. Qed.

Lemma propagates_call {A} st (r : E + A) :
  steps propagates (call st r : M E Dataset Model A).
Proof.
  intros s. destruct r as [e|x]; cbn.
  - exists [Call st (Some e)]. split; [done|]. by exists [], st.
  - exists [Call st None]. split; [done|]. by constructor.
Qed.

(** An operation of a cell: a library call, an event, or a write
    that leaves the events as they are. *)
Ltac prop_leaf :=
  first
    [ intros ? ? ? ? H; exact H
    | apply propagates_call
    | apply propagates_log; exact I
    | intros ?; by apply propagates_silent ].

Lemma cell_3_propagates :
  steps propagates (cell_3 lib).
Proof. unfold_cells. steps_with prop_leaf. Qed.

Lemma cell_4_propagates :
  steps propagates (cell_4 : M E Dataset Model unit).
Proof. unfold_cells. steps_with prop_leaf. Qed.

Lemma cell_6_propagates :
  steps propagates (cell_6 : M E Dataset Model unit).
Proof. unfold_cells. steps_with prop_leaf. Qed.

Lemma cell_8_propagates :
  steps propagates (cell_8 lib).
Proof. unfold_cells. steps_with prop_leaf. Qed.

Lemma cell_10_propagates :
  steps propagates (cell_10 : M E Dataset Model unit).
Proof. unfold_cells. steps_with prop_leaf. Qed.

Lemma cell_12_propagates :
  steps propagates (cell_12 : M E Dataset Model unit).
Proof. unfold_cells. steps_with prop_leaf. Qed.

Lemma cell_14_propagates :
  steps propagates (cell_14 : M E Dataset Model unit).
Proof. unfold_cells. steps_with prop_leaf. Qed.

Lemma cell_16_propagates :
  steps propagates (cell_16 lib).
Proof. unfold_cells. steps_with prop_leaf. Qed.

Lemma cell_18_propagates :
  steps propagates (cell_18 lib).
Proof. unfold_cells. steps_with prop_leaf. Qed.

Lemma cell_19_propagates :
  steps propagates (cell_19 lib).
Proof. unfold_cells. steps_with prop_leaf. Qed.

Lemma cell_21_propagates :
  steps propagates (cell_21 lib).
Proof. unfold_cells. steps_with prop_leaf. Qed.

Lemma cell_24_propagates :
  steps propagates (cell_24 lib).
Proof. unfold_cells. steps_with prop_leaf. Qed.

Lemma cell_25_propagates :
  steps propagates (cell_25 lib).
Proof. unfold_cells. steps_with prop_leaf. Qed.

Lemma notebook_propagates : steps propagates (notebook lib).
Proof.
  unfold notebook, prepare, train_and_score, load_split_write.
  repeat
    first [ apply cell_3_propagates | apply cell_4_propagates
          | apply cell_6_propagates | apply cell_8_propagates
          | apply cell_10_propagates | apply cell_12_propagates
          | apply cell_14_propagates | apply cell_16_propagates
          | apply cell_18_propagates | apply cell_19_propagates
          | apply cell_21_propagates | apply cell_24_propagates
          | apply cell_25_propagates
          | apply steps_bind; [apply _| |intros _] ].
Qed.

(** Where a call that raised stands among events that end with the
    only one that is not quiet. *)
Lemma raising_call_is_last
    (pre pre' post : list (Event E Dataset Model)) c c' :
  ¬ quiet c → Forall quiet pre' →
  pre ++ c :: post = pre' ++ [c'] → post = [] ∧ c = c'.
Proof.
  intros Hc Hpre' Heq.
  assert (length pre = length pre') as Hlen.
  { destruct (decide (length pre < length pre')%nat) as [Hlt|Hge].
    - exfalso. apply Hc.
      assert ((pre' ++ [c']) !! length pre = Some c) as Hl.
      { rewrite <- Heq. by apply list_lookup_middle. }
      rewrite lookup_app_l in Hl by done.
      rewrite Forall_forall in Hpre'. apply Hpre'.
      by eapply list_elem_of_lookup_2.
    - apply (f_equal length) in Heq.
      rewrite !length_app in Heq. cbn in Heq. lia. }
  apply app_inj_1 in Heq as [_ Heq]; [|done].
  by injection Heq as -> <-.
Qed.

(** C5: whatever a library call raises ends the run as it is: the
    run ends with that very exception, the call that raised is the
    last thing the run did, and no call before it had raised. *)
Theorem exceptions_propagate (s : State E Dataset Model) :
  ∃ new,
    trace (notebook lib s).2 = trace s ++ new
    ∧ (∀ pre st x post,
         new = pre ++ Call st (Some x) :: post →
         post = [] ∧ (notebook lib s).1 = inl (LibraryError x))
    ∧ (∀ x, (notebook lib s).1 = inl (LibraryError x) →
         ∃ pre st, new = pre ++ [Call st (Some x)] ∧ Forall quiet pre)
    ∧ ((notebook lib s).1 = inr tt → Forall quiet new).
Proof.
  destruct (notebook_propagates s) as (new & Htrace & Hnew).
  exists new. split; [done|].
  destruct (notebook lib s) as [r s']. cbn [fst snd raised] in *.
  split_and!.
  - intros pre st x post ->.
    assert (¬ quiet (Call st (Some x) : Event E Dataset Model)) as Hnq
      by (by intros []).
    destruct r as [e|[]]; cbn [raised] in Hnew.
    + destruct e as [| | | |y];
        try (by apply Forall_app in Hnew as [_ Hq];
             apply Forall_cons in Hq as [Hq _]).
      destruct Hnew as (pre' & st' & Heq & Hpre').
      apply raising_call_is_last in Heq as [-> Hc]; [|done..].
      split; [done|]. by injection Hc as _ ->.
    + by apply Forall_app in Hnew as [_ Hq];
        apply Forall_cons in Hq as [Hq _].
  - intros x ->. exact Hnew.
  - intros ->. exact Hnew.
Qed.
End Exceptions.

(* ------------------------------------------------------------------ *)
(** ** The scrapbook *)

Section Scrapbook.
Context {E Dataset Model : Type}.
Variable lib : Library E Dataset Model.
Abbreviation St5 := (State E Dataset Model).

#[export] Instance no_glue_refl :
  Reflexive (no_glue (E:=E) (Dataset:=Dataset) (Model:=Model)).
Proof. intros s. exists []. by rewrite (right_id_L [] (++)). Qed.

#[export] Instance no_glue_trans :
  Transitive (no_glue (E:=E) (Dataset:=Dataset) (Model:=Model)).
Proof.
  intros s1 s2 s3 (new1 & T1 & Q1) (new2 & T2 & Q2).
  exists (new1 ++ new2). split.
  - by rewrite T2, T1, (assoc_L (++)).
  - by apply Forall_app.
Qed.

Lemma no_glue_silent (s s' : St5) : trace s' = trace s → no_glue s s'.
Proof. intros H. exists []. by rewrite (right_id_L [] (++)). Qed.

Lemma no_glue_log (ev : Event E Dataset Model) :
  ¬ is_glue ev → steps (always no_glue) (log ev).
Proof. intros Hq s. exists [ev]. split; [done|]. by constructor. Qed.

Lemma no_glue_call {A} st (r : E + A) :
  steps (always no_glue) (call st r : M E Dataset Model A).
Proof.
  intros s. destruct r as [e|x]; cbn.
  - exists [Call st (Some e)]. split; [done|]. constructor; [|done].
    by intros [].
  - exists [Call st None]. split; [done|]. constructor; [|done].
    by intros [].
Qed.

Ltac glue_leaf :=
  first
    [ intros ? ? ? ? H; exact H
    | apply no_glue_call
    | apply no_glue_log; by intros []
    | intros ?; by apply no_glue_silent ].

Lemma cell_3_no_glue :
  steps (always no_glue) (cell_3 lib).
Proof. unfold_cells. steps_with glue_leaf. Qed.

Lemma cell_4_no_glue :
  steps (always no_glue) (cell_4 : M E Dataset Model unit).
Proof. unfold_cells. steps_with glue_leaf. Qed.

Lemma cell_6_no_glue :
  steps (always no_glue) (cell_6 : M E Dataset Model unit).
Proof. unfold_cells. steps_with glue_leaf. Qed.

Lemma cell_8_no_glue :
  steps (always no_glue) (cell_8 lib).
Proof. unfold_cells. steps_with glue_leaf. Qed.

Lemma cell_10_no_glue :
  steps (always no_glue) (cell_10 : M E Dataset Model unit).
Proof. unfold_cells. steps_with glue_leaf. Qed.

Lemma cell_12_no_glue :
  steps (always no_glue) (cell_12 : M E Dataset Model unit).
Proof. unfold_cells. steps_with glue_leaf. Qed.

Lemma cell_14_no_glue :
  steps (always no_glue) (cell_14 : M E Dataset Model unit).
Proof. unfold_cells. steps_with glue_leaf. Qed.

Lemma cell_16_no_glue :
  steps (always no_glue) (cell_16 lib).
Proof. unfold_cells. steps_with glue_leaf. Qed.

Lemma cell_18_no_glue :
  steps (always no_glue) (cell_18 lib).
Proof. unfold_cells. steps_with glue_leaf. Qed.

Lemma cell_19_no_glue :
  steps (always no_glue) (cell_19 lib).
Proof. unfold_cells. steps_with glue_leaf. Qed.

Lemma cell_21_no_glue :
  steps (always no_glue) (cell_21 lib).
Proof. unfold_cells. steps_with glue_leaf. Qed.

Lemma cell_24_no_glue :
  steps (always no_glue) (cell_24 lib).
Proof. unfold_cells. steps_with glue_leaf. Qed.

Ltac no_glue_cells :=
  repeat
    first [ apply cell_3_no_glue | apply cell_4_no_glue
          | apply cell_6_no_glue | apply cell_8_no_glue
          | apply cell_10_no_glue | apply cell_12_no_glue
          | apply cell_14_no_glue | apply cell_16_no_glue
          | apply cell_18_no_glue | apply cell_19_no_glue
          | apply cell_21_no_glue | apply cell_24_no_glue
          | apply steps_bind; [apply _| |intros _] ].

Lemma prepare_no_glue : steps (always no_glue) (prepare lib).
Proof. unfold prepare, load_split_write. no_glue_cells. Qed.

Lemma train_and_score_no_glue :
  steps (always no_glue) (train_and_score lib).
Proof. unfold train_and_score. no_glue_cells. Qed.
End Scrapbook.

Section Recording.
Context {E Dataset Model : Type}.
Variable lib : Library E Dataset Model.

(** What cell 24 did when it returned. *)
Lemma cell_24_inr (s s' : State E Dataset Model) :
  cell_24 lib s = (inr tt, s') →
  ∃ test ap k m n p r,
    refers_to "test" (FRatings test) s
    ∧ refers_to "all_predictions" (FUnseen ap) s
    ∧ globals s !! "TOP_K" = Some (VInt k)
    ∧ map_at_k lib test ap k = inr m
    ∧ ndcg_at_k lib test ap k = inr n
    ∧ precision_at_k lib test ap k = inr p
    ∧ recall_at_k lib test ap k = inr r
    ∧ s' = mkState
             (<["eval_recall" := VFloat r]>
                (<["eval_precision" := VFloat p]>
                   (<["eval_ndcg" := VFloat n]>
                      (<["eval_map" := VFloat m]> (globals s)))))
             (heap s) (environ s) (files s)
             (trace s
              ++ [Call MapAtK None; Call NdcgAtK None;
                  Call PrecisionAtK None; Call RecallAtK None;
                  Print "\n"
                    [("MAP:\t%f", VFloat m); ("NDCG:\t%f", VFloat n);
                     ("Precision@K:\t%f", VFloat p);
                     ("Recall@K:\t%f", VFloat r)]]).
Proof.
  intros H. unfold cell_24, evaluate, print in H. inv_run H. inv_facts.
  eexists _, _, _, _, _, _, _. split_and!; try eassumption;
    try (by eexists).
  f_equal. by rewrite <- !(assoc_L (++)).
Qed.

(** What cell 25 did when it returned. *)
Lemma cell_25_inr (s s' : State E Dataset Model) :
  cell_25 lib s = (inr tt, s') →
  if is_jupyter lib then
    ∃ vm vn vp vr t1 t2,
      globals s !! "eval_map" = Some vm
      ∧ globals s !! "eval_ndcg" = Some vn
      ∧ globals s !! "eval_precision" = Some vp
      ∧ globals s !! "eval_recall" = Some vr
      ∧ globals s !! "train_time" = Some (VTimer (Some t1))
      ∧ globals s !! "test_time" = Some (VTimer (Some t2))
      ∧ s' = mkState (globals s) (heap s) (environ s) (files s)
               (trace s
                ++ [Glue "map" vm; Glue "ndcg" vn; Glue "precision" vp;
                    Glue "recall" vr; Glue "train_time" (VFloat t1);
                    Glue "test_time" (VFloat t2)])
  else s' = s.
Proof.
  intros H. unfold cell_25, glue in H.
  destruct (is_jupyter lib).
  - inv_run H. inv_facts.
    eexists _, _, _, _, _, _. split_and!; try reflexivity.
    f_equal. by rewrite <- !(assoc_L (++)).
  - by injection H as <-.
Qed.

Lemma cell_25_not_jupyter :
  is_jupyter lib = false → steps (always no_glue) (cell_25 lib).
Proof.
  intros Hj s. unfold cell_25. rewrite Hj. unfold always. reflexivity.
Qed.

(** C8: outside Jupyter no run records anything in the scrapbook.  A
    run that returns has printed the four ranking metrics, whether in
    Jupyter or not, and nothing is glued before that; in Jupyter the
    six values map, ndcg, precision, recall, train_time and test_time
    are glued after it, in this order, the first four being the
    metrics printed. *)
Theorem glue_iff_jupyter :
  (is_jupyter lib = false → ∀ s, no_glue s (notebook lib s).2)
  ∧ ∀ s s', notebook lib s = (inr tt, s') →
      ∃ before test ap k m n p r glued,
        map_at_k lib test ap k = inr m
        ∧ ndcg_at_k lib test ap k = inr n
        ∧ precision_at_k lib test ap k = inr p
        ∧ recall_at_k lib test ap k = inr r
        ∧ Forall (λ ev, ¬ is_glue ev) before
        ∧ trace s'
          = trace s ++ before
            ++ [Print "\n"
                  [("MAP:\t%f", VFloat m); ("NDCG:\t%f", VFloat n);
                   ("Precision@K:\t%f", VFloat p);
                   ("Recall@K:\t%f", VFloat r)]]
            ++ glued
        ∧ if is_jupyter lib
          then ∃ t1 t2,
              globals s' !! "train_time" = Some (VTimer (Some t1))
              ∧ globals s' !! "test_time" = Some (VTimer (Some t2))
              ∧ glued
                = [Glue "map" (VFloat m); Glue "ndcg" (VFloat n);
                   Glue "precision" (VFloat p); Glue "recall" (VFloat r);
                   Glue "train_time" (VFloat t1);
                   Glue "test_time" (VFloat t2)]
          else glued = [].
Proof.
  split.
  - intros Hj. change (steps (always no_glue) (notebook lib)).
    unfold notebook.
    apply steps_bind; [apply _|apply prepare_no_glue|intros _].
    apply steps_bind; [apply _|apply train_and_score_no_glue|intros _].
    by apply cell_25_not_jupyter.
  - intros s s' Hrun. unfold notebook in Hrun.
    apply bind_inr_inv in Hrun as ([] & s1 & H1 & Hrun).
    apply bind_inr_inv in Hrun as ([] & s2 & H2 & H25).
    unfold train_and_score in H2.
    apply bind_inr_inv in H2 as ([] & sa & H19 & H2).
    apply bind_inr_inv in H2 as ([] & sb & H21 & H24).
    assert (no_glue s sb) as (before & Hbefore & Hquiet).
    { transitivity s1.
      { pose proof (prepare_no_glue lib s) as H. by rewrite H1 in H. }
      transitivity sa.
      { pose proof (cell_19_no_glue lib s1) as H. by rewrite H19 in H. }
      pose proof (cell_21_no_glue lib sa) as H. by rewrite H21 in H. }
    apply cell_24_inr in H24
      as (test & ap & k & m & n & p & r & _ & _ & _
          & Hm & Hn & Hp & Hr & ->).
    apply cell_25_inr in H25.
    exists (before ++ [Call MapAtK None; Call NdcgAtK None;
                       Call PrecisionAtK None; Call RecallAtK None]).
    exists test, ap, k, m, n, p, r.
    assert (Forall (λ ev : Event E Dataset Model, ¬ is_glue ev)
              (before ++ [Call MapAtK None; Call NdcgAtK None;
                          Call PrecisionAtK None; Call RecallAtK None]))
      as Hq.
    { apply Forall_app. split; [done|].
      repeat (constructor; [by intros []|]). constructor. }
    destruct (is_jupyter lib).
    + destruct H25 as (vm & vn & vp & vr & t1 & t2
                       & Gm & Gn & Gp & Gr & G1 & G2 & ->).
      cbn [globals] in *. simplify_map_eq.
      eexists. split_and!; try eassumption.
      * cbn [trace]. rewrite Hbefore.
        rewrite <- !(assoc_L (++)). reflexivity.
      * exists t1, t2. split_and!; [..|reflexivity];
          cbn [globals]; by simplify_map_eq.
    + subst s'. exists []. split_and!; try eassumption; [|done].
      cbn [trace]. rewrite Hbefore.
      by rewrite <- !(assoc_L (++)).
Qed.
End Recording.

(* ------------------------------------------------------------------ *)
(** ** The outer merge and the unseen pairs *)

Section MergeFacts.

Lemma with_range_index_values {T} (l : list T) :
  (with_range_index l).*2 = l.
Proof.
  unfold with_range_index, range_index.
  apply snd_zip. by rewrite length_fmap, length_seq.
Qed.

Lemma filter_values {T} (P : T → Prop)
    `{!∀ x, Decision (P x), !∀ p : Z * T, Decision (P p.2)}
    (l : list (Z * T)) :
  (filter (λ p, P p.2) l).*2 = filter P l.*2.
Proof.
  induction l as [|[i r] l IH]; [done|].
  rewrite fmap_cons, !filter_cons.
  destruct (decide (P (i, r).2)) as [Hp|Hp], (decide (P (i, r).2));
    rewrite ?fmap_cons; first [by rewrite IH|by destruct Hp].
Qed.

(** How many rows of a list carry a key, when no key occurs twice. *)
Lemma length_filter_key {A K} `{EqDecision K}
    (key : A → K) (l : list A) (k : K) :
  NoDup (key <$> l) →
  length (filter (λ x, key x = k) l)
  = if decide (k ∈ key <$> l) then 1%nat else 0%nat.
Proof.
  induction l as [|x l IH]; intros Hnd; [done|].
  rewrite fmap_cons in Hnd. apply NoDup_cons in Hnd as [Hx Hnd].
  rewrite filter_cons, fmap_cons.
  destruct (decide (key x = k)) as [<-|Hne]; cbn [length];
    rewrite (IH Hnd).
  - rewrite (decide_False (P := key x ∈ key <$> l)) by done.
    by rewrite decide_True by apply list_elem_of_here.
  - destruct (decide (k ∈ key <$> l)) as [Hin|Hout].
    + by rewrite decide_True by (by apply list_elem_of_further).
    + rewrite decide_False; [done|].
      rewrite elem_of_cons. intros [?|?]; auto.
Qed.

Lemma filter_key_nil {A K} `{EqDecision K}
    (key : A → K) (l : list A) (k : K) :
  filter (λ x, key x = k) l = [] ↔ k ∉ key <$> l.
Proof.
  split.
  - intros Hnil (x & -> & Hx)%list_elem_of_fmap.
    by eapply filter_nil_not_elem_of, Hx.
  - intros Hk. apply filter_none. intros x Hx <-.
    apply Hk, list_elem_of_fmap. by exists x.
Qed.

(** The rows of an outer merge for one key carry that key, and those
    without a rating are the rows of the right frame when the left
    frame has none for the key. *)
Lemma merge_group_key (ls : list Rating) (rs : list Prediction) k m :
  (∀ l, l ∈ ls → rating_key l = k) →
  (∀ r, r ∈ rs → prediction_key r = k) →
  m ∈ merge_group ls rs → merged_key m = k.
Proof.
  intros Hl Hr. unfold merge_group.
  destruct ls as [|l0 ls]; [|destruct rs as [|r0 rs]].
  - intros (r & -> & Hin)%list_elem_of_fmap. by apply Hr.
  - intros (l & -> & Hin)%list_elem_of_fmap. by apply Hl.
  - intros (l & Hm & Hin)%list_elem_of_bind.
    apply list_elem_of_bind in Hm as (r & Hm & Hin').
    apply list_elem_of_singleton in Hm as ->. by apply Hl.
Qed.

Lemma merge_group_unrated (ls : list Rating) (rs : list Prediction) :
  length (filter (λ m, m_rating m = None) (merge_group ls rs))
  = match ls with [] => length rs | _ => 0%nat end.
Proof.
  unfold merge_group.
  destruct ls as [|l0 ls]; [|destruct rs as [|r0 rs]].
  - rewrite filter_all, length_fmap; [done|].
    by intros m (r & -> & _)%list_elem_of_fmap.
  - rewrite filter_none; [done|].
    by intros m (l & -> & _)%list_elem_of_fmap.
  - rewrite filter_none; [done|].
    intros m (l & Hm & Hin)%list_elem_of_bind.
    apply list_elem_of_bind in Hm as (r & Hm & Hin').
    by apply list_elem_of_singleton in Hm as ->.
Qed.

Lemma NoDup_merge_keys left right : NoDup (merge_keys left right).
Proof.
  unfold merge_keys. rewrite merge_sort_Permutation. apply NoDup_distinct.
Qed.

(** Among the rows of the outer merge without a rating, a key of the
    left frame does not occur, and any other key occurs as often as
    in the right frame. *)
Lemma merge_outer_unrated (left : DataFrame Rating)
    (right : DataFrame Prediction) (k : Z * Z) :
  length
    (filter (λ m, m_rating m = None)
       (filter (λ m, merged_key m = k) (rows (merge_outer left right)).*2))
  = if decide (k ∈ rating_key <$> (rows left).*2) then 0%nat
    else length (filter (λ r, prediction_key r = k) (rows right).*2).
Proof.
  cbn [merge_outer rows]. rewrite with_range_index_values.
  rewrite (filter_bind_key merged_key).
  - assert (filter (λ l, rating_key l = k) (rows left).*2 = []
            ↔ k ∉ rating_key <$> (rows left).*2) as Hleft
      by apply filter_key_nil.
    case_decide as Hk.
    + rewrite merge_group_unrated.
      destruct (filter (λ l, rating_key l = k) (rows left).*2) eqn:El.
      * rewrite decide_False; [done|]. by apply Hleft.
      * rewrite decide_True; [done|].
        destruct (decide (k ∈ rating_key <$> (rows left).*2)); [done|].
        by apply Hleft in n.
    + cbn. case_decide as Hin; [done|]. symmetry.
      apply length_zero_iff_nil, filter_key_nil.
      intros Hr. apply Hk. unfold merge_keys.
      rewrite merge_sort_Permutation, elem_of_distinct, elem_of_app.
      right. by rewrite list_fmap_compose.
  - apply NoDup_merge_keys.
  - intros k' m. apply merge_group_key.
    + by intros l [? _]%list_elem_of_filter.
    + by intros r [? _]%list_elem_of_filter.
Qed.
End MergeFacts.

Section UnseenFacts.

Lemma getitem_mask_isnull {T A} (f : T → option A) (df : DataFrame T) :
  getitem_mask df (isnull (column f df))
  = Some (mkDF (columns df) (filter (λ p, f p.2 = None) (rows df))).
Proof.
  unfold getitem_mask.
  assert ((isnull (column f df)).*1 = index df) as ->.
  { unfold isnull, column, index. rewrite <- !list_fmap_compose.
    apply list_fmap_ext. by intros _ [i v] _. }
  rewrite decide_True by done.
  do 2 f_equal. unfold values, isnull, column.
  induction (rows df) as [|[i r] l IH]; [done|].
  cbn [fmap list_fmap zip zip_with prod_map fst snd id].
  rewrite !filter_cons. cbn [fst snd].
  destruct (f r) as [a|].
  - rewrite decide_False by done. by rewrite decide_False.
  - rewrite decide_True by done. rewrite decide_True by done.
    cbn. by f_equal.
Qed.

Lemma length_filter_fmap {A B} (g : A → B) (P : B → Prop)
    `{!∀ y, Decision (P y)} (l : list A) :
  length (filter (λ x, P (g x)) l) = length (filter P (g <$> l)).
Proof.
  induction l as [|x l IH]; [done|].
  rewrite fmap_cons, !filter_cons.
  destruct (decide (P (g x))); cbn; by rewrite IH.
Qed.

(** The keys of the frame built from the three lists. *)
Lemma frame_of_lists_keys users items preds df :
  frame_of_lists users items preds = Some df →
  prediction_key <$> (rows df).*2 = zip users items.
Proof.
  unfold frame_of_lists. case_decide as Hlen; [|done].
  intros [= <-]. cbn [rows]. rewrite with_range_index_values.
  destruct Hlen as [H1 H2].
  rewrite <- (length_zip_with_r_eq pair users items) in H2 by done.
  revert H2. generalize (zip users items). clear.
  intros l. revert preds.
  induction l as [|[u i] l IH]; intros [|p preds] Hlen; try done.
  cbn. f_equal. apply IH. by injection Hlen.
Qed.

(** The lists [users] and [items] of cell 21 pair every user with
    every item. *)
Lemma zip_users_items (us it : list Z) :
  zip (us ≫= λ u, replicate (length it) u) (us ≫= λ _, it)
  = us ≫= λ u, pair u <$> it.
Proof.
  induction us as [|u us IH]; [done|]. cbn.
  rewrite zip_with_app by (by rewrite length_replicate).
  rewrite IH. f_equal. clear.
  induction it as [|i it IH]; [done|]. cbn. by rewrite IH.
Qed.

Lemma elem_of_pairs (us it : list Z) (k : Z * Z) :
  k ∈ (us ≫= λ u, pair u <$> it) ↔ k.1 ∈ us ∧ k.2 ∈ it.
Proof.
  rewrite list_elem_of_bind. split.
  - intros (u & (i & -> & Hi)%list_elem_of_fmap & Hu). by split.
  - intros [Hu Hi]. exists k.1. split; [|done].
    apply list_elem_of_fmap. exists k.2. split; [|done]. by destruct k.
Qed.

Lemma NoDup_pairs (us it : list Z) :
  NoDup us → NoDup it → NoDup (us ≫= λ u, pair u <$> it).
Proof.
  intros Hus Hit. induction Hus as [|u us Hu Hus IH]; [constructor|].
  cbn. apply NoDup_app. split_and!.
  - apply NoDup_fmap_2; [|done]. by intros i j [= ->].
  - intros k (i & -> & Hi)%list_elem_of_fmap [Hu' _]%elem_of_pairs.
    by apply Hu.
  - exact IH.
Qed.
End UnseenFacts.

Section Unseen.
Context {E Dataset Model : Type}.
Variable lib : Library E Dataset Model.

(** One turn of the loop of cell 21. *)
Lemma predict_user_inr (s s' : State E Dataset Model) u U I it :
  globals s !! "users" = Some (VInts U) →
  globals s !! "items" = Some (VInts I) →
  globals s !! "item" = Some (VInts it) →
  predict_user lib u s = (inr tt, s') →
  globals s' !! "users" = Some (VInts (U ++ replicate (length it) u))
  ∧ globals s' !! "items" = Some (VInts (I ++ it))
  ∧ globals s' !! "item" = Some (VInts it)
  ∧ globals s' !! "train" = globals s !! "train"
  ∧ heap s' = heap s.
Proof.
  intros HU HI Hit H. unfold predict_user in H.
  inv_run H. inv_facts. by split_and!.
Qed.

(** The loop of cell 21. *)
Lemma predict_loop_inr (us : list Z) :
  ∀ (s s' : State E Dataset Model) U I it,
    globals s !! "users" = Some (VInts U) →
    globals s !! "items" = Some (VInts I) →
    globals s !! "item" = Some (VInts it) →
    for_each us (predict_user lib) s = (inr tt, s') →
    globals s' !! "users"
    = Some (VInts (U ++ (us ≫= λ u, replicate (length it) u)))
    ∧ globals s' !! "items" = Some (VInts (I ++ (us ≫= λ _, it)))
    ∧ globals s' !! "train" = globals s !! "train"
    ∧ heap s' = heap s.
Proof.
  induction us as [|u us IH]; intros s s' U I it HU HI Hit Hrun.
  - injection Hrun as <-. cbn. by rewrite !(right_id_L [] (++)).
  - cbn [for_each] in Hrun.
    apply bind_inr_inv in Hrun as ([] & s1 & Hu & Hrun).
    destruct (predict_user_inr _ _ _ _ _ _ HU HI Hit Hu)
      as (HU1 & HI1 & Hit1 & Htr1 & Hh1).
    destruct (IH _ _ _ _ _ HU1 HI1 Hit1 Hrun) as (HU2 & HI2 & Htr2 & Hh2).
    cbn. rewrite !(assoc_L (++)). split_and!; congruence.
Qed.
End Unseen.

Section UnseenCount.

Lemma length_filter_values {T} (P : T → Prop)
    `{!∀ x, Decision (P x), !∀ p : Z * T, Decision (P p.2)}
    (l : list (Z * T)) :
  length (filter (λ p, P p.2) l) = length (filter P l.*2).
Proof.
  induction l as [|[i r] l IH]; [done|].
  rewrite fmap_cons, !filter_cons.
  destruct (decide (P (i, r).2)) as [Hp|Hp], (decide (P (i, r).2));
    cbn [length]; first [by rewrite IH|by destruct Hp].
Qed.

Lemma values_prod_map {T T'} (g : T → T') (l : list (Z * T)) :
  (prod_map id g <$> l).*2 = g <$> l.*2.
Proof.
  rewrite <- !list_fmap_compose. apply list_fmap_ext. by intros _ [] _.
Qed.

Lemma filter_swap {A} (P Q : A → Prop)
    `{!∀ x, Decision (P x), !∀ x, Decision (Q x)} (l : list A) :
  filter P (filter Q l) = filter Q (filter P l).
Proof.
  induction l as [|x l IH]; [done|].
  rewrite !filter_cons.
  destruct (decide (Q x)), (decide (P x));
    rewrite ?filter_cons, ?decide_True, ?decide_False by done;
    by rewrite IH.
Qed.

(** The frame that cell 21 leaves in [all_predictions], from the
    frame [df] it built out of the lists. *)
Lemma unseen_count (train : DataFrame Rating) (df : DataFrame Prediction)
    (preds : list Q) (k : Z * Z) :
  let us := unique (column userID train) in
  let it := unique (column itemID train) in
  frame_of_lists (us ≫= λ u, replicate (length it) u) (us ≫= λ _, it) preds
  = Some df →
  length
    (filter (λ p, unseen_key p.2 = k)
       (rows (drop_rating
                (mkDF (columns (merge_outer train df))
                   (filter (λ p, m_rating p.2 = None)
                      (rows (merge_outer train df)))))))
  = if decide (k.1 ∈ (userID ∘ snd <$> rows train)
               ∧ k.2 ∈ (itemID ∘ snd <$> rows train)
               ∧ k ∉ (rating_key ∘ snd <$> rows train))
    then 1%nat else 0%nat.
Proof.
  intros us it Hdf.
  apply frame_of_lists_keys in Hdf as Hkeys.
  rewrite zip_users_items in Hkeys.
  rewrite (length_filter_values (λ r, unseen_key r = k)).
  cbn [drop_rating rows].
  rewrite values_prod_map.
  rewrite <- (length_filter_fmap _ (λ r, unseen_key r = k)).
  rewrite (filter_values (λ m, m_rating m = None)).
  change (λ x : Merged, unseen_key _ = k) with (λ m, merged_key m = k).
  rewrite filter_swap, merge_outer_unrated.
  rewrite length_filter_key.
  2:{ rewrite Hkeys. apply NoDup_pairs; apply NoDup_distinct. }
  rewrite Hkeys.
  assert (k ∈ (us ≫= λ u, pair u <$> it)
          ↔ k.1 ∈ (userID ∘ snd <$> rows train)
            ∧ k.2 ∈ (itemID ∘ snd <$> rows train)) as Hprod.
  { rewrite elem_of_pairs. unfold us, it.
    by rewrite !elem_of_unique_column. }
  rewrite <- list_fmap_compose.
  repeat case_decide; tauto.
Qed.
End UnseenCount.

Section UnseenPairs.
Context {E Dataset Model : Type}.
Variable lib : Library E Dataset Model.

(** C4: when cell 21 returns, [all_predictions] holds no pair of
    [train], and exactly one row for every other pair of a user of
    [train] with an item of [train]; it holds no row for any pair
    outside these. *)
Theorem unseen_pairs_exact (s s' : State E Dataset Model)
    (train : DataFrame Rating) :
  refers_to "train" (FRatings train) s →
  cell_21 lib s = (inr tt, s') →
  ∃ all_predictions,
    refers_to "all_predictions" (FUnseen all_predictions) s'
    ∧ (∀ p q, p ∈ rows all_predictions → q ∈ rows train →
         unseen_key p.2 ≠ rating_key q.2)
    ∧ (∀ u i,
         length (filter (λ p, unseen_key p.2 = (u, i))
                   (rows all_predictions))
         = if decide (u ∈ (userID ∘ snd <$> rows train)
                      ∧ i ∈ (itemID ∘ snd <$> rows train)
                      ∧ (u, i) ∉ (rating_key ∘ snd <$> rows train))
           then 1%nat else 0%nat).
Proof.
  intros Htrain Hrun. unfold cell_21 in Hrun.
  apply bind_inr_inv in Hrun as ([] & st & Hbody & Hrun).
  apply with_timer_inr in Hbody as (sb & Hbody & ->).
  inv_run Hbody.
  match type of Hbody with
  | _ ?s0 = _ => remember s0 as s0' eqn:Hs0
  end.
  assert (globals s0' !! "users" = Some (VInts [])) as HU
    by (subst s0'; lookup_var).
  assert (globals s0' !! "items" = Some (VInts [])) as HI
    by (subst s0'; lookup_var).
  assert (globals s0' !! "train" = globals s !! "train") as Htr0.
  { subst s0'. unfold assign_in. cbn [globals].
    by rewrite !lookup_insert_ne by done. }
  assert (heap s0' = heap s) as Hh0 by (by subst s0').
  destruct Htrain as (a0 & Ha0 & Ho0).
  assert (x = train ∧ x0 = train) as [-> ->].
  { inv_facts. by split. }
  assert (globals s0' !! "item"
          = Some (VInts (unique (column itemID train))))
    as Hit by (subst s0'; lookup_var).
  clear H H0 Hs0.
  apply bind_inr_inv in Hbody as ([] & sl & Hloop & Hbody).
  apply predict_loop_inr with (U := []) (I := [])
    (it := unique (column itemID train)) in Hloop
    as (HUl & HIl & Htrl & Hhl); [|done..].
  cbn [app] in HUl, HIl.
  rewrite Htr0, Ha0 in Htrl. rewrite Hh0 in Hhl.
  inv_run Hbody.
  rewrite HUl in H. injection H as <-.
  rewrite HIl in H0. injection H0 as <-.
  destruct H3 as (a3 & Hv3 & Hobj3).
  destruct H4 as (a4 & Hv4 & Hobj4).
  destruct H5 as (a5 & Hv5 & Hobj5).
  unfold assign_in in Hv3, Hobj3, Hv4, Hobj4, Hv5, Hobj5.
  cbn [globals heap] in Hv3, Hobj3, Hv4, Hobj4, Hv5, Hobj5.
  rewrite lookup_insert_ne in Hv3 by done.
  rewrite Htrl in Hv3. injection Hv3 as <-.
  rewrite Hhl in Hobj3.
  rewrite (lookup_alloc_old _ _ _ _ Ho0) in Hobj3. injection Hobj3 as <-.
  rewrite lookup_insert_eq in Hv4. injection Hv4 as <-.
  rewrite lookup_alloc in Hobj4. injection Hobj4 as <-.
  rewrite lookup_insert_eq in Hv5. injection Hv5 as <-.
  rewrite lookup_alloc in Hobj5. injection Hobj5 as <-.
  rewrite getitem_mask_isnull in H6. injection H6 as <-.
  unfold print in Hrun. inv_run Hrun.
  eexists. split; [|split].
  - eexists. split; [lookup_var|lookup_obj].
  - intros p q Hp Hq Heq.
    pose proof (unseen_count train x2 x1 (unseen_key p.2) H2) as Hcount.
    rewrite decide_False in Hcount.
    + apply length_zero_iff_nil in Hcount.
      by eapply filter_nil_not_elem_of, Hp.
    + intros (_ & _ & Hnot). apply Hnot. rewrite Heq.
      apply list_elem_of_fmap. by exists q.
  - intros u i. apply (unseen_count train x2 x1 (u, i) H2).
Qed.
End UnseenPairs.

(* ------------------------------------------------------------------ *)
(** ** The ranking metrics *)

Section Means.
Import Evaluation.



Lemma Qnat_pos n : (0 < n)%nat → (0 < Qnat n)%Q.
Proof. intros. unfold Qnat, Qlt. simpl. lia. Qed.





End Means.

Section Gain.
Import Evaluation.
Local Open Scope R_scope.










End Gain.

Lemma length_filter_split {A} (P : A → Prop) `{!∀ x, Decision (P x)}
    (l : list A) :
  (length (filter P l) + length (filter (λ x, ¬ P x) l) = length l)%nat.
Proof.
  induction l as [|x l IH]; [done|].
  rewrite !filter_cons. destruct (decide (P x)) as [Hx|Hx].
  - rewrite decide_False by tauto. cbn. lia.
  - rewrite decide_True by done. cbn. lia.
Qed.

Section Hits.
Import Evaluation.
(** How often an item counts as a hit. *)
Variable c : Z → nat.



Hypothesis once : ∀ i, (c i ≤ 1)%nat.



End Hits.

Section HitRows.
Import Evaluation.



End HitRows.

Section Bounded.
Import Evaluation.
Context (test : DataFrame Rating) (preds : DataFrame Unseen) (k : nat).
Hypothesis test_pairs : NoDup (rating_key <$> (rows test).*2).
Hypothesis pred_pairs : NoDup (unseen_key <$> (rows preds).*2).





End Bounded.



(* ------------------------------------------------------------------ *)
(** ** Running the filter step again *)

Section FilterAgain.
Context {E Dataset Model : Type}.

Lemma filter_filter {A} (P : A → Prop) `{!∀ x, Decision (P x)} (l : list A) :
  filter P (filter P l) = filter P l.
Proof.
  apply filter_all. by intros x [Hx _]%list_elem_of_filter.
Qed.

(** X1: the filter step can be run again: the second run returns too
    and leaves in [test] a frame equal to the one the first run
    left. *)
Theorem cell_12_idempotent (s : State E Dataset Model)
    (train test : DataFrame Rating) :
  refers_to "train" (FRatings train) s →
  refers_to "test" (FRatings test) s →
  ∃ s1 s2 test',
    cell_12 s = (inr tt, s1)
    ∧ cell_12 s1 = (inr tt, s2)
    ∧ refers_to "test" (FRatings test') s1
    ∧ refers_to "test" (FRatings test') s2
    ∧ refers_to "train" (FRatings train) s2.
Proof.
  intros (a1 & Hv1 & Ho1) (a2 & Hv2 & Ho2).
  destruct (filter_test_rows train test)
    as (test1 & test' & Hu & Hi & _ & Hcols & Hrows).
  destruct (filter_test_rows train test')
    as (test1' & test'' & Hu' & Hi' & _ & Hcols' & Hrows').
  assert (test'' = test') as ->.
  { destruct test'' as [c r], test' as [c' r']. cbn in *.
    rewrite Hrows' , Hcols'. f_equal. rewrite Hrows. apply filter_filter. }
  unfold cell_12.
  repeat run_step. rewrite Hu. repeat run_step. rewrite Hi. repeat run_step.
  eexists _, _, test'. split; [reflexivity|].
  repeat run_step. rewrite Hu'. repeat run_step. rewrite Hi'. repeat run_step.
  split; [reflexivity|]. split_and!.
  - eexists. split; [lookup_var|lookup_obj].
  - eexists. split; [lookup_var|lookup_obj].
  - eexists. split; [lookup_var|lookup_obj].
Qed.
End FilterAgain.

(* ------------------------------------------------------------------ *)
(** ** From the frames to the dataset *)

Section FromFiles.
Context {E Dataset Model : Type}.
Variable lib : Library E Dataset Model.

(** X2: cells 14 and 16 hand the frames to the dataset through the two
    files: [NCFDataset] is called on the CSV form of [train] and of
    [test], without index column, and on [SEED]; what it raises ends
    the run and what it returns is bound to [data].  Both files stay
    behind. *)
Theorem dataset_from_csv_files (s : State E Dataset Model)
    (train test : DataFrame Rating) (sd : Z) :
  refers_to "train" (FRatings train) s →
  refers_to "test" (FRatings test) s →
  globals s !! "SEED" = Some (VInt sd) →
  ∃ s',
    (cell_14;; cell_16 lib) s
    = (match NCFDataset lib (Some (to_csv train false))
               (Some (to_csv test false)) sd with
       | inl e => inl (LibraryError e)
       | inr _ => inr tt
       end, s')
    ∧ files s'
      = <["./test.csv" := to_csv test false]>
          (<["./train.csv" := to_csv train false]> (files s))
    ∧ ∀ d, NCFDataset lib (Some (to_csv train false))
             (Some (to_csv test false)) sd = inr d →
        globals s' !! "data" = Some (VDataset d).
Proof.
  intros (a1 & Hv1 & Ho1) (a2 & Hv2 & Ho2) Hseed.
  unfold cell_14, cell_16, write_file, read_file.
  repeat run_step.
  rewrite lookup_insert_ne by done. rewrite !lookup_insert_eq.
  destruct (NCFDataset lib _ _ sd) as [e|d]; cbn.
  - eexists. split; [reflexivity|]. split; [reflexivity|]. done.
  - eexists. split; [reflexivity|]. split; [reflexivity|].
    intros d' [= <-]. cbn. apply lookup_insert_eq.
Qed.
End FromFiles.

(* ------------------------------------------------------------------ *)
(** ** What the cells after the filter step leave alone *)

(** A variable that is not among the listed ones. *)
Ltac not_listed H :=
  repeat (apply elem_of_cons in H as [H|H]; [discriminate H|]);
  by apply elem_of_nil in H.

(** An operation that assigns none of the variables and touches no
    frame object. *)
Ltac keeps_leaf :=
  first
    [ intros s r s1 v [Hg Hh]; split; [|exact Hh];
      intros y Hy; cbn; rewrite lookup_insert_ne by (intros <-; not_listed Hy);
      rewrite (Hg y Hy); cbn;
      apply lookup_insert_ne; intros <-; not_listed Hy
    | intros s; unfold always, keeps;
      try match goal with |- context [call _ ?r] => destruct r end;
      unfold call, log, raise, mbind, M_bind, mret, M_ret; cbn;
      (split;
       [ intros y Hy;
         first [ reflexivity
               | apply lookup_insert_ne; intros <-; not_listed Hy ]
       | first [ reflexivity | by apply prefix_app_r ] ]) ].

(** The variables that are settled once the filter step has run: the
    three frames and the parameters. *)
Abbreviation settled :=
  ["df"; "train"; "test"; "TOP_K"; "MOVIELENS_DATA_SIZE"; "EPOCHS";
   "BATCH_SIZE"; "SEED"]%string.

Section Kept.
Context {E Dataset Model : Type}.
Variable lib : Library E Dataset Model.

#[export] Instance keeps_refl xs :
  Reflexive (keeps (E:=E) (Dataset:=Dataset) (Model:=Model) xs).
Proof. by intros s. Qed.

#[export] Instance keeps_trans xs :
  Transitive (keeps (E:=E) (Dataset:=Dataset) (Model:=Model) xs).
Proof.
  intros s1 s2 s3 [G1 H1] [G2 H2]. split.
  - intros x Hx. by rewrite G2, G1.
  - by etransitivity.
Qed.

Lemma keeps_refers_to xs x o (s s' : State E Dataset Model) :
  keeps xs s s' → x ∈ xs → refers_to x o s → refers_to x o s'.
Proof.
  intros [Hg Hh] Hx (a & Hv & Ho). exists a. split.
  - by rewrite Hg.
  - by eapply prefix_lookup_Some.
Qed.

Lemma cell_14_keeps :
  steps (always (keeps settled)) (cell_14 : M E Dataset Model unit).
Proof. unfold_cells. steps_with keeps_leaf. Qed.

Lemma cell_16_keeps : steps (always (keeps settled)) (cell_16 lib).
Proof. unfold_cells. steps_with keeps_leaf. Qed.

Lemma cell_18_keeps : steps (always (keeps settled)) (cell_18 lib).
Proof. unfold_cells. steps_with keeps_leaf. Qed.

Lemma cell_19_keeps : steps (always (keeps settled)) (cell_19 lib).
Proof. unfold_cells. steps_with keeps_leaf. Qed.

Lemma cell_21_keeps : steps (always (keeps settled)) (cell_21 lib).
Proof. unfold_cells. steps_with keeps_leaf. Qed.

Lemma cell_24_keeps : steps (always (keeps settled)) (cell_24 lib).
Proof. unfold_cells. steps_with keeps_leaf. Qed.

Lemma cell_25_keeps : steps (always (keeps settled)) (cell_25 lib).
Proof. unfold_cells. steps_with keeps_leaf. Qed.

(** X3: from the CSV files on, no cell assigns [df], [train], [test]
    or one of the five parameters, and none touches a frame object:
    however the run ends, these variables hold what they held after
    the filter step, and the three frames are as they were. *)
Theorem settled_after_filter (s : State E Dataset Model) :
  let s' := ((cell_14;; cell_16 lib;; cell_18 lib;; cell_19 lib;;
              cell_21 lib;; cell_24 lib;; cell_25 lib) s).2 in
  keeps settled s s'
  ∧ ∀ x o, x ∈ settled → refers_to x o s → refers_to x o s'.
Proof.
  cbv zeta.
  assert (steps (always (keeps settled))
            (cell_14;; cell_16 lib;; cell_18 lib;; cell_19 lib;;
             cell_21 lib;; cell_24 lib;; cell_25 lib
             : M E Dataset Model unit)) as Hsteps.
  { repeat
      first [ apply cell_14_keeps | apply cell_16_keeps | apply cell_18_keeps
            | apply cell_19_keeps | apply cell_21_keeps | apply cell_24_keeps
            | apply cell_25_keeps
            | apply steps_bind; [apply _| |intros _] ]. }
  split; [apply Hsteps|].
  intros x o Hx. apply (keeps_refers_to settled); [apply Hsteps|done].
Qed.
End Kept.

(* ------------------------------------------------------------------ *)
(** ** The files *)

Section Files.
Context {E Dataset Model : Type}.
Variable lib : Library E Dataset Model.

Abbreviation csv_paths := ["./train.csv"; "./test.csv"]%string.

#[export] Instance writes_only_refl ps :
  Reflexive (writes_only (E:=E) (Dataset:=Dataset) (Model:=Model) ps).
Proof. by intros s p Hp. Qed.

#[export] Instance writes_only_trans ps :
  Transitive (writes_only (E:=E) (Dataset:=Dataset) (Model:=Model) ps).
Proof. intros s1 s2 s3 H1 H2 p Hp. by rewrite H2, H1. Qed.

(** An operation that writes no file. *)
Ltac files_leaf :=
  first
    [ intros s r s1 v H; exact H
    | intros s; unfold always, writes_only;
      try match goal with |- context [call _ ?r] => destruct r end;
      reflexivity ].

Lemma cell_3_files : steps (always (writes_only csv_paths)) (cell_3 lib).
Proof. unfold_cells. steps_with files_leaf. Qed.

Lemma cell_4_files :
  steps (always (writes_only csv_paths)) (cell_4 : M E Dataset Model unit).
Proof. unfold_cells. steps_with files_leaf. Qed.

Lemma cell_6_files :
  steps (always (writes_only csv_paths)) (cell_6 : M E Dataset Model unit).
Proof. unfold_cells. steps_with files_leaf. Qed.

Lemma cell_8_files : steps (always (writes_only csv_paths)) (cell_8 lib).
Proof. unfold_cells. steps_with files_leaf. Qed.

Lemma cell_10_files :
  steps (always (writes_only csv_paths)) (cell_10 : M E Dataset Model unit).
Proof. unfold_cells. steps_with files_leaf. Qed.

Lemma cell_12_files :
  steps (always (writes_only csv_paths)) (cell_12 : M E Dataset Model unit).
Proof. unfold_cells. steps_with files_leaf. Qed.

(** Reading a frame variable leaves the state as it is. *)
Lemma get_ratings_state (s : State E Dataset Model) x :
  (get_ratings x s).2 = s.
Proof.
  unfold get_ratings, get_frame, get, deref, mbind, M_bind.
  destruct (globals s !! x) as [[]|]; try done.
  destruct (heap s !! _) as [[]|]; done.
Qed.

(** Cell 14 writes [./train.csv], then [./test.csv], in this order,
    and stops at the first frame that is not there. *)
Lemma cell_14_files :
  steps (always (writes_only csv_paths)) (cell_14 : M E Dataset Model unit).
Proof.
  intros s. unfold always, cell_14, write_file. repeat run_step.
  rewrite run_bind.
  match goal with
  | |- context [get_ratings "train" ?s0] =>
      pose proof (get_ratings_state s0 "train") as Hs0;
      destruct (get_ratings "train" s0) as [[e|train] s1]
  end; cbn [snd] in Hs0; subst s1; [done|].
  repeat run_step.
  rewrite run_bind.
  match goal with
  | |- context [get_ratings "test" ?s0] =>
      pose proof (get_ratings_state s0 "test") as Hs0;
      destruct (get_ratings "test" s0) as [[e|test] s1]
  end; cbn [snd] in Hs0; subst s1.
  - intros p Hp. cbn. apply lookup_insert_ne. intros <-. apply Hp.
    apply elem_of_cons. by left.
  - repeat run_step. intros p Hp. cbn.
    rewrite !lookup_insert_ne; [done|..]; intros <-; apply Hp.
    + apply elem_of_cons. by left.
    + apply elem_of_cons. right. apply elem_of_cons. by left.
Qed.

Lemma cell_16_files : steps (always (writes_only csv_paths)) (cell_16 lib).
Proof. unfold_cells. steps_with files_leaf. Qed.

Lemma cell_18_files : steps (always (writes_only csv_paths)) (cell_18 lib).
Proof. unfold_cells. steps_with files_leaf. Qed.

Lemma cell_19_files : steps (always (writes_only csv_paths)) (cell_19 lib).
Proof. unfold_cells. steps_with files_leaf. Qed.

Lemma cell_21_files : steps (always (writes_only csv_paths)) (cell_21 lib).
Proof. unfold_cells. steps_with files_leaf. Qed.

Lemma cell_24_files : steps (always (writes_only csv_paths)) (cell_24 lib).
Proof. unfold_cells. steps_with files_leaf. Qed.

Lemma cell_25_files : steps (always (writes_only csv_paths)) (cell_25 lib).
Proof. unfold_cells. steps_with files_leaf. Qed.

(** X4: however the run ends, the notebook itself has written no file
    other than [./train.csv] and [./test.csv]: every other path holds
    what it held.  What the libraries write on their own, such as the
    downloaded archive, is not followed. *)
Theorem only_csv_files_written (s : State E Dataset Model) (p : string) :
  p ≠ "./train.csv"%string → p ≠ "./test.csv"%string →
  files (notebook lib s).2 !! p = files s !! p.
Proof.
  intros H1 H2.
  assert (steps (always (writes_only csv_paths)) (notebook lib)) as Hsteps.
  { unfold notebook, prepare, load_split_write, train_and_score.
    repeat
      first [ apply cell_3_files | apply cell_4_files | apply cell_6_files
            | apply cell_8_files | apply cell_10_files | apply cell_12_files
            | apply cell_14_files | apply cell_16_files | apply cell_18_files
            | apply cell_19_files | apply cell_21_files | apply cell_24_files
            | apply cell_25_files
            | apply steps_bind; [apply _| |intros _] ]. }
  apply Hsteps. intros Hp.
  apply elem_of_cons in Hp as [->|Hp]; [done|].
  apply elem_of_cons in Hp as [->|Hp]; [done|].
  by apply elem_of_nil in Hp.
Qed.
End Files.

(* ------------------------------------------------------------------ *)
(** ** The prediction loop *)

(** A name is not in a list of other names. *)
Ltac not_in_list :=
  let H := fresh in
  intros H; not_listed H.

Section Loop.
Context {E Dataset Model : Type}.
Variable lib : Library E Dataset Model.
Abbreviation St6 := (State E Dataset Model).

Lemma appended_nil (s : St6) : appended [] [] [] [] s s.
Proof.
  unfold appended. split_and!; try done.
  - intros l Hl. by rewrite (right_id_L [] (++)).
  - intros l Hl. by rewrite (right_id_L [] (++)).
  - intros l Hl. by rewrite (right_id_L [] (++)).
  - by rewrite (right_id_L [] (++)).
Qed.

Lemma appended_app U1 I1 P1 ev1 U2 I2 P2 ev2 (s s1 s2 : St6) l1 l2 l3 :
  globals s !! "users" = Some (VInts l1) →
  globals s !! "items" = Some (VInts l2) →
  globals s !! "preds" = Some (VFloats l3) →
  appended U1 I1 P1 ev1 s s1 → appended U2 I2 P2 ev2 s1 s2 →
  appended (U1 ++ U2) (I1 ++ I2) (P1 ++ P2) (ev1 ++ ev2) s s2.
Proof.
  intros H1 H2 H3 (A1 & B1 & C1 & D1 & E1 & F1 & G1 & T1)
    (A2 & B2 & C2 & D2 & E2 & F2 & G2 & T2).
  unfold appended. split_and!.
  - intros l Hl. rewrite (assoc_L (++)). by apply A2, A1.
  - intros l Hl. rewrite (assoc_L (++)). by apply B2, B1.
  - intros l Hl. rewrite (assoc_L (++)). by apply C2, C1.
  - intros y Hy. by rewrite D2, D1.
  - congruence.
  - congruence.
  - congruence.
  - rewrite T2, T1. by rewrite (assoc_L (++)).
Qed.

(** One turn of the loop, by what [model.predict] does. *)
Lemma predict_user_run (s : St6) u U I P it m :
  globals s !! "users" = Some (VInts U) →
  globals s !! "items" = Some (VInts I) →
  globals s !! "preds" = Some (VFloats P) →
  globals s !! "item" = Some (VInts it) →
  globals s !! "model" = Some (VModel m) →
  ∃ s',
    match predict lib m (replicate (length it) u) it with
    | inr ps =>
        predict_user lib u s = (inr tt, s')
        ∧ appended (replicate (length it) u) it ps [Call Predict None] s s'
    | inl e =>
        predict_user lib u s = (inl (LibraryError e), s')
        ∧ appended (replicate (length it) u) it [] [Call Predict (Some e)]
            s s'
    end.
Proof.
  intros HU HI HP Hit Hm. unfold predict_user.
  repeat run_step.
  destruct (predict lib m _ it) as [e|ps]; cbn.
  - eexists. split; [reflexivity|].
    unfold appended. cbn. split_and!; try done.
    + intros l Hl. rewrite !lookup_insert_ne by done.
      rewrite lookup_insert_eq. congruence.
    + intros l Hl. rewrite lookup_insert_eq. congruence.
    + intros l Hl. rewrite !lookup_insert_ne by done.
      rewrite Hl. by rewrite (right_id_L [] (++)).
    + intros y Hy. rewrite !lookup_insert_ne; [done|..]; intros <-;
        apply Hy; repeat first [apply list_elem_of_here|apply list_elem_of_further].
  - eexists. split; [reflexivity|].
    unfold appended. cbn. split_and!; try done.
    + intros l Hl. rewrite !lookup_insert_ne by done.
      rewrite lookup_insert_eq. congruence.
    + intros l Hl. rewrite !lookup_insert_ne by done.
      rewrite lookup_insert_eq. congruence.
    + intros l Hl. rewrite lookup_insert_eq. congruence.
    + intros y Hy. rewrite !lookup_insert_ne; [done|..]; intros <-;
        apply Hy; repeat first [apply list_elem_of_here|apply list_elem_of_further].
Qed.

(** The loop of cell 21 calls [model.predict] for the users in turn,
    on the items of [item], until a call raises. *)
Lemma predict_loop_run (us : list Z) :
  ∀ (s : St6) U I P it m,
    globals s !! "users" = Some (VInts U) →
    globals s !! "items" = Some (VInts I) →
    globals s !! "preds" = Some (VFloats P) →
    globals s !! "item" = Some (VInts it) →
    globals s !! "model" = Some (VModel m) →
    ∃ s',
      (∃ pss,
          Forall2 (λ u ps, predict lib m (replicate (length it) u) it = inr ps)
            us pss
          ∧ for_each us (predict_user lib) s = (inr tt, s')
          ∧ appended (us ≫= λ u, replicate (length it) u) (us ≫= λ _, it)
              (concat pss) (replicate (length us) (Call Predict None)) s s')
      ∨ (∃ us1 u us2 pss e,
            us = us1 ++ u :: us2
            ∧ Forall2
                (λ u ps, predict lib m (replicate (length it) u) it = inr ps)
                us1 pss
            ∧ predict lib m (replicate (length it) u) it = inl e
            ∧ for_each us (predict_user lib) s = (inl (LibraryError e), s')
            ∧ appended ((us1 ++ [u]) ≫= λ u, replicate (length it) u)
                ((us1 ++ [u]) ≫= λ _, it) (concat pss)
                (replicate (length us1) (Call Predict None)
                 ++ [Call Predict (Some e)]) s s').
Proof.
  induction us as [|u us IH]; intros s U I P it m HU HI HP Hit Hm.
  - exists s. left. exists []. split; [constructor|]. split; [done|].
    apply appended_nil.
  - destruct (predict_user_run s u U I P it m HU HI HP Hit Hm) as [s1 H1].
    destruct (predict lib m (replicate (length it) u) it) as [e|ps] eqn:Hp.
    + destruct H1 as [Hrun Happ].
      exists s1. right. exists [], u, us, [], e.
      split; [done|]. split; [constructor|]. split; [done|].
      split; [cbn [for_each]; by rewrite (run_bind_inl _ _ _ _ _ Hrun)|].
      cbn. by rewrite !(right_id_L [] (++)).
    + destruct H1 as [Hrun Happ].
      pose proof Happ as (A1 & B1 & C1 & D1 & _).
      destruct (IH s1 (U ++ replicate (length it) u) (I ++ it) (P ++ ps) it m)
        as [s2 [(pss & Hall & Hloop & Happ2)
               |(us1 & u' & us2 & pss & e & -> & Hall & Hu' & Hloop & Happ2)]].
      { by apply A1. }
      { by apply B1. }
      { by apply C1. }
      { rewrite D1; [done|not_in_list]. }
      { rewrite D1; [done|not_in_list]. }
      * exists s2. left. exists (ps :: pss).
        split; [by constructor|].
        split; [cbn [for_each]; by rewrite (run_bind_inr _ _ _ _ _ Hrun)|].
        apply (appended_app _ _ _ [_] _ _ _ _ s s1 s2 U I P HU HI HP Happ Happ2).
      * exists s2. right. exists (u :: us1), u', us2, (ps :: pss), e.
        split; [done|]. split; [by constructor|]. split; [done|].
        split; [cbn [for_each]; by rewrite (run_bind_inr _ _ _ _ _ Hrun)|].
        apply (appended_app _ _ _ [_] _ _ _ _ s s1 s2 U I P HU HI HP Happ Happ2).
Qed.
End Loop.

(* ------------------------------------------------------------------ *)
(** ** How cell 21 ends *)

Section Scores.
Context {E Dataset Model : Type}.
Variable lib : Library E Dataset Model.
Abbreviation St7 := (State E Dataset Model).

Lemma run_with_timer x (body : M E Dataset Model unit) (s s1 : St7) r :
  body (assign_in x (VTimer None) s) = (r, s1) →
  with_timer lib x body s
  = (r, assign_in x
          (VTimer (Some (elapsed lib (drop (length (trace s)) (trace s1)))))
          s1).
Proof. intros H. unfold with_timer. by rewrite H. Qed.

Lemma length_pairs_users (us it : list Z) :
  length (us ≫= λ u, replicate (length it) u) = (length us * length it)%nat.
Proof.
  induction us as [|u us IH]; [done|].
  cbn. rewrite length_app, length_replicate, IH. done.
Qed.

Lemma length_pairs_items (us it : list Z) :
  length (us ≫= λ _, it) = (length us * length it)%nat.
Proof.
  induction us as [|u us IH]; [done|].
  cbn. rewrite length_app, IH. done.
Qed.

(** [pd.DataFrame] takes the three lists of cell 21 when there are as
    many scores as pairs, and only then. *)
Lemma frame_of_lists_pairs (us it : list Z) (preds : list Q) :
  (length preds = (length us * length it)%nat →
   ∃ df, frame_of_lists (us ≫= λ u, replicate (length it) u)
           (us ≫= λ _, it) preds = Some df)
  ∧ (length preds ≠ (length us * length it)%nat →
     frame_of_lists (us ≫= λ u, replicate (length it) u)
       (us ≫= λ _, it) preds = None).
Proof.
  unfold frame_of_lists. rewrite length_pairs_users, length_pairs_items.
  split; intros H.
  - rewrite decide_True by (by rewrite H). by eexists.
  - rewrite decide_False; [done|]. intros [_ H']. by apply H.
Qed.
End Scores.

Section Cell21.
Context {E Dataset Model : Type}.
Variable lib : Library E Dataset Model.
Abbreviation St8 := (State E Dataset Model).

Lemma cell_21_run (s : St8) (train : DataFrame Rating) (m : Model) :
  let us := unique (column userID train) in
  let it := unique (column itemID train) in
  let asked := λ u ps, predict lib m (replicate (length it) u) it = inr ps in
  refers_to "train" (FRatings train) s →
  globals s !! "model" = Some (VModel m) →
  ∃ s',
    (∃ us1 u us2 pss e,
        us = us1 ++ u :: us2
        ∧ Forall2 asked us1 pss
        ∧ predict lib m (replicate (length it) u) it = inl e
        ∧ cell_21 lib s = (inl (LibraryError e), s')
        ∧ globals s' !! "all_predictions" = globals s !! "all_predictions"
        ∧ trace s'
          = trace s ++ replicate (length us1) (Call Predict None)
            ++ [Call Predict (Some e)])
    ∨ (∃ pss,
          Forall2 asked us pss
          ∧ length (concat pss) ≠ (length us * length it)%nat
          ∧ cell_21 lib s
            = (inl (ValueError "All arrays must be of the same length"), s')
          ∧ globals s' !! "all_predictions" = globals s !! "all_predictions"
          ∧ trace s' = trace s ++ replicate (length us) (Call Predict None))
    ∨ (∃ pss df,
          Forall2 asked us pss
          ∧ length (concat pss) = (length us * length it)%nat
          ∧ frame_of_lists (us ≫= λ u, replicate (length it) u)
              (us ≫= λ _, it) (concat pss) = Some df
          ∧ cell_21 lib s = (inr tt, s')
          ∧ refers_to "all_predictions"
              (FUnseen
                 (drop_rating
                    (mkDF (columns (merge_outer train df))
                       (filter (λ p, m_rating p.2 = None)
                          (rows (merge_outer train df)))))) s'
          ∧ globals s' !! "test_time"
            = Some (VTimer
                      (Some
                         (elapsed lib
                            (replicate (length us) (Call Predict None)))))
          ∧ trace s'
            = trace s ++ replicate (length us) (Call Predict None)
              ++ [Print " "
                    [("Took {} seconds for prediction.",
                      VTimer
                        (Some
                           (elapsed lib
                              (replicate (length us) (Call Predict None)))))]]).
Proof.
  intros us it asked (a & Hv & Ho) Hm.
  set (s0 := assign_in "item" (VInts it)
               (assign_in "preds" (VFloats [])
                  (assign_in "items" (VInts [])
                     (assign_in "users" (VInts [])
                        (assign_in "test_time" (VTimer None) s))))).
  assert (globals s0 !! "train" = Some (VFrame a)) as Hv0
    by (unfold s0; lookup_var).
  destruct (predict_loop_run lib us s0 [] [] [] it m)
    as [sl Hloop]; try (unfold s0; lookup_var).
  unfold s0, assign_in in Hloop.
  cbn [globals heap environ files trace] in Hloop.
  unfold cell_21.
  destruct Hloop as [(pss & Hall & Hloop & Happ)
                    |(us1 & u & us2 & pss & e & Hus & Hall & Hu & Hloop & Happ)].
  - destruct Happ as (A & B & C & D & Hh & He & Hf & Ht).
    cbn [globals heap environ files trace] in *.
    assert (globals sl !! "users"
            = Some (VInts ([] ++ (us ≫= λ u, replicate (length it) u))))
      as HUl by (apply A; lookup_var).
    assert (globals sl !! "items" = Some (VInts ([] ++ (us ≫= λ _, it))))
      as HIl by (apply B; lookup_var).
    assert (globals sl !! "preds" = Some (VFloats ([] ++ concat pss)))
      as HPl by (apply C; lookup_var).
    assert (globals sl !! "train" = Some (VFrame a)) as Htrl.
    { rewrite D by not_in_list. lookup_var. }
    assert (heap sl !! a = Some (FRatings train)) as Hol by (by rewrite Hh).
    assert (globals sl !! "all_predictions" = globals s !! "all_predictions")
      as Hapl.
    { rewrite D by not_in_list. by rewrite !lookup_insert_ne by done. }
    cbn [app] in HUl, HIl, HPl.
    destruct (decide (length (concat pss) = (length us * length it)%nat))
      as [Hlen|Hlen].
    + destruct (proj1 (frame_of_lists_pairs us it (concat pss)) Hlen)
        as [df Hdf].
      eexists. right. right. exists pss, df.
      split; [done|]. split; [done|]. split; [done|].
      split.
      { erewrite run_bind_inr.
        2:{ apply run_with_timer. repeat run_step.
            fold it. fold us.
            erewrite run_bind_inr by exact Hloop.
            repeat run_step. rewrite Hdf. repeat run_step.
            rewrite getitem_mask_isnull. repeat run_step. reflexivity. }
        unfold print, log. repeat run_step. reflexivity. }
      split.
      { eexists. split; [lookup_var|lookup_obj]. }
      split.
      { cbn [globals trace]. rewrite lookup_insert_eq, Ht.
        by rewrite drop_app_length. }
      cbn [trace]. rewrite Ht.
      rewrite drop_app_length. by rewrite <- (assoc_L (++)).
    + pose proof (proj2 (frame_of_lists_pairs us it (concat pss)) Hlen)
        as Hdf.
      eexists. right. left. exists pss.
      split; [done|]. split; [done|].
      split.
      { erewrite run_bind_inl; [reflexivity|].
        apply run_with_timer. repeat run_step.
        fold it. fold us.
        erewrite run_bind_inr by exact Hloop.
        repeat run_step. rewrite Hdf. reflexivity. }
      split.
      { cbn [globals assign_in]. by rewrite lookup_insert_ne by done. }
      cbn [trace assign_in]. exact Ht.
  - destruct Happ as (A & B & C & D & Hh & He & Hf & Ht).
    cbn [globals heap environ files trace] in *.
    exists (assign_in "test_time"
              (VTimer (Some (elapsed lib (drop (length (trace s)) (trace sl)))))
              sl).
    left. exists us1, u, us2, pss, e. split_and!; try done.
    + erewrite run_bind_inl; [reflexivity|].
      apply run_with_timer.
      repeat run_step. fold it. fold us.
      by rewrite (run_bind_inl _ _ _ _ _ Hloop).
    + cbn [globals assign_in]. rewrite lookup_insert_ne by done.
      rewrite D by not_in_list. by rewrite !lookup_insert_ne by done.
Qed.
End Cell21.

Section Asked.
Context {E Dataset Model : Type}.
Variable lib : Library E Dataset Model.
Abbreviation St9 := (State E Dataset Model).

(** What [model.predict] returned is one list a call. *)
Lemma asked_functional (m : Model) (it us : list Z) (pss pss' : list (list Q)) :
  Forall2 (λ u ps, predict lib m (replicate (length it) u) it = inr ps) us pss →
  Forall2 (λ u ps, predict lib m (replicate (length it) u) it = inr ps) us pss' →
  pss = pss'.
Proof.
  intros H. revert pss'.
  induction H as [|u ps us pss Hu _ IH]; intros pss' H'.
  - by apply Forall2_nil_inv_l in H'.
  - apply Forall2_cons_inv_l in H' as (ps' & pss'' & Hu' & H' & ->).
    rewrite Hu in Hu'. injection Hu' as <-. f_equal. by apply IH.
Qed.

Lemma asked_no_raise (m : Model) (it us1 us2 : list Z) u e
    (pss : list (list Q)) :
  Forall2 (λ u ps, predict lib m (replicate (length it) u) it = inr ps)
    (us1 ++ u :: us2) pss →
  predict lib m (replicate (length it) u) it = inl e → False.
Proof.
  intros H He.
  apply Forall2_app_inv_l in H as (p1 & p2 & _ & H & _).
  apply Forall2_cons_inv_l in H as (ps & _ & Hu & _).
  congruence.
Qed.

(** X5: when cell 21 returns, [model.predict] was called once for each
    user of [train], in the order of [unique], with that user repeated
    and all the items of [train]; every call returned, and together
    the calls returned as many scores as there are pairs.  These calls
    are the only events of the cell before the line with the
    prediction time, which is printed after them. *)
Theorem cell_21_asks_every_pair (s s' : St9) (train : DataFrame Rating)
    (m : Model) :
  let us := unique (column userID train) in
  let it := unique (column itemID train) in
  refers_to "train" (FRatings train) s →
  globals s !! "model" = Some (VModel m) →
  cell_21 lib s = (inr tt, s') →
  ∃ pss,
    Forall2 (λ u ps, predict lib m (replicate (length it) u) it = inr ps)
      us pss
    ∧ length (concat pss) = (length us * length it)%nat
    ∧ trace s'
      = trace s ++ replicate (length us) (Call Predict None)
        ++ [Print " "
              [("Took {} seconds for prediction.",
                VTimer
                  (Some
                     (elapsed lib
                        (replicate (length us) (Call Predict None)))))]].
Proof.
  intros us it Htrain Hm Hrun.
  destruct (cell_21_run lib s train m Htrain Hm)
    as [s1 [(us1 & u & us2 & pss & e & _ & _ & _ & Hr & _)
           |[(pss & _ & _ & Hr & _)
            |(pss & df & Hall & Hlen & _ & Hr & _ & _ & Htr)]]];
    rewrite Hrun in Hr; try discriminate Hr.
  injection Hr as ->. by exists pss.
Qed.

(** X6: [pd.DataFrame] is what checks the scores, and it checks their
    number only.  When every call of [model.predict] returns, cell 21
    returns if the scores returned are, all together, as many as the
    pairs; if not, it ends with the ValueError of [pd.DataFrame],
    after the last call, and [all_predictions] is not assigned.  The
    length of each list returned is not compared with the number of
    items. *)
Theorem cell_21_checks_total (s : St9) (train : DataFrame Rating)
    (m : Model) (pss : list (list Q)) :
  let us := unique (column userID train) in
  let it := unique (column itemID train) in
  refers_to "train" (FRatings train) s →
  globals s !! "model" = Some (VModel m) →
  Forall2 (λ u ps, predict lib m (replicate (length it) u) it = inr ps)
    us pss →
  ∃ s',
    (length (concat pss) = (length us * length it)%nat →
     cell_21 lib s = (inr tt, s')
     ∧ ∃ all_predictions,
         refers_to "all_predictions" (FUnseen all_predictions) s')
    ∧ (length (concat pss) ≠ (length us * length it)%nat →
       cell_21 lib s
       = (inl (ValueError "All arrays must be of the same length"), s')
       ∧ globals s' !! "all_predictions" = globals s !! "all_predictions"
       ∧ trace s' = trace s ++ replicate (length us) (Call Predict None)).
Proof.
  intros us it Htrain Hm Hall.
  destruct (cell_21_run lib s train m Htrain Hm)
    as [s1 [(us1 & u & us2 & pss' & e & Hus & _ & He & _)
           |[(pss' & Hall' & Hlen' & Hr & Hap & Htr)
            |(pss' & df & Hall' & Hlen' & _ & Hr & Hap & _)]]].
  - exfalso. fold us in Hus. rewrite Hus in Hall.
    by eapply asked_no_raise.
  - rewrite <- (asked_functional _ _ _ _ _ Hall Hall') in Hlen'.
    exists s1. split; [done|]. by intros _.
  - rewrite <- (asked_functional _ _ _ _ _ Hall Hall') in Hlen'.
    exists s1. split; [|done]. intros _. split; [done|]. by eexists.
Qed.
End Asked.

(* ------------------------------------------------------------------ *)
(** ** The rows of [all_predictions] *)

Section Rows.

(** A row of the outer merge without a rating is a row of the right
    frame alone. *)
Lemma merge_outer_unrated_row (left : DataFrame Rating)
    (right : DataFrame Prediction) (p : Z * Merged) :
  p ∈ rows (merge_outer left right) → m_rating p.2 = None →
  ∃ r, r ∈ (rows right).*2
       ∧ p.2 = mkMerged (p_userID r) (p_itemID r) None None
                 (Some (p_prediction r)).
Proof.
  destruct p as [i mr]. cbn [merge_outer rows snd]. intros Hp Hnull.
  apply elem_of_zip_r in Hp.
  apply list_elem_of_bind in Hp as (k & Hm & _).
  unfold merge_group in Hm.
  destruct (filter (λ l, rating_key l = k) (rows left).*2) as [|l0 ls];
    [|destruct (filter (λ r, prediction_key r = k) (rows right).*2)
        as [|r0 rs] eqn:Er].
  - apply list_elem_of_fmap in Hm as (r & -> & [_ Hr]%list_elem_of_filter).
    by exists r.
  - by apply list_elem_of_fmap in Hm as (l & -> & _).
  - apply list_elem_of_bind in Hm as (l & Hm & _).
    apply list_elem_of_bind in Hm as (r & Hm & _).
    by apply list_elem_of_singleton in Hm as ->.
Qed.

(** A row of the frame built from the three lists holds what the
    lists hold at one position. *)
Lemma frame_of_lists_row users items preds df (r : Prediction) :
  frame_of_lists users items preds = Some df →
  r ∈ (rows df).*2 →
  ∃ j, users !! j = Some (p_userID r) ∧ items !! j = Some (p_itemID r)
       ∧ preds !! j = Some (p_prediction r).
Proof.
  unfold frame_of_lists. case_decide as Hlen; [|done].
  intros [= <-]. cbn [rows]. rewrite with_range_index_values.
  intros (j & [u i] & q & -> & Hui & Hq)%elem_of_lookup_zip_with_1.
  apply lookup_zip_with_Some in Hui as (u' & i' & [= -> ->] & Hu & Hi).
  by exists j.
Qed.

Lemma merge_outer_columns (left : DataFrame Rating)
    (right : DataFrame Prediction) :
  columns left = header →
  columns right = ["userID"; "itemID"; "prediction"]%string →
  columns (merge_outer left right)
  = ["userID"; "itemID"; "rating"; "timestamp"; "prediction"]%string.
Proof. cbn [merge_outer columns]. by intros -> ->. Qed.

End Rows.

Section Shape.
Context {E Dataset Model : Type}.
Variable lib : Library E Dataset Model.

(** X7: when cell 21 returns, every row of [all_predictions] has a
    null timestamp, and its prediction is the score that
    [model.predict] returned at the position of the row's pair: the
    lists [users], [items] and [preds] hold the user, the item and the
    score of the row at one index.  Over a train frame with the four
    columns, the columns left are userID, itemID, timestamp and
    prediction. *)
Theorem scores_by_position (s s' : State E Dataset Model)
    (train : DataFrame Rating) (m : Model) :
  let us := unique (column userID train) in
  let it := unique (column itemID train) in
  refers_to "train" (FRatings train) s →
  globals s !! "model" = Some (VModel m) →
  cell_21 lib s = (inr tt, s') →
  ∃ all_predictions pss,
    refers_to "all_predictions" (FUnseen all_predictions) s'
    ∧ Forall2 (λ u ps, predict lib m (replicate (length it) u) it = inr ps)
        us pss
    ∧ (columns train = header →
       columns all_predictions
       = ["userID"; "itemID"; "timestamp"; "prediction"]%string)
    ∧ ∀ p, p ∈ rows all_predictions →
        u_timestamp p.2 = None
        ∧ ∃ j q,
            (us ≫= λ u, replicate (length it) u) !! j = Some (u_userID p.2)
            ∧ (us ≫= λ _, it) !! j = Some (u_itemID p.2)
            ∧ concat pss !! j = Some q
            ∧ u_prediction p.2 = Some q.
Proof.
  intros us it Htrain Hm Hrun.
  destruct (cell_21_run lib s train m Htrain Hm)
    as [s1 [(us1 & u & us2 & pss & e & _ & _ & _ & Hr & _)
           |[(pss & _ & _ & Hr & _)
            |(pss & df & Hall & Hlen & Hdf & Hr & Hap & _)]]];
    rewrite Hrun in Hr; try discriminate Hr.
  injection Hr as ->. eexists _, pss. split; [exact Hap|].
  split; [exact Hall|]. split.
  - intros Hcols. cbn [drop_rating columns].
    rewrite (merge_outer_columns train df Hcols); [done|].
    unfold frame_of_lists in Hdf. case_decide; [|done].
    by injection Hdf as <-.
  - intros [i r] Hp. cbn [drop_rating rows] in Hp.
    apply list_elem_of_fmap in Hp as ([i' mr] & [= -> ->] & Hp).
    apply list_elem_of_filter in Hp as [Hnull Hp]. cbn [snd] in *.
    destruct (merge_outer_unrated_row train df (i', mr) Hp Hnull)
      as (r & Hr & Hmr). cbn [snd] in Hmr. subst mr.
    destruct (frame_of_lists_row _ _ _ _ r Hdf Hr) as (j & Hu & Hi & Hq).
    split; [done|]. by exists j, (p_prediction r).
Qed.
End Shape.

(* ------------------------------------------------------------------ *)
(** ** The pairs of [all_predictions] *)

Section Pairs.

(** The rows without a rating that the outer merge has for one key,
    when no key occurs twice in the right frame: one at most. *)
Lemma merge_group_unrated_keys (ls : list Rating) (rs : list Prediction) k :
  (∀ r, r ∈ rs → prediction_key r = k) → (length rs ≤ 1)%nat →
  (merged_key <$> filter (λ m, m_rating m = None) (merge_group ls rs))
    `sublist_of` [k].
Proof.
  intros Hkey Hlen.
  pose proof (merge_group_unrated ls rs) as Hn.
  destruct ls as [|l0 ls].
  - cbn [merge_group] in *.
    rewrite filter_all by (by intros m (r & -> & _)%list_elem_of_fmap).
    rewrite <- list_fmap_compose.
    destruct rs as [|r [|r' rs]]; [apply sublist_nil_l| |cbn in Hlen; lia].
    cbn. rewrite <- (Hkey r) by apply list_elem_of_here.
    by apply sublist_skip.
  - apply length_zero_iff_nil in Hn. rewrite Hn. apply sublist_nil_l.
Qed.

Lemma unrated_keys_sublist (left : DataFrame Rating)
    (right : DataFrame Prediction) :
  NoDup (prediction_key <$> (rows right).*2) →
  (merged_key
     <$> filter (λ m, m_rating m = None) (rows (merge_outer left right)).*2)
    `sublist_of` merge_keys left right.
Proof.
  intros Hnd. cbn [merge_outer rows]. rewrite with_range_index_values.
  induction (merge_keys left right) as [|k ks IH]; [done|].
  cbn [mbind list_bind]. rewrite filter_app, fmap_app.
  change (k :: ks) with ([k] ++ ks).
  apply sublist_app; [|exact IH].
  apply merge_group_unrated_keys.
  - by intros r [? _]%list_elem_of_filter.
  - rewrite (length_filter_key prediction_key) by done. case_decide; lia.
Qed.
End Pairs.

(* ------------------------------------------------------------------ *)
(** ** The test rows and the predictions *)

Section Covered.
Context {E Dataset Model : Type}.
Variable lib : Library E Dataset Model.
Abbreviation St13 := (State E Dataset Model).

(** The filter step, run. *)
Lemma cell_12_run (s : St13) (train test : DataFrame Rating) :
  refers_to "train" (FRatings train) s →
  refers_to "test" (FRatings test) s →
  ∃ s' test',
    cell_12 s = (inr tt, s')
    ∧ refers_to "train" (FRatings train) s'
    ∧ refers_to "test" (FRatings test') s'
    ∧ rows test'
      = filter (λ p, userID p.2 ∈ (userID ∘ snd <$> rows train)
                     ∧ itemID p.2 ∈ (itemID ∘ snd <$> rows train))
          (rows test).
Proof.
  intros (a1 & Hv1 & Ho1) (a2 & Hv2 & Ho2).
  destruct (filter_test_rows train test)
    as (test1 & test' & Hu & Hi & _ & _ & Hrows).
  unfold cell_12.
  repeat run_step. rewrite Hu. repeat run_step. rewrite Hi. repeat run_step.
  eexists _, test'. split; [reflexivity|]. split_and!.
  - eexists. split; [lookup_var|lookup_obj].
  - eexists. split; [lookup_var|lookup_obj].
  - exact Hrows.
Qed.

(** When the training returns, [model] is the fitted model. *)
Lemma cell_19_inr (s s' : St13) :
  cell_19 lib s = (inr tt, s') →
  ∃ m, globals s' !! "model" = Some (VModel m).
Proof.
  intros H. unfold cell_19 in H.
  apply bind_inr_inv in H as ([] & st & Hbody & H).
  apply with_timer_inr in Hbody as (sb & Hbody & ->).
  inv_run Hbody. unfold print in H. inv_run H.
  eexists. lookup_var.
Qed.

(** X8: the filter step is what makes the evaluation meaningful: when
    the cells from the filter step to the predictions return, every
    row left in [test] whose pair is not a pair of [train] has exactly
    one row in [all_predictions]. *)
Theorem test_rows_are_scored (s s' : St13) (train test : DataFrame Rating) :
  refers_to "train" (FRatings train) s →
  refers_to "test" (FRatings test) s →
  (cell_12;; cell_14;; cell_16 lib;; cell_18 lib;; cell_19 lib;;
   cell_21 lib) s = (inr tt, s') →
  ∃ test' all_predictions,
    refers_to "test" (FRatings test') s'
    ∧ refers_to "all_predictions" (FUnseen all_predictions) s'
    ∧ rows test'
      = filter (λ p, userID p.2 ∈ (userID ∘ snd <$> rows train)
                     ∧ itemID p.2 ∈ (itemID ∘ snd <$> rows train))
          (rows test)
    ∧ ∀ p, p ∈ rows test' →
        rating_key p.2 ∉ (rating_key ∘ snd <$> rows train) →
        length (filter (λ q, unseen_key q.2 = rating_key p.2)
                  (rows all_predictions)) = 1%nat.
Proof.
  intros Htrain Htest Hrun.
  apply bind_inr_inv in Hrun as ([] & s1 & H12 & Hrun).
  destruct (cell_12_run s train test Htrain Htest)
    as (s1' & test' & H12' & Htrain1 & Htest1 & Hrows).
  rewrite H12 in H12'. injection H12' as <-.
  assert (steps (always (keeps settled))
            (cell_14;; cell_16 lib;; cell_18 lib
             : M E Dataset Model unit)) as Hmid.
  { apply steps_bind; [apply _|apply cell_14_keeps|intros _].
    apply steps_bind; [apply _|apply cell_16_keeps|intros _].
    apply cell_18_keeps. }
  rewrite <- !run_bind_assoc in Hrun.
  apply bind_inr_inv in Hrun as ([] & s5 & Hrun & H21).
  apply bind_inr_inv in Hrun as ([] & s4 & Hrun & H19).
  rewrite !run_bind_assoc in Hrun.
  specialize (Hmid s1). rewrite Hrun in Hmid.
  pose proof (cell_19_keeps lib s4) as H19k. rewrite H19 in H19k.
  pose proof (cell_21_keeps lib s5) as H21k. rewrite H21 in H21k.
  assert (keeps settled s1 s5) as Hk15 by (by etransitivity).
  assert ("train"%string ∈ settled) as Hin1
    by apply list_elem_of_further, list_elem_of_here.
  assert ("test"%string ∈ settled) as Hin2
    by (do 2 apply list_elem_of_further; apply list_elem_of_here).
  pose proof (keeps_refers_to _ _ _ _ _ Hk15 Hin1 Htrain1) as Htrain5.
  pose proof (keeps_refers_to _ _ _ _ _ Hk15 Hin2 Htest1) as Htest5.
  pose proof (keeps_refers_to _ _ _ _ _ H21k Hin2 Htest5) as Htest'.
  apply cell_19_inr in H19 as [m Hm].
  destruct (cell_21_run lib s5 train m Htrain5 Hm)
    as [s6 [(us1 & u & us2 & pss & e & _ & _ & _ & Hr & _)
           |[(pss & _ & _ & Hr & _)
            |(pss & df & Hall & Hlen & Hdf & Hr & Hap & _)]]];
    rewrite H21 in Hr; try discriminate Hr.
  injection Hr as ->.
  eexists test', _. split; [exact Htest'|]. split; [exact Hap|].
  split; [exact Hrows|].
  intros p Hp Hnew.
  rewrite (unseen_count train df (concat pss) (rating_key p.2) Hdf).
  rewrite Hrows in Hp. apply list_elem_of_filter in Hp as [[Hu Hi] _].
  by rewrite decide_True.
Qed.
End Covered.

(* ------------------------------------------------------------------ *)
(** ** How many rows [all_predictions] has *)

Section Size.

Lemma length_pairs (us it : list Z) :
  length (us ≫= λ u, pair u <$> it) = (length us * length it)%nat.
Proof.
  induction us as [|u us IH]; [done|].
  cbn. by rewrite length_app, length_fmap, IH.
Qed.

(** The pairs that the frame cell 21 leaves holds. *)
Lemma unseen_keys (train : DataFrame Rating) (df : DataFrame Prediction)
    (preds : list Q) :
  let us := unique (column userID train) in
  let it := unique (column itemID train) in
  frame_of_lists (us ≫= λ u, replicate (length it) u) (us ≫= λ _, it) preds
  = Some df →
  (unseen_key
     <$> (rows (drop_rating
                  (mkDF (columns (merge_outer train df))
                     (filter (λ p, m_rating p.2 = None)
                        (rows (merge_outer train df)))))).*2)
  ≡ₚ filter (λ k, k ∉ (rating_key ∘ snd <$> rows train))
       (us ≫= λ u, pair u <$> it).
Proof.
  intros us it Hdf.
  assert (NoDup (prediction_key <$> (rows df).*2)) as Hnd.
  { rewrite (frame_of_lists_keys _ _ _ _ Hdf), zip_users_items.
    apply NoDup_pairs; apply NoDup_distinct. }
  apply NoDup_Permutation.
  - eapply sublist_NoDup; [apply (NoDup_merge_keys train df)|].
    cbn [drop_rating rows]. rewrite values_prod_map.
    rewrite <- list_fmap_compose.
    rewrite (filter_values (λ m, m_rating m = None)).
    by apply unrated_keys_sublist.
  - apply NoDup_filter, NoDup_pairs; apply NoDup_distinct.
  - intros k.
    pose proof (unseen_count train df preds k Hdf) as Hcount.
    rewrite list_elem_of_filter, elem_of_pairs.
    fold us it. unfold us, it. rewrite !elem_of_unique_column.
    split.
    + intros (r & -> & Hr)%list_elem_of_fmap.
      apply list_elem_of_fmap in Hr as ([i r'] & -> & Hr).
      case_decide as Hk; [tauto|].
      apply length_zero_iff_nil in Hcount.
      exfalso. by eapply filter_nil_not_elem_of, Hr.
    + intros Hk. rewrite decide_True in Hcount by tauto.
      destruct (filter _ _) as [|[i r] l] eqn:Ef in Hcount; [done|].
      assert ((i, r) ∈ filter (λ p : Z * Unseen, unseen_key p.2 = k)
                (rows (drop_rating
                         (mkDF (columns (merge_outer train df))
                            (filter (λ p, m_rating p.2 = None)
                               (rows (merge_outer train df)))))))
        as [Hkey Hin]%list_elem_of_filter
        by (rewrite Ef; apply list_elem_of_here).
      cbn [snd] in Hkey. subst k.
      apply list_elem_of_fmap. exists r. split; [done|].
      apply list_elem_of_fmap. by exists (i, r).
Qed.

(** The pairs of a frame are among the pairs of its users with its
    items. *)
Lemma seen_keys (train : DataFrame Rating) :
  let us := unique (column userID train) in
  let it := unique (column itemID train) in
  filter (λ k, k ∈ (rating_key ∘ snd <$> rows train))
    (us ≫= λ u, pair u <$> it)
  ≡ₚ distinct (rating_key ∘ snd <$> rows train).
Proof.
  intros us it. apply NoDup_Permutation.
  - apply NoDup_filter, NoDup_pairs; apply NoDup_distinct.
  - apply NoDup_distinct.
  - intros k. rewrite list_elem_of_filter, elem_of_pairs, elem_of_distinct.
    unfold us, it. rewrite !elem_of_unique_column.
    split; [tauto|]. intros Hk. split; [done|].
    apply list_elem_of_fmap in Hk as (p & -> & Hp).
    split; apply list_elem_of_fmap; by exists p.
Qed.
End Size.

Section Sized.
Context {E Dataset Model : Type}.
Variable lib : Library E Dataset Model.

(** X9: when cell 21 returns, [all_predictions] has a row for each
    pair of a user of [train] with an item of [train] but for the
    pairs of [train]: its rows and the distinct pairs of [train] are
    together as many as users times items. *)
Theorem all_predictions_size (s s' : State E Dataset Model)
    (train : DataFrame Rating) (m : Model) :
  refers_to "train" (FRatings train) s →
  globals s !! "model" = Some (VModel m) →
  cell_21 lib s = (inr tt, s') →
  ∃ all_predictions,
    refers_to "all_predictions" (FUnseen all_predictions) s'
    ∧ (length (rows all_predictions)
       + length (distinct (rating_key ∘ snd <$> rows train))
       = length (unique (column userID train))
         * length (unique (column itemID train)))%nat.
Proof.
  intros Htrain Hm Hrun.
  destruct (cell_21_run lib s train m Htrain Hm)
    as [s1 [(us1 & u & us2 & pss & e & _ & _ & _ & Hr & _)
           |[(pss & _ & _ & Hr & _)
            |(pss & df & Hall & Hlen & Hdf & Hr & Hap & _)]]];
    rewrite Hrun in Hr; try discriminate Hr.
  injection Hr as ->. eexists. split; [exact Hap|].
  rewrite <- length_pairs.
  rewrite <- (length_filter_split
                (λ k, k ∈ (rating_key ∘ snd <$> rows train))
                (unique (column userID train)
                 ≫= λ u, pair u <$> unique (column itemID train))).
  rewrite (seen_keys train), <- (unseen_keys train df (concat pss) Hdf).
  rewrite !length_fmap. lia.
Qed.
End Sized.

(* ------------------------------------------------------------------ *)
(** ** A prediction that raises *)

Section Raised.
Context {E Dataset Model : Type}.
Variable lib : Library E Dataset Model.

(** The first user for whom [model.predict] raises is one user. *)
Lemma first_raise_unique (m : Model) (it : list Z) (us1 : list Z) :
  ∀ us1' u u' us2 us2' (pss pss' : list (list Q)) e e',
    us1 ++ u :: us2 = us1' ++ u' :: us2' →
    Forall2 (λ u ps, predict lib m (replicate (length it) u) it = inr ps)
      us1 pss →
    predict lib m (replicate (length it) u) it = inl e →
    Forall2 (λ u ps, predict lib m (replicate (length it) u) it = inr ps)
      us1' pss' →
    predict lib m (replicate (length it) u') it = inl e' →
    us1 = us1' ∧ u = u'.
Proof.
  induction us1 as [|a us1 IH];
    intros [|a' us1'] u u' us2 us2' pss pss' e e' Heq Hall Hu Hall' Hu'.
  - by injection Heq as -> _.
  - injection Heq as <- _.
    apply Forall2_cons_inv_l in Hall' as (ps & _ & Ha & _). congruence.
  - injection Heq as -> _.
    apply Forall2_cons_inv_l in Hall as (ps & _ & Ha & _). congruence.
  - injection Heq as <- Heq.
    apply Forall2_cons_inv_l in Hall as (ps & pss0 & _ & Hall & _).
    apply Forall2_cons_inv_l in Hall' as (ps' & pss0' & _ & Hall' & _).
    destruct (IH _ _ _ _ _ _ _ _ _ Heq Hall Hu Hall' Hu') as [-> ->].
    done.
Qed.

(** X10: the loop of cell 21 stops at the first call of
    [model.predict] that raises: the users before that one have been
    asked about, no user after it is, what the call raised ends the
    cell, and [all_predictions] is not assigned. *)
Theorem cell_21_stops_at_first_raise (s : State E Dataset Model)
    (train : DataFrame Rating) (m : Model)
    (us1 us2 : list Z) (u : Z) (pss : list (list Q)) (e : E) :
  let it := unique (column itemID train) in
  refers_to "train" (FRatings train) s →
  globals s !! "model" = Some (VModel m) →
  unique (column userID train) = us1 ++ u :: us2 →
  Forall2 (λ u ps, predict lib m (replicate (length it) u) it = inr ps)
    us1 pss →
  predict lib m (replicate (length it) u) it = inl e →
  ∃ s',
    cell_21 lib s = (inl (LibraryError e), s')
    ∧ globals s' !! "all_predictions" = globals s !! "all_predictions"
    ∧ trace s'
      = trace s ++ replicate (length us1) (Call Predict None)
        ++ [Call Predict (Some e)].
Proof.
  intros it Htrain Hm Hus Hall Hu.
  destruct (cell_21_run lib s train m Htrain Hm)
    as [s1 [(us1' & u' & us2' & pss' & e' & Hus' & Hall' & Hu' & Hr & Hap
             & Htr)
           |[(pss' & Hall' & _)
            |(pss' & df & Hall' & _)]]].
  - rewrite Hus in Hus'.
    destruct (first_raise_unique m _ _ _ _ _ _ _ _ _ _ _
                Hus' Hall Hu Hall' Hu') as [<- <-].
    fold it in Hu'. rewrite Hu in Hu'. injection Hu' as <-.
    by exists s1.
  - exfalso. rewrite Hus in Hall'. by eapply asked_no_raise.
  - exfalso. rewrite Hus in Hall'. by eapply asked_no_raise.
Qed.
End Raised.

(* ------------------------------------------------------------------ *)
(** ** A run, call by call *)

Section Calls.
Context {E Dataset Model : Type}.
Variable lib : Library E Dataset Model.
Abbreviation St10 := (State E Dataset Model).

(** The cells up to the training: how they end, and what they have
    computed when they return. *)
Lemma training_outcome (s : St10) :
  match (prepare lib;; cell_19 lib) s with
  | (inl e, _) => ∃ x, e = LibraryError x
  | (inr _, s1) =>
      ∃ rs test d m fitted,
        let df := mkDF ["userID"; "itemID"; "rating"; "timestamp"]%string
                    (with_range_index rs) in
        let train := (python_chrono_split df (3 # 4)).1 in
        movielens_download lib "1m" = inr rs
        ∧ filter_test train (python_chrono_split df (3 # 4)).2 = Some test
        ∧ NCFDataset lib (Some (to_csv train false))
            (Some (to_csv test false)) 42 = inr d
        ∧ NCF lib (<["CUDA_VISIBLE_DEVICES" := "0"]> (environ s))
            {| n_users := ds_n_users lib d;
               n_items := ds_n_items lib d;
               model_type := "NeuMF";
               n_factors := 4;
               layer_sizes := [16; 8; 4];
               n_epochs := 50;
               batch_size := 16384;
               learning_rate := 1 # 1000;
               verbose := 1;
               seed := 42 |} = inr m
        ∧ fit lib m d = inr fitted
        ∧ refers_to "train" (FRatings train) s1
        ∧ refers_to "test" (FRatings test) s1
        ∧ globals s1 !! "model" = Some (VModel fitted)
        ∧ globals s1 !! "TOP_K" = Some (VInt 10)
        ∧ globals s1 !! "train_time"
          = Some (VTimer (Some (elapsed lib [Call Fit None])))
        ∧ trace s1
          = trace s
            ++ [Print " " [("System version: {}", VStr (sys_version lib))];
                Print " " [("Pandas version: {}", VStr (pd_version lib))];
                Print " " [("Tensorflow version: {}", VStr (tf_version lib))];
                Call LoadData None; Call BuildDataset None;
                Call BuildModel None; Call Fit None;
                Print " "
                  [("Took {} seconds for training.",
                    VTimer (Some (elapsed lib [Call Fit None])))]]
  end.
Proof.
  unfold prepare, load_split_write, cell_3, cell_4, cell_6, cell_8,
    load_pandas_df, print, log, setenv.
  repeat run_step.
  destruct (movielens_download lib "1m") as [e|rs] eqn:Hdl.
  { erewrite run_bind_inl by reflexivity. by eexists. }
  set (df := mkDF ["userID"; "itemID"; "rating"; "timestamp"]%string
               (with_range_index rs)).
  destruct (filter_test_rows (python_chrono_split df (3 # 4)).1
              (python_chrono_split df (3 # 4)).2)
    as (test1 & test & Hu & Hi & Hft & _).
  unfold cell_10, cell_12, cell_14, cell_16, write_file, read_file.
  repeat run_step. fold df.
  rewrite Hu. repeat run_step. rewrite Hi. repeat run_step.
  rewrite lookup_insert_ne by done. rewrite !lookup_insert_eq.
  destruct (NCFDataset lib _ _ 42) as [e|d] eqn:Hds.
  { erewrite run_bind_inl by reflexivity. by eexists. }
  unfold cell_18, getenv. repeat run_step.
  destruct (NCF lib _ _) as [e|m] eqn:Hncf.
  { erewrite run_bind_inl by reflexivity. by eexists. }
  repeat run_step. unfold cell_19.
  destruct (fit lib m d) as [e|fitted] eqn:Hfit.
  { erewrite run_bind_inl.
    2:{ apply run_with_timer. repeat run_step. rewrite Hfit. reflexivity. }
    by eexists. }
  erewrite run_bind_inr.
  2:{ apply run_with_timer. repeat run_step. rewrite Hfit.
      repeat run_step. reflexivity. }
  unfold print, log. repeat run_step. cbn [app drop length trace].
  rewrite !drop_app_length.
  exists rs, test, d, m, fitted. fold df.
  split_and!;
    first [ done
          | lookup_var
          | eexists; split; [lookup_var|lookup_obj]
          | cbn [trace]; by rewrite <- !(assoc_L (++)) ].
Qed.
End Calls.

Section Scoring.
Context {E Dataset Model : Type}.
Variable lib : Library E Dataset Model.
Abbreviation St11 := (State E Dataset Model).

Lemma cell_21_keeps_scored :
  steps (always (keeps ["test"; "TOP_K"; "train_time"]%string))
    (cell_21 lib).
Proof. unfold_cells. steps_with keeps_leaf. Qed.

(** The cells from the predictions on: how they end, and what they
    have computed when they return. *)
Lemma scoring_outcome (s : St11) (train test : DataFrame Rating)
    (m : Model) (k : Z) (t1 : Q) :
  let us := unique (column userID train) in
  let it := unique (column itemID train) in
  refers_to "train" (FRatings train) s →
  refers_to "test" (FRatings test) s →
  globals s !! "model" = Some (VModel m) →
  globals s !! "TOP_K" = Some (VInt k) →
  globals s !! "train_time" = Some (VTimer (Some t1)) →
  match (cell_21 lib;; cell_24 lib;; cell_25 lib) s with
  | (inl e, _) => foreseen (inl e : PyExc E + unit)
  | (inr _, s') =>
      ∃ pss df mp nd pr rc,
        let ap := drop_rating
                    (mkDF (columns (merge_outer train df))
                       (filter (λ p, m_rating p.2 = None)
                          (rows (merge_outer train df)))) in
        let t2 := elapsed lib (replicate (length us) (Call Predict None)) in
        Forall2 (λ u ps, predict lib m (replicate (length it) u) it = inr ps)
          us pss
        ∧ frame_of_lists (us ≫= λ u, replicate (length it) u)
            (us ≫= λ _, it) (concat pss) = Some df
        ∧ map_at_k lib test ap k = inr mp
        ∧ ndcg_at_k lib test ap k = inr nd
        ∧ precision_at_k lib test ap k = inr pr
        ∧ recall_at_k lib test ap k = inr rc
        ∧ trace s'
          = trace s ++ replicate (length us) (Call Predict None)
            ++ [Print " "
                  [("Took {} seconds for prediction.", VTimer (Some t2))];
                Call MapAtK None; Call NdcgAtK None; Call PrecisionAtK None;
                Call RecallAtK None;
                Print "\n"
                  [("MAP:\t%f", VFloat mp); ("NDCG:\t%f", VFloat nd);
                   ("Precision@K:\t%f", VFloat pr);
                   ("Recall@K:\t%f", VFloat rc)]]
            ++ (if is_jupyter lib
                then [Glue "map" (VFloat mp); Glue "ndcg" (VFloat nd);
                      Glue "precision" (VFloat pr); Glue "recall" (VFloat rc);
                      Glue "train_time" (VFloat t1);
                      Glue "test_time" (VFloat t2)]
                else [])
  end.
Proof.
  intros us it Htrain Htest Hm Hk Ht1.
  pose proof (cell_21_keeps_scored s) as [Hkept Hheap].
  destruct (cell_21_run lib s train m Htrain Hm)
    as [s1 [(us1 & u & us2 & pss & e & _ & _ & _ & Hr & _)
           |[(pss & _ & _ & Hr & _)
            |(pss & df & Hall & Hlen & Hdf & Hr & Hap & Ht2 & Htr)]]];
    rewrite Hr in Hkept, Hheap; cbn [snd] in Hkept, Hheap.
  - by rewrite (run_bind_inl _ _ _ _ _ Hr).
  - by rewrite (run_bind_inl _ _ _ _ _ Hr).
  - rewrite (run_bind_inr _ _ _ _ _ Hr).
    destruct Htest as (a & Hva & Hoa).
    destruct Hap as (b & Hvb & Hob).
    assert (globals s1 !! "test" = Some (VFrame a)) as Hva1.
    { rewrite Hkept; [done|]. apply list_elem_of_here. }
    assert (heap s1 !! a = Some (FRatings test)) as Hoa1
      by (by eapply prefix_lookup_Some).
    assert (globals s1 !! "TOP_K" = Some (VInt k)) as Hk1.
    { rewrite Hkept; [done|]. apply list_elem_of_further, list_elem_of_here. }
    assert (globals s1 !! "train_time" = Some (VTimer (Some t1))) as Ht11.
    { rewrite Hkept; [done|].
      do 2 apply list_elem_of_further. apply list_elem_of_here. }
    unfold cell_24, evaluate. repeat run_step.
    destruct (map_at_k lib test _ k) as [e|mp] eqn:Hmp.
    { by erewrite run_bind_inl by reflexivity. }
    repeat run_step.
    destruct (ndcg_at_k lib test _ k) as [e|nd] eqn:Hnd.
    { by erewrite run_bind_inl by reflexivity. }
    repeat run_step.
    destruct (precision_at_k lib test _ k) as [e|pr] eqn:Hpr.
    { by erewrite run_bind_inl by reflexivity. }
    repeat run_step.
    destruct (recall_at_k lib test _ k) as [e|rc] eqn:Hrc.
    { by erewrite run_bind_inl by reflexivity. }
    unfold print, log. repeat run_step.
    unfold cell_25, glue, log.
    destruct (is_jupyter lib).
    + repeat run_step. cbn [fst snd trace].
      exists pss, df, mp, nd, pr, rc. split_and!; try done.
      rewrite Htr. by rewrite <- !(assoc_L (++)).
    + cbn [mret M_ret fst snd trace].
      exists pss, df, mp, nd, pr, rc. split_and!; try done.
      rewrite Htr. rewrite (right_id_L [] (++)).
      by rewrite <- !(assoc_L (++)).
Qed.
End Scoring.

Section Runs.
Context {E Dataset Model : Type}.
Variable lib : Library E Dataset Model.
Abbreviation St12 := (State E Dataset Model).

(** The notebook, cut between the training and the predictions. *)
Lemma notebook_split (s : St12) :
  notebook lib s
  = ((prepare lib;; cell_19 lib)
     ≫= λ _, cell_21 lib;; cell_24 lib;; cell_25 lib) s.
Proof.
  unfold notebook, train_and_score. rewrite !run_bind.
  destruct (prepare lib s) as [[e|[]] s1]; [done|].
  rewrite !run_bind.
  destruct (cell_19 lib s1) as [[e|[]] s2]; [done|].
  rewrite !run_bind.
  destruct (cell_21 lib s2) as [[e|[]] s3]; [done|].
  rewrite !run_bind.
  by destruct (cell_24 lib s3) as [[e|[]] s4].
Qed.


(** A run that returns, call by call. *)
Lemma notebook_inr (s s' : St12) :
  notebook lib s = (inr tt, s') →
  ∃ rs test d m fitted pss df mp nd pr rc,
    let ratings := mkDF ["userID"; "itemID"; "rating"; "timestamp"]%string
                     (with_range_index rs) in
    let train := (python_chrono_split ratings (3 # 4)).1 in
    let us := unique (column userID train) in
    let it := unique (column itemID train) in
    let ap := drop_rating
                (mkDF (columns (merge_outer train df))
                   (filter (λ p, m_rating p.2 = None)
                      (rows (merge_outer train df)))) in
    let t1 := elapsed lib [Call Fit None] in
    let t2 := elapsed lib (replicate (length us) (Call Predict None)) in
    (movielens_download lib "1m" = inr rs
     ∧ filter_test train (python_chrono_split ratings (3 # 4)).2 = Some test
     ∧ NCFDataset lib (Some (to_csv train false))
         (Some (to_csv test false)) 42 = inr d
     ∧ NCF lib (<["CUDA_VISIBLE_DEVICES" := "0"]> (environ s))
         {| n_users := ds_n_users lib d;
            n_items := ds_n_items lib d;
            model_type := "NeuMF";
            n_factors := 4;
            layer_sizes := [16; 8; 4];
            n_epochs := 50;
            batch_size := 16384;
            learning_rate := 1 # 1000;
            verbose := 1;
            seed := 42 |} = inr m
     ∧ fit lib m d = inr fitted
     ∧ Forall2
         (λ u ps, predict lib fitted (replicate (length it) u) it = inr ps)
         us pss
     ∧ frame_of_lists (us ≫= λ u, replicate (length it) u)
         (us ≫= λ _, it) (concat pss) = Some df
     ∧ map_at_k lib test ap 10 = inr mp
     ∧ ndcg_at_k lib test ap 10 = inr nd
     ∧ precision_at_k lib test ap 10 = inr pr
     ∧ recall_at_k lib test ap 10 = inr rc)
    ∧ refers_to "train" (FRatings train) s'
    ∧ trace s'
      = trace s
        ++ [Print " " [("System version: {}", VStr (sys_version lib))];
            Print " " [("Pandas version: {}", VStr (pd_version lib))];
            Print " " [("Tensorflow version: {}", VStr (tf_version lib))];
            Call LoadData None; Call BuildDataset None;
            Call BuildModel None; Call Fit None;
            Print " " [("Took {} seconds for training.", VTimer (Some t1))]]
        ++ replicate (length us) (Call Predict None)
        ++ [Print " "
              [("Took {} seconds for prediction.", VTimer (Some t2))];
            Call MapAtK None; Call NdcgAtK None; Call PrecisionAtK None;
            Call RecallAtK None;
            Print "\n"
              [("MAP:\t%f", VFloat mp); ("NDCG:\t%f", VFloat nd);
               ("Precision@K:\t%f", VFloat pr);
               ("Recall@K:\t%f", VFloat rc)]]
        ++ (if is_jupyter lib
            then [Glue "map" (VFloat mp); Glue "ndcg" (VFloat nd);
                  Glue "precision" (VFloat pr); Glue "recall" (VFloat rc);
                  Glue "train_time" (VFloat t1);
                  Glue "test_time" (VFloat t2)]
            else []).
Proof.
  rewrite notebook_split. intros Hrun.
  apply bind_inr_inv in Hrun as ([] & s1 & H1 & H2).
  pose proof (training_outcome lib s) as Ha. rewrite H1 in Ha.
  destruct Ha as (rs & test & d & m & fitted & Hdl & Hft & Hds & Hncf & Hfit
                  & Htrain & Htest & Hm & Hk & Ht & Htr1).
  pose proof (scoring_outcome lib s1 _ _ _ _ _ Htrain Htest Hm Hk Ht) as Hb.
  rewrite H2 in Hb.
  destruct Hb as (pss & df & mp & nd & pr & rc & Hall & Hdf & Hmp & Hnd
                  & Hpr & Hrc & Htr2).
  exists rs, test, d, m, fitted, pss, df, mp, nd, pr, rc.
  split; [by split_and!|]. split.
  - assert (steps (always (keeps settled))
              (cell_21 lib;; cell_24 lib;; cell_25 lib)) as Hkeeps.
    { apply steps_bind; [apply _|apply cell_21_keeps|intros _].
      apply steps_bind; [apply _|apply cell_24_keeps|intros _].
      apply cell_25_keeps. }
    specialize (Hkeeps s1). rewrite H2 in Hkeeps.
    apply (keeps_refers_to _ _ _ _ _ Hkeeps); [|done].
    apply list_elem_of_further, list_elem_of_here.
  - rewrite Htr2, Htr1. by rewrite <- !(assoc_L (++)).
Qed.
End Runs.

Section Returned.
Context {E Dataset Model : Type}.
Variable lib : Library E Dataset Model.

(** X12: a run that returns has made the library calls of the
    pipeline on these arguments: the download of the "1m" data; the
    dataset from the CSV form of the two frames of the split, the test
    frame filtered, and seed 42; the NeuMF model for the users and
    items of the dataset, with 4 factors, layers 16, 8 and 4, 50
    epochs, batches of 16384, learning rate 0.001 and seed 42, in the
    environment with CUDA_VISIBLE_DEVICES "0"; the training of that
    model on that dataset; a prediction by the fitted model for every
    user of the train frame, over all its items; and the four metrics
    on the filtered test frame and the unseen pairs, at k = 10. *)
Theorem library_calls_of_a_run (s s' : State E Dataset Model) :
  notebook lib s = (inr tt, s') →
  ∃ rs test d m fitted pss df,
    let ratings := mkDF ["userID"; "itemID"; "rating"; "timestamp"]%string
                     (with_range_index rs) in
    let train := (python_chrono_split ratings (3 # 4)).1 in
    let us := unique (column userID train) in
    let it := unique (column itemID train) in
    let all_predictions :=
      drop_rating
        (mkDF (columns (merge_outer train df))
           (filter (λ p, m_rating p.2 = None)
              (rows (merge_outer train df)))) in
    movielens_download lib "1m" = inr rs
    ∧ filter_test train (python_chrono_split ratings (3 # 4)).2 = Some test
    ∧ NCFDataset lib (Some (to_csv train false))
        (Some (to_csv test false)) 42 = inr d
    ∧ NCF lib (<["CUDA_VISIBLE_DEVICES" := "0"]> (environ s))
        {| n_users := ds_n_users lib d;
           n_items := ds_n_items lib d;
           model_type := "NeuMF";
           n_factors := 4;
           layer_sizes := [16; 8; 4];
           n_epochs := 50;
           batch_size := 16384;
           learning_rate := 1 # 1000;
           verbose := 1;
           seed := 42 |} = inr m
    ∧ fit lib m d = inr fitted
    ∧ Forall2
        (λ u ps, predict lib fitted (replicate (length it) u) it = inr ps)
        us pss
    ∧ frame_of_lists (us ≫= λ u, replicate (length it) u)
        (us ≫= λ _, it) (concat pss) = Some df
    ∧ (∃ v, map_at_k lib test all_predictions 10 = inr v)
    ∧ (∃ v, ndcg_at_k lib test all_predictions 10 = inr v)
    ∧ (∃ v, precision_at_k lib test all_predictions 10 = inr v)
    ∧ (∃ v, recall_at_k lib test all_predictions 10 = inr v).
Proof.
  intros Hrun.
  destruct (notebook_inr lib s s' Hrun)
    as (rs & test & d & m & fitted & pss & df & mp & nd & pr & rc
        & (Hdl & Hft & Hds & Hncf & Hfit & Hall & Hdf & Hmp & Hnd & Hpr & Hrc)
        & _).
  exists rs, test, d, m, fitted, pss, df. cbv zeta.
  split_and!; try done; by eexists.
Qed.

(** X13: the events of a run that returns, in order: the three version
    lines; the download, the construction of the dataset and of the
    model, and the training; the training time; one prediction call
    for each user of the train frame; the prediction time; the four
    evaluations; the four metrics in one [print] separated by
    newlines; and, in Jupyter only, the six records, the metrics
    recorded being the metrics printed.  The training time covers
    the call of [fit] alone and the prediction time the calls of
    [predict]. *)
Theorem events_of_a_run (s s' : State E Dataset Model) :
  notebook lib s = (inr tt, s') →
  ∃ train mp nd pr rc,
    let n := length (unique (column userID train)) in
    let t1 := elapsed lib [Call Fit None] in
    let t2 := elapsed lib (replicate n (Call Predict None)) in
    refers_to "train" (FRatings train) s'
    ∧ trace s'
      = trace s
        ++ [Print " " [("System version: {}", VStr (sys_version lib))];
            Print " " [("Pandas version: {}", VStr (pd_version lib))];
            Print " " [("Tensorflow version: {}", VStr (tf_version lib))];
            Call LoadData None; Call BuildDataset None;
            Call BuildModel None; Call Fit None;
            Print " " [("Took {} seconds for training.", VTimer (Some t1))]]
        ++ replicate n (Call Predict None)
        ++ [Print " "
              [("Took {} seconds for prediction.", VTimer (Some t2))];
            Call MapAtK None; Call NdcgAtK None; Call PrecisionAtK None;
            Call RecallAtK None;
            Print "\n"
              [("MAP:\t%f", VFloat mp); ("NDCG:\t%f", VFloat nd);
               ("Precision@K:\t%f", VFloat pr);
               ("Recall@K:\t%f", VFloat rc)]]
        ++ (if is_jupyter lib
            then [Glue "map" (VFloat mp); Glue "ndcg" (VFloat nd);
                  Glue "precision" (VFloat pr); Glue "recall" (VFloat rc);
                  Glue "train_time" (VFloat t1);
                  Glue "test_time" (VFloat t2)]
            else []).
Proof.
  intros Hrun.
  destruct (notebook_inr lib s s' Hrun)
    as (rs & test & d & m & fitted & pss & df & mp & nd & pr & rc
        & _ & Htrain & Htrace).
  eexists _, mp, nd, pr, rc. cbv zeta. split; [exact Htrain|exact Htrace].
Qed.
End Returned.

(* ------------------------------------------------------------------ *)
(** ** The theorems on the small instance *)

Section Scored.
Import Evaluation.

(** The metrics of the small instance with two recommendations a user:
    user 1 is recommended items 10 and 11, of which 10 is a hit, and
    user 2 items 14 and 15, of which none is. *)
Lemma rational_metrics_scored :
  (precision_at_k Demo.test Demo.scored 2 == 1 # 4)%Q
  ∧ (recall_at_k Demo.test Demo.scored 2 == 1 # 2)%Q
  ∧ (map_at_k Demo.test Demo.scored 2 == 1 # 2)%Q.
Proof. by vm_compute. Qed.

(** With ten recommendations, item 10 is a hit at rank 1 for user 1
    and at rank 3 for user 2. *)
Lemma rational_metrics_scored_10 :
  (precision_at_k Demo.test Demo.scored 10 == 1 # 10)%Q
  ∧ (recall_at_k Demo.test Demo.scored 10 == 1)%Q
  ∧ (map_at_k Demo.test Demo.scored 10 == 2 # 3)%Q.
Proof. by vm_compute. Qed.



End Scored.



Lemma filter_step_exact_witness :
  ∃ s' test',
    cell_12 Demo.after_split = (inr tt, s')
    ∧ refers_to "test" (FRatings test') s'
    ∧ (1, Demo.r 1 10 30) ∈ rows test'.
Proof.
  assert (refers_to "train" (FRatings Demo.train) Demo.after_split)
    as Htrain by (exists 1%nat; split; vm_compute; reflexivity).
  assert (refers_to "test" (FRatings Demo.test) Demo.after_split)
    as Htest by (exists 2%nat; split; vm_compute; reflexivity).
  destruct (filter_step_exact Demo.after_split _ _ Htrain Htest)
    as (s' & test' & Hrun & Href & _ & _ & _ & Hkept & _).
  exists s', test'. split; [exact Hrun|]. split; [exact Href|].
  apply (Hkept _ (7, Demo.r 1 13 7) (6, Demo.r 3 10 1));
    first [reflexivity | vm_compute; repeat constructor].
Defined.

Lemma python_chrono_split_chronological_witness :
  ((0, Demo.r 2 10 50) ∈ rows Demo.train
   ∧ ((0, Demo.r 2 10 50) ∉ rows Demo.test))
  ∨ (((0, Demo.r 2 10 50) ∉ rows Demo.train)
     ∧ (0, Demo.r 2 10 50) ∈ rows Demo.test).
Proof.
  destruct (python_chrono_split_chronological Demo.df) as (_ & Hone & _).
  apply Hone.
  - apply (bool_decide_unpack (NoDup (index Demo.df))). vm_compute. exact I.
  - vm_compute. repeat constructor.
Defined.

Lemma cell_12_frame_witness :
  let s' := (cell_12 Demo.after_split).2 in
  globals s' !! "train" = Some (VFrame 1)
  ∧ heap s' !! 1%nat = Some (FRatings Demo.train).
Proof.
  destruct (cell_12_frame Demo.after_split) as [_ Hkept].
  apply (Hkept "train"%string).
  - apply list_elem_of_here.
  - vm_compute. reflexivity.
  - vm_compute. reflexivity.
Defined.

Lemma csv_files_four_columns_witness :
  ∃ s' train,
    load_split_write (Demo.lib true) (fresh ∅) = (inr tt, s')
    ∧ files s' !! "./train.csv"%string = Some (to_csv train false)
    ∧ csv_header (to_csv train false) = header.
Proof.
  destruct (csv_files_four_columns (Demo.lib true) (fresh ∅) Demo.ratings
              eq_refl)
    as (s' & df & train & test & Hrun & _ & _ & _ & _ & Hfile & _ & Hcsv).
  exists s', train. split; [exact Hrun|]. split; [exact Hfile|].
  apply (Hcsv train), list_elem_of_here.
Defined.

Lemma cuda_visible_devices_only_witness :
  ∃ params model,
    NCF (Demo.lib true) (<["CUDA_VISIBLE_DEVICES" := "0"]> ∅) params
    = inr model
    ∧ globals (prepare (Demo.lib true) (fresh ∅)).2 !! "model"
      = Some (VModel model).
Proof.
  destruct (cuda_visible_devices_only (Demo.lib true) (fresh ∅))
    as [_ Hmodel].
  apply Hmodel. vm_compute. reflexivity.
Defined.

Lemma exceptions_propagate_witness :
  (notebook Demo.interrupted (fresh ∅)).1
  = inl (LibraryError "KeyboardInterrupt"%string).
Proof.
  destruct (exceptions_propagate Demo.interrupted (fresh ∅))
    as (new & Htrace & Hlast & _).
  change (trace (fresh ∅) ++ new) with new in Htrace.
  apply (Hlast (removelast (trace (notebook Demo.interrupted (fresh ∅)).2))
           Fit "KeyboardInterrupt"%string []).
  rewrite <- Htrace. vm_compute. reflexivity.
Defined.

Lemma glue_iff_jupyter_witness :
  no_glue (fresh ∅) (notebook (Demo.lib false) (fresh ∅)).2
  ∧ ∃ before printed glued,
      Forall (λ ev, ¬ is_glue ev) before
      ∧ length glued = 6%nat
      ∧ trace (notebook (Demo.lib true) (fresh ∅)).2
        = before ++ [printed] ++ glued.
Proof.
  split.
  - destruct (glue_iff_jupyter (Demo.lib false)) as [Hout _].
    apply Hout. reflexivity.
  - destruct (glue_iff_jupyter (Demo.lib true)) as [_ Hin].
    assert (notebook (Demo.lib true) (fresh ∅)
            = (inr tt, (notebook (Demo.lib true) (fresh ∅)).2)) as Hrun
      by (vm_compute; reflexivity).
    destruct (Hin _ _ Hrun)
      as (before & test & ap & k & m & n & p & r & glued
          & _ & _ & _ & _ & Hbefore & Htrace & Hglued).
    cbn [is_jupyter Demo.lib] in Hglued.
    destruct Hglued as (t1 & t2 & _ & _ & ->).
    refine (ex_intro _ before (ex_intro _ _ (ex_intro _ _
              (conj Hbefore (conj _ Htrace))))).
    reflexivity.
Defined.

Lemma unseen_pairs_exact_witness :
  ∃ all_predictions,
    refers_to "all_predictions" (FUnseen all_predictions)
      (cell_21 (Demo.lib true) Demo.after_training).2
    ∧ length (filter (λ p, unseen_key p.2 = (1, 11)) (rows all_predictions))
      = 1%nat
    ∧ length (filter (λ p, unseen_key p.2 = (1, 12)) (rows all_predictions))
      = 0%nat.
Proof.
  assert (refers_to "train" (FRatings Demo.train) Demo.after_training)
    as Htrain by (exists 1%nat; split; vm_compute; reflexivity).
  assert (cell_21 (Demo.lib true) Demo.after_training
          = (inr tt, (cell_21 (Demo.lib true) Demo.after_training).2))
    as Hrun by (vm_compute; reflexivity).
  destruct (unseen_pairs_exact (Demo.lib true) _ _ _ Htrain Hrun)
    as (ap & Href & _ & Hcount).
  exists ap. split; [exact Href|].
  rewrite !Hcount. split; vm_compute; reflexivity.
Defined.

Lemma cell_12_idempotent_witness :
  ∃ s1 s2 test',
    cell_12 Demo.after_split = (inr tt, s1)
    ∧ cell_12 s1 = (inr tt, s2)
    ∧ refers_to "test" (FRatings test') s1
    ∧ refers_to "test" (FRatings test') s2.
Proof.
  assert (refers_to "train" (FRatings Demo.train) Demo.after_split)
    as Htrain by (exists 1%nat; split; vm_compute; reflexivity).
  assert (refers_to "test" (FRatings Demo.test) Demo.after_split)
    as Htest by (exists 2%nat; split; vm_compute; reflexivity).
  destruct (cell_12_idempotent Demo.after_split _ _ Htrain Htest)
    as (s1 & s2 & test' & H1 & H2 & R1 & R2 & _).
  exists s1, s2, test'.
  split; [exact H1|]. split; [exact H2|]. split; [exact R1|exact R2].
Defined.

Lemma dataset_from_csv_files_witness :
  ∃ s',
    (cell_14;; cell_16 (Demo.lib true)) Demo.after_split = (inr tt, s')
    ∧ files s' !! "./train.csv"%string = Some (to_csv Demo.train false)
    ∧ globals s' !! "data" = Some (VDataset tt).
Proof.
  assert (refers_to "train" (FRatings Demo.train) Demo.after_split)
    as Htrain by (exists 1%nat; split; vm_compute; reflexivity).
  assert (refers_to "test" (FRatings Demo.test) Demo.after_split)
    as Htest by (exists 2%nat; split; vm_compute; reflexivity).
  assert (globals Demo.after_split !! "SEED" = Some (VInt 42))
    as Hseed by (vm_compute; reflexivity).
  destruct (dataset_from_csv_files (Demo.lib true) Demo.after_split
              _ _ _ Htrain Htest Hseed)
    as (s' & Hrun & Hfiles & Hdata).
  exists s'. split; [exact Hrun|]. split.
  - rewrite Hfiles. rewrite lookup_insert_ne by done. apply lookup_insert_eq.
  - apply Hdata. reflexivity.
Defined.

Lemma settled_after_filter_witness :
  refers_to "train" (FRatings Demo.train)
    ((cell_14;; cell_16 (Demo.lib true);; cell_18 (Demo.lib true);;
      cell_19 (Demo.lib true);; cell_21 (Demo.lib true);;
      cell_24 (Demo.lib true);; cell_25 (Demo.lib true))
       Demo.after_split).2.
Proof.
  destruct (settled_after_filter (Demo.lib true) Demo.after_split)
    as [_ Hkept].
  apply Hkept.
  - apply list_elem_of_further, list_elem_of_here.
  - exists 1%nat. split; vm_compute; reflexivity.
Defined.

Lemma only_csv_files_written_witness :
  files (notebook (Demo.lib true) (fresh ∅)).2 !! "./ratings.csv"%string
  = files (fresh (E:=string) (Dataset:=unit) (Model:=unit) ∅)
      !! "./ratings.csv"%string.
Proof.
  apply (only_csv_files_written (Demo.lib true) (fresh ∅)); discriminate.
Defined.

Lemma cell_21_asks_every_pair_witness :
  ∃ pss,
    Forall2 (λ u ps, predict (Demo.lib true) tt (replicate 5 u)
                       (unique (column itemID Demo.train)) = inr ps)
      (unique (column userID Demo.train)) pss
    ∧ length (concat pss) = 15%nat.
Proof.
  assert (refers_to "train" (FRatings Demo.train) Demo.after_training)
    as Htrain by (exists 1%nat; split; vm_compute; reflexivity).
  assert (globals Demo.after_training !! "model" = Some (VModel tt))
    as Hmodel by (vm_compute; reflexivity).
  assert (cell_21 (Demo.lib true) Demo.after_training
          = (inr tt, (cell_21 (Demo.lib true) Demo.after_training).2))
    as Hrun by (vm_compute; reflexivity).
  destruct (cell_21_asks_every_pair (Demo.lib true) _ _ _ _ Htrain Hmodel Hrun)
    as (pss & Hall & Hlen & _).
  exists pss. split; [exact Hall|exact Hlen].
Defined.

Lemma cell_21_checks_total_witness :
  ∃ s',
    cell_21 Demo.one_score Demo.after_training
    = (inl (ValueError "All arrays must be of the same length"), s')
    ∧ trace s'
      = trace Demo.after_training ++ replicate 3 (Call Predict None).
Proof.
  assert (refers_to "train" (FRatings Demo.train) Demo.after_training)
    as Htrain by (exists 1%nat; split; vm_compute; reflexivity).
  assert (globals Demo.after_training !! "model" = Some (VModel tt))
    as Hmodel by (vm_compute; reflexivity).
  assert (Forall2
            (λ u ps,
               predict Demo.one_score tt
                 (replicate (length (unique (column itemID Demo.train))) u)
                 (unique (column itemID Demo.train)) = inr ps)
            (unique (column userID Demo.train))
            [[1 # 2]; [1 # 2]; [1 # 2]]) as Hall
    by (vm_compute; repeat constructor).
  destruct (cell_21_checks_total Demo.one_score _ _ _ _ Htrain Hmodel Hall)
    as (s' & _ & Hshort).
  destruct Hshort as (Hrun & _ & Htrace); [vm_compute; lia|].
  exists s'. split; [exact Hrun|exact Htrace].
Defined.
Lemma scores_by_position_witness :
  ∃ all_predictions,
    refers_to "all_predictions" (FUnseen all_predictions)
      (cell_21 (Demo.lib true) Demo.after_training).2
    ∧ columns all_predictions
      = ["userID"; "itemID"; "timestamp"; "prediction"]%string
    ∧ ∀ p, p ∈ rows all_predictions → u_timestamp p.2 = None.
Proof.
  assert (refers_to "train" (FRatings Demo.train) Demo.after_training)
    as Htrain by (exists 1%nat; split; vm_compute; reflexivity).
  assert (globals Demo.after_training !! "model" = Some (VModel tt))
    as Hmodel by (vm_compute; reflexivity).
  assert (cell_21 (Demo.lib true) Demo.after_training
          = (inr tt, (cell_21 (Demo.lib true) Demo.after_training).2))
    as Hrun by (vm_compute; reflexivity).
  destruct (scores_by_position (Demo.lib true) _ _ _ _ Htrain Hmodel Hrun)
    as (ap & pss & Href & _ & Hcols & Hrows).
  exists ap. split; [exact Href|]. split; [apply Hcols; reflexivity|].
  intros p Hp. exact (proj1 (Hrows p Hp)).
Defined.

Lemma test_rows_are_scored_witness :
  ∃ s' test' all_predictions,
    (cell_12;; cell_14;; cell_16 (Demo.lib true);; cell_18 (Demo.lib true);;
     cell_19 (Demo.lib true);; cell_21 (Demo.lib true)) Demo.after_split
    = (inr tt, s')
    ∧ refers_to "test" (FRatings test') s'
    ∧ refers_to "all_predictions" (FUnseen all_predictions) s'
    ∧ rows test' = [(1, Demo.r 1 10 30); (0, Demo.r 2 10 50)].
Proof.
  assert (refers_to "train" (FRatings Demo.train) Demo.after_split)
    as Htrain by (exists 1%nat; split; vm_compute; reflexivity).
  assert (refers_to "test" (FRatings Demo.test) Demo.after_split)
    as Htest by (exists 2%nat; split; vm_compute; reflexivity).
  eexists.
  assert ((cell_12;; cell_14;; cell_16 (Demo.lib true);;
           cell_18 (Demo.lib true);; cell_19 (Demo.lib true);;
           cell_21 (Demo.lib true)) Demo.after_split
          = (inr tt,
             ((cell_12;; cell_14;; cell_16 (Demo.lib true);;
               cell_18 (Demo.lib true);; cell_19 (Demo.lib true);;
               cell_21 (Demo.lib true)) Demo.after_split).2))
    as Hrun by (vm_compute; reflexivity).
  destruct (test_rows_are_scored (Demo.lib true) _ _ _ _ Htrain Htest Hrun)
    as (test' & ap & R1 & R2 & Hrows & _).
  exists test', ap. split; [exact Hrun|]. split; [exact R1|].
  split; [exact R2|]. rewrite Hrows. vm_compute. reflexivity.
Defined.

Lemma library_calls_of_a_run_witness :
  ∃ test d m fitted,
    filter_test Demo.train Demo.test = Some test
    ∧ NCFDataset (Demo.lib true) (Some (to_csv Demo.train false))
        (Some (to_csv test false)) 42 = inr d
    ∧ fit (Demo.lib true) m d = inr fitted.
Proof.
  assert (notebook (Demo.lib true) (fresh ∅)
          = (inr tt, (notebook (Demo.lib true) (fresh ∅)).2)) as Hrun
    by (vm_compute; reflexivity).
  destruct (library_calls_of_a_run (Demo.lib true) _ _ Hrun)
    as (rs & test & d & m & fitted & pss & df & Hdl & Hft & Hds & _
        & Hfit & _).
  injection Hdl as <-.
  exists test, d, m, fitted.
  split; [exact Hft|]. split; [exact Hds|exact Hfit].
Defined.

Lemma events_of_a_run_witness :
  ∃ train,
    refers_to "train" (FRatings train)
      (notebook (Demo.lib true) (fresh ∅)).2
    ∧ length (trace (notebook (Demo.lib true) (fresh ∅)).2)
      = (20 + length (unique (column userID train)))%nat.
Proof.
  assert (notebook (Demo.lib true) (fresh ∅)
          = (inr tt, (notebook (Demo.lib true) (fresh ∅)).2)) as Hrun
    by (vm_compute; reflexivity).
  destruct (events_of_a_run (Demo.lib true) _ _ Hrun)
    as (train & mp & nd & pr & rc & Href & Htrace).
  exists train. split; [exact Href|].
  rewrite Htrace. cbn [is_jupyter Demo.lib trace fresh].
  rewrite !length_app, length_replicate. cbn [length app]. lia.
Defined.

Lemma all_predictions_size_witness :
  ∃ all_predictions,
    refers_to "all_predictions" (FUnseen all_predictions)
      (cell_21 (Demo.lib true) Demo.after_training).2
    ∧ length (rows all_predictions) = 8%nat.
Proof.
  assert (refers_to "train" (FRatings Demo.train) Demo.after_training)
    as Htrain by (exists 1%nat; split; vm_compute; reflexivity).
  assert (globals Demo.after_training !! "model" = Some (VModel tt))
    as Hmodel by (vm_compute; reflexivity).
  assert (cell_21 (Demo.lib true) Demo.after_training
          = (inr tt, (cell_21 (Demo.lib true) Demo.after_training).2))
    as Hrun by (vm_compute; reflexivity).
  destruct (all_predictions_size (Demo.lib true) _ _ _ _ Htrain Hmodel Hrun)
    as (ap & Href & Hsize).
  exists ap. split; [exact Href|].
  assert (length (distinct (rating_key ∘ snd <$> rows Demo.train)) = 7%nat)
    as H7 by (vm_compute; reflexivity).
  assert ((length (unique (column userID Demo.train))
           * length (unique (column itemID Demo.train)))%nat = 15%nat)
    as H15 by (vm_compute; reflexivity).
  rewrite H7, H15 in Hsize. lia.
Defined.

Lemma cell_21_stops_at_first_raise_witness :
  ∃ s',
    cell_21 Demo.exhausted Demo.after_training
    = (inl (LibraryError "ResourceExhaustedError"%string), s')
    ∧ trace s'
      = trace Demo.after_training
        ++ [Call Predict None;
            Call Predict (Some "ResourceExhaustedError"%string)].
Proof.
  assert (refers_to "train" (FRatings Demo.train) Demo.after_training)
    as Htrain by (exists 1%nat; split; vm_compute; reflexivity).
  assert (globals Demo.after_training !! "model" = Some (VModel tt))
    as Hmodel by (vm_compute; reflexivity).
  assert (unique (column userID Demo.train) = [1] ++ 2 :: [3]) as Hus
    by (vm_compute; reflexivity).
  assert (Forall2
            (λ u ps,
               predict Demo.exhausted tt
                 (replicate (length (unique (column itemID Demo.train))) u)
                 (unique (column itemID Demo.train)) = inr ps)
            [1] [[1 # 2; 1 # 2; 1 # 2; 1 # 2; 1 # 2]]) as Hall
    by (vm_compute; repeat constructor).
  destruct (cell_21_stops_at_first_raise Demo.exhausted _ _ _ _ _ _ _
              "ResourceExhaustedError"%string Htrain Hmodel Hus Hall)
    as (s' & Hrun & _ & Htrace).
  - vm_compute. reflexivity.
  - exists s'. split; [exact Hrun|exact Htrace].
Defined.
